(** * music-genie: the generation-record store and its analytics

    A shallow embedding of [backend/database/models.py] and
    [backend/database/operations.py] (with the [/stats] endpoint of
    [backend/main.py]), and the properties of the record store, the
    interaction counters, the statistics report, retention and the
    health score that are stated about them.

    Conventions of the embedding.
    - Python [int] is [Z]. Python [float] is an IEEE 754 binary64
      number, [spec_float] of the Standard Library with 53 bits of
      precision: signed zeros, infinities and NaN are values, every
      operation rounds to nearest, ties to even, and a comparison with
      NaN is false. [round(x, 2)] rounds the exact value of [x] to the
      nearest hundredth, ties to even, and returns the float nearest to
      that decimal.
    - A [datetime] is a number of microseconds since 0001-01-01
      00:00:00, up to 9999-12-31 23:59:59.999999; a [timedelta] is a
      number of microseconds. [timedelta(days=n)] and a subtraction that
      leave their ranges raise [OverflowError].
    - An [Integer] column holds 32 bits and a [String(n)] column [n]
      characters: a statement that writes a value outside is refused
      with [DataError]. A value drawn from the sequence of [id] by an
      INSERT that is then refused is not given back.
    - [sum] adds floats from left to right, as CPython does up to 3.11;
      later versions compensate the rounding errors of the partial
      sums, which can change the last bits of a sum of three or more
      floats.
    - A Python exception is a value of [exn]; code that can raise lives
      in the [result] monad, and [try/except] is a [match] on it.
    - The ORM session is a unit of work over a database value: objects
      added, modified and deleted are pending until [commit] writes
      them, and [rollback] forgets them.  [commit] applies the schema of
      [models.py]: server defaults on insert, [onupdate] on update, the
      unique index on [generation_id].  The backing store itself is
      reliable: a statement fails only for a reason the schema gives.
    - Reading the clock ([datetime.utcnow()], SQL [now()]) is an
      argument of the operation that reads it. *)

From Stdlib Require Import ZArith Lia Bool Ascii String SpecFloat.
From stdpp Require Import base decidable option list numbers strings pretty gmap fin_maps sorting.

Local Open Scope Z_scope.

(** ** Exceptions and fallible code *)

Inductive exn : Type :=
  | ValueError (msg : string)
  | TypeError
  | ZeroDivisionError
  | OverflowError
  | KeyError (key : string)
  | IntegrityError
  | DataError
  | StatementError
  | OSError.

Inductive result (A : Type) : Type :=
  | Ok (a : A)
  | Raise (e : exn).
Arguments Ok {A} a.
Arguments Raise {A} e.

Definition rbind {A B} (m : result A) (k : A -> result B) : result B :=
  match m with
  | Ok a => k a
  | Raise e => Raise e
  end.

#[global] Instance result_ret : MRet result := fun _ a => Ok a.
#[global] Instance result_bind : MBind result := fun _ _ k m => rbind m k.

(** Whether a call returned, rather than raised. *)
Definition returned {A} (m : result A) : bool :=
  match m with
  | Ok _ => true
  | Raise _ => false
  end.

(** ** Numbers *)

Definition float : Type := spec_float.
Definition float_prec : Z := 53.
Definition float_emax : Z := 1024.

Definition fadd : float -> float -> float := SFadd float_prec float_emax.
Definition fmul : float -> float -> float := SFmul float_prec float_emax.
Definition fdiv : float -> float -> float := SFdiv float_prec float_emax.
Definition flt : float -> float -> bool := SFltb.
Definition fle : float -> float -> bool := SFleb.
Definition feq : float -> float -> bool := SFeqb.

Definition fzero : float := S754_zero false.

(** The float nearest to the integer [z]; exact below 2^53. *)
Definition float_of_Z (z : Z) : float :=
  binary_normalize float_prec float_emax z 0 false.

(** The least magnitude that rounds to an infinity: half an ulp above
    the largest float. *)
Definition float_overflow : Z := 2 ^ 1024 - 2 ^ 970.

(** [float(z)] *)
Definition float_of_int (z : Z) : result float :=
  if bool_decide (Z.abs z < float_overflow) then Ok (float_of_Z z)
  else Raise OverflowError.

(** The quotient of two integers, [b] not 0, rounded once. *)
Definition quotient (a b : Z) : float :=
  match a, b with
  | Z0, _ => S754_zero (b <? 0)
  | _, Z0 => S754_nan
  | _, _ =>
      fdiv (S754_finite (a <? 0) (Z.to_pos (Z.abs a)) 0)
           (S754_finite (b <? 0) (Z.to_pos (Z.abs b)) 0)
  end.

(** [a / b] on ints (true division): the exact quotient, rounded once.
    It is too large for a float exactly when its magnitude reaches
    [float_overflow]. *)
Definition int_truediv (a b : Z) : result float :=
  if bool_decide (b = 0) then Raise ZeroDivisionError
  else if bool_decide (Z.abs a < float_overflow * Z.abs b) then Ok (quotient a b)
  else Raise OverflowError.

(** [x / n], a float by an int: the int is converted first, and is
    0.0 only when it is 0. *)
Definition float_div_int (x : float) (n : Z) : result float :=
  if bool_decide (n = 0) then Raise ZeroDivisionError
  else y ← float_of_int n; Ok (fdiv x y).

(** The float a decimal literal [n / 10^k] denotes. *)
Definition decimal (n k : Z) : float := quotient n (10 ^ k).

(** Nearest integer to [n / d], ties to the even one; [d] is positive. *)
Definition div_half_even (n d : Z) : Z :=
  let q := n / d in
  let r := n mod d in
  match 2 * r ?= d with
  | Lt => q
  | Gt => q + 1
  | Eq => if Z.even q then q else q + 1
  end.

(** [round(x, 2)]: NaN and the infinities round to themselves, and a
    value that rounds to zero keeps its sign. *)
Definition py_round2 (x : float) : float :=
  match x with
  | S754_finite s m e =>
      let hundredths :=
        if 0 <=? e then Zpos m * 100 * 2 ^ e
        else div_half_even (Zpos m * 100) (2 ^ (- e)) in
      match hundredths with
      | Zpos p => fdiv (S754_finite s p 0) (S754_finite false 100 0)
      | _ => S754_zero s
      end
  | _ => x
  end.

(** A float that [round(x, 2)] leaves as it is. *)
Definition two_decimals (x : float) : Prop := py_round2 x = x.

(** [sum] of a non-empty sequence of floats: the int 0 it starts from
    becomes 0.0 at the first float, and the floats are added from left
    to right. *)
Definition py_sum (l : list float) : float := fold_left fadd l fzero.

Fixpoint sum_Z (l : list Z) : Z :=
  match l with
  | [] => 0
  | x :: l' => x + sum_Z l'
  end.

(** ** Time *)

Definition datetime := Z.
Definition timedelta := Z.

Definition us_per_hour : Z := 3600 * 1000000.
Definition us_per_day : Z := 24 * us_per_hour.

(** [datetime.max] *)
Definition datetime_max : datetime := 3652059 * us_per_day - 1.

Definition valid_datetime (t : datetime) : Prop := 0 <= t <= datetime_max.

(** [timedelta(days=days)]: at most 999999999 days either way. *)
Definition timedelta_days (days : Z) : result timedelta :=
  if bool_decide (-999999999 <= days <= 999999999) then Ok (days * us_per_day)
  else Raise OverflowError.

Definition timedelta_hours (hours : Z) : timedelta := hours * us_per_hour.

(** [t - delta] on a datetime. *)
Definition datetime_sub (t : datetime) (delta : timedelta) : result datetime :=
  if bool_decide (0 <= t - delta <= datetime_max) then Ok (t - delta)
  else Raise OverflowError.

(** [datetime.utcnow() - timedelta(days=days)] *)
Definition days_before (utcnow : datetime) (days : Z) : result datetime :=
  delta ← timedelta_days days; datetime_sub utcnow delta.

(** ** models.py: the tables *)

(** A row of [music_generations], which is also the ORM object. [row_id]
    is the column [id]; it and [created_at] are [None] on an object
    that has not been inserted yet. *)
Record MusicGeneration : Type := mkMusicGeneration {
  row_id : option Z;
  generation_id : string;
  prompt : string;
  status : string;
  device : string;
  precision : string;
  generation_time : float;
  realtime_factor : float;
  file_path : option string;
  audio_url : option string;
  file_size_mb : float;
  duration : float;
  sample_rate : Z;
  play_count : Z;
  download_count : Z;
  is_favorited : bool;
  last_played : option datetime;
  created_at : option datetime;
  updated_at : option datetime;
  user_id : option Z;
  error_message : option string;
  model_version : string
}.

(** A row of [system_metrics]; the columns the health score does not
    read are kept as they are declared. *)
Record SystemMetrics : Type := mkSystemMetrics {
  timestamp : datetime;
  cpu_usage : option float;
  memory_usage : option float;
  gpu_usage : option float;
  gpu_memory_usage : option float;
  disk_usage : option float;
  model_loaded : bool;
  model_load_time : option float;
  active_generations : Z;
  response_time_avg : option float;
  error_rate : float;
  requests_per_minute : Z
}.

(** Field updates, as attribute assignment on the object. *)
Definition set_play_count (v : Z) (g : MusicGeneration) : MusicGeneration :=
  mkMusicGeneration (row_id g) (generation_id g) (prompt g) (status g)
    (device g) (precision g) (generation_time g) (realtime_factor g)
    (file_path g) (audio_url g) (file_size_mb g) (duration g)
    (sample_rate g) v (download_count g) (is_favorited g)
    (last_played g) (created_at g) (updated_at g) (user_id g)
    (error_message g) (model_version g).

Definition set_last_played (v : option datetime) (g : MusicGeneration) : MusicGeneration :=
  mkMusicGeneration (row_id g) (generation_id g) (prompt g) (status g)
    (device g) (precision g) (generation_time g) (realtime_factor g)
    (file_path g) (audio_url g) (file_size_mb g) (duration g)
    (sample_rate g) (play_count g) (download_count g) (is_favorited g)
    v (created_at g) (updated_at g) (user_id g)
    (error_message g) (model_version g).

Definition set_is_favorited (v : bool) (g : MusicGeneration) : MusicGeneration :=
  mkMusicGeneration (row_id g) (generation_id g) (prompt g) (status g)
    (device g) (precision g) (generation_time g) (realtime_factor g)
    (file_path g) (audio_url g) (file_size_mb g) (duration g)
    (sample_rate g) (play_count g) (download_count g) v
    (last_played g) (created_at g) (updated_at g) (user_id g)
    (error_message g) (model_version g).

Definition set_updated_at (v : option datetime) (g : MusicGeneration) : MusicGeneration :=
  mkMusicGeneration (row_id g) (generation_id g) (prompt g) (status g)
    (device g) (precision g) (generation_time g) (realtime_factor g)
    (file_path g) (audio_url g) (file_size_mb g) (duration g)
    (sample_rate g) (play_count g) (download_count g) (is_favorited g)
    (last_played g) (created_at g) v (user_id g)
    (error_message g) (model_version g).

Definition set_row_id (v : option Z) (g : MusicGeneration) : MusicGeneration :=
  mkMusicGeneration v (generation_id g) (prompt g) (status g)
    (device g) (precision g) (generation_time g) (realtime_factor g)
    (file_path g) (audio_url g) (file_size_mb g) (duration g)
    (sample_rate g) (play_count g) (download_count g) (is_favorited g)
    (last_played g) (created_at g) (updated_at g) (user_id g)
    (error_message g) (model_version g).

Definition set_created_at (v : option datetime) (g : MusicGeneration) : MusicGeneration :=
  mkMusicGeneration (row_id g) (generation_id g) (prompt g) (status g)
    (device g) (precision g) (generation_time g) (realtime_factor g)
    (file_path g) (audio_url g) (file_size_mb g) (duration g)
    (sample_rate g) (play_count g) (download_count g) (is_favorited g)
    (last_played g) v (updated_at g) (user_id g)
    (error_message g) (model_version g).

(** [MusicGeneration.increment_play_count] *)
Definition increment_play_count (utcnow : datetime) (g : MusicGeneration) : MusicGeneration :=
  set_last_played (Some utcnow) (set_play_count (play_count g + 1) g).

(** [MusicGeneration.toggle_favorite]: the object after the call and the
    value returned. *)
Definition toggle_favorite_obj (g : MusicGeneration) : MusicGeneration * bool :=
  let g' := set_is_favorited (negb (is_favorited g)) g in
  (g', is_favorited g').

(** ** The database and the ORM session *)

Record Database : Type := mkDatabase {
  music_generations : list MusicGeneration;
  system_metrics : list SystemMetrics;
  id_seq : Z
}.

(** The unit of work: [session.new], [session.dirty], [session.deleted]
    over the rows the transaction reads. *)
Record Session : Type := mkSession {
  bind_db : Database;
  new : list MusicGeneration;
  dirty : list MusicGeneration;
  deleted : list MusicGeneration
}.

(** [SessionLocal()] *)
Definition SessionLocal (d : Database) : Session := mkSession d [] [] [].

Definition same_row (a b : MusicGeneration) : bool :=
  match row_id a, row_id b with
  | Some i, Some j => bool_decide (i = j)
  | _, _ => false
  end.

(** [session.add(obj)] *)
Definition session_add (g : MusicGeneration) (s : Session) : Session :=
  mkSession (bind_db s) (new s ++ [g]) (dirty s) (deleted s).

(** An attribute of a loaded object was assigned: the object, with its
    new attributes, is the pending state of its row. *)
Definition session_modified (g : MusicGeneration) (s : Session) : Session :=
  mkSession (bind_db s) (new s)
    (g :: List.filter (fun o => negb (same_row g o)) (dirty s)) (deleted s).

(** [session.delete(obj)] *)
Definition session_delete (g : MusicGeneration) (s : Session) : Session :=
  mkSession (bind_db s) (new s) (dirty s) (deleted s ++ [g]).

(** [session.rollback()] *)
Definition rollback (s : Session) : Session := SessionLocal (bind_db s).

(** A value drawn from the sequence of [id] is not given back: the
    INSERT that the unique index refuses has drawn one, and the
    rollback leaves the sequence after it. *)
Definition sequence_drawn (s : Session) : Session :=
  mkSession (mkDatabase (music_generations (bind_db s)) (system_metrics (bind_db s))
               (id_seq (bind_db s) + 1))
    (new s) (dirty s) (deleted s).

(** An [Integer] column holds 32 bits. *)
Definition int4 (z : Z) : bool := bool_decide (-2147483648 <= z <= 2147483647).

(** The UPDATE of row [r] to the state [o] of its object writes the
    columns whose value was changed; it is refused when an [Integer]
    column among them is out of range. *)
Definition update_in_range (r o : MusicGeneration) : bool :=
  (bool_decide (sample_rate o = sample_rate r) || int4 (sample_rate o))
  && (bool_decide (play_count o = play_count r) || int4 (play_count o))
  && (bool_decide (download_count o = download_count r) || int4 (download_count o))
  && (bool_decide (user_id o = user_id r) || from_option int4 true (user_id o)).

Definition flush_update_check (pending rows : list MusicGeneration) : bool :=
  forallb (fun r => match List.find (fun o => same_row o r) pending with
                    | Some o => update_in_range r o
                    | None => true
                    end) rows.

(** A [String(n)] column holds [n] characters. *)
Definition varchar (n : nat) (s : string) : bool :=
  bool_decide (String.length s <= n)%nat.

(** The INSERT of [g] is refused when an [Integer] column is out of
    range or a [String(n)] column is too long. *)
Definition insert_in_range (g : MusicGeneration) : bool :=
  int4 (sample_rate g) && int4 (play_count g) && int4 (download_count g)
  && from_option int4 true (user_id g)
  && varchar 100 (generation_id g) && varchar 20 (status g)
  && varchar 50 (device g) && varchar 20 (precision g)
  && from_option (varchar 500) true (file_path g)
  && from_option (varchar 500) true (audio_url g)
  && varchar 50 (model_version g).

(** UPDATE of the modified rows; the column [updated_at] has
    [onupdate=func.now()]. *)
Definition flush_update (db_now : datetime) (pending : list MusicGeneration)
    (r : MusicGeneration) : MusicGeneration :=
  match List.find (fun o => same_row o r) pending with
  | Some o => set_updated_at (Some db_now) o
  | None => r
  end.

(** INSERT of the new objects: [id] comes from the sequence,
    [created_at] has [server_default=func.now()], and [generation_id]
    has a unique index. *)
Fixpoint flush_insert (db_now : datetime) (pending : list MusicGeneration)
    (rows : list MusicGeneration) (seq : Z) : result (list MusicGeneration * Z) :=
  match pending with
  | [] => Ok (rows, seq)
  | g :: pending' =>
      if negb (insert_in_range g) then Raise DataError
      else if existsb (fun r => bool_decide (generation_id r = generation_id g)) rows
      then Raise IntegrityError
      else
        let created := match created_at g with
                       | Some t => Some t
                       | None => Some db_now
                       end in
        flush_insert db_now pending'
          (rows ++ [set_created_at created (set_row_id (Some seq) g)]) (seq + 1)
  end.

(** DELETE of the deleted objects. *)
Definition flush_delete (pending rows : list MusicGeneration) : list MusicGeneration :=
  List.filter (fun r => negb (existsb (fun o => same_row o r) pending)) rows.

(** [session.commit()] *)
Definition commit (db_now : datetime) (s : Session) : result Session :=
  let d := bind_db s in
  if negb (flush_update_check (dirty s) (music_generations d)) then Raise DataError
  else
  let updated := map (flush_update db_now (dirty s)) (music_generations d) in
  '(inserted, seq) ← flush_insert db_now (new s) updated (id_seq d);
  let rows := flush_delete (deleted s) inserted in
  Ok (SessionLocal (mkDatabase rows (system_metrics d) seq)).

(** [session.query(MusicGeneration).filter(...).all()] and [.first()];
    every operation below queries before it has anything pending. *)
Definition query_all (p : MusicGeneration -> bool) (s : Session) : list MusicGeneration :=
  List.filter p (music_generations (bind_db s)).

Definition query_first (p : MusicGeneration -> bool) (s : Session) : option MusicGeneration :=
  List.find p (music_generations (bind_db s)).

Definition by_generation_id (gid : string) (g : MusicGeneration) : bool :=
  bool_decide (generation_id g = gid).

(** ** The file system *)

Record file : Type := mkFile {
  size_bytes : Z;
  removable : bool
}.

(** [os.path.exists] *)
Definition path_exists (fs : gmap string file) (p : string) : bool :=
  bool_decide (is_Some (fs !! p)).

(** [os.remove]: raises [OSError] when the file is missing or cannot
    be removed. *)
Definition os_remove (fs : gmap string file) (p : string) : result (gmap string file) :=
  match fs !! p with
  | Some f => if removable f then Ok (delete p fs) else Raise OSError
  | None => Raise OSError
  end.

(** [os.path.getsize] *)
Definition getsize (fs : gmap string file) (p : string) : result Z :=
  match fs !! p with
  | Some f => Ok (size_bytes f)
  | None => Raise OSError
  end.

(** Truth value of an [Optional[str]]. *)
Definition truthy_path (p : option string) : option string :=
  match p with
  | Some s => if bool_decide (s = "") then None else Some s
  | None => None
  end.

(** ** operations.py: the interaction counters *)

(** [DatabaseOperations.record_play]. [play_duration] is only logged. *)
Definition record_play (utcnow db_now : datetime) (generation_id : string)
    (play_duration : option float) (session : Session) : Session * bool :=
  let body : result (Session * bool) :=
    match query_first (by_generation_id generation_id) session with
    | None => Ok (session, false)
    | Some generation =>
        let generation := increment_play_count utcnow generation in
        session ← commit db_now (session_modified generation session);
        Ok (session, true)
    end in
  match body with
  | Ok r => r
  | Raise _ => (rollback session, false)
  end.

(** [DatabaseOperations.toggle_favorite]; [None] is Python's [None]. *)
Definition toggle_favorite (db_now : datetime) (generation_id : string)
    (session : Session) : Session * option bool :=
  let body : result (Session * option bool) :=
    match query_first (by_generation_id generation_id) session with
    | None => Ok (session, None)
    | Some generation =>
        let '(generation, new_status) := toggle_favorite_obj generation in
        session ← commit db_now (session_modified generation session);
        Ok (session, Some new_status)
    end in
  match body with
  | Ok r => r
  | Raise _ => (rollback session, None)
  end.

(** The stored value of [is_favorited] of a generation. *)
Definition favorited_of (generation_id : string) (session : Session) : option bool :=
  is_favorited <$> query_first (by_generation_id generation_id) session.

(** ** The integrity constraints of [music_generations]

    [id] is the primary key and [generation_id] has a unique index. *)
Definition db_wf (d : Database) : Prop :=
  Forall (fun r => is_Some (row_id r)) (music_generations d)
  /\ NoDup (map row_id (music_generations d))
  /\ NoDup (map generation_id (music_generations d)).

(** The rows after an UPDATE of the row of [gid] by [f]. *)
Definition update_rows (db_now : datetime) (gid : string)
    (f : MusicGeneration -> MusicGeneration) (rows : list MusicGeneration)
    : list MusicGeneration :=
  map (fun r => if by_generation_id gid r
                then set_updated_at (Some db_now) (f r) else r) rows.

(** ** operations.py: the statistics report *)

Definition len {A} (l : list A) : Z := Z.of_nat (length l).

Definition created_since (start : datetime) (g : MusicGeneration) : bool :=
  match created_at g with
  | Some t => bool_decide (start <= t)
  | None => false
  end.

Definition created_before (cutoff : datetime) (g : MusicGeneration) : bool :=
  match created_at g with
  | Some t => bool_decide (t < cutoff)
  | None => false
  end.

Definition has_status (st : string) (g : MusicGeneration) : bool :=
  bool_decide (status g = st).

(** An entry of [device_stats] while it is accumulated ([count],
    [total_time]) and as it is returned ([count], [avg_time]). *)
Record DeviceAcc : Type := mkDeviceAcc {
  acc_count : Z;
  acc_total_time : float
}.

Record DeviceStats : Type := mkDeviceStats {
  count : Z;
  avg_time : float
}.

(** [device_stats[device]['count'] += 1] and [['total_time'] += t],
    on a dict kept in insertion order; a device not yet in the dict
    starts at count 0 and total 0. *)
Fixpoint device_add (device : string) (t : float) (stats : list (string * DeviceAcc))
    : list (string * DeviceAcc) :=
  match stats with
  | [] => [(device, mkDeviceAcc (0 + 1) (fadd fzero t))]
  | (dev, a) :: stats' =>
      if bool_decide (dev = device)
      then (dev, mkDeviceAcc (acc_count a + 1) (fadd (acc_total_time a) t)) :: stats'
      else (dev, a) :: device_add device t stats'
  end.

Definition device_loop (gens : list MusicGeneration) : list (string * DeviceAcc) :=
  fold_left (fun stats gen => device_add (device gen) (generation_time gen) stats)
    gens [].

(** The second loop: [avg_time = total_time / count], [total_time]
    dropped. *)
Fixpoint device_averages (stats : list (string * DeviceAcc))
    : result (list (string * DeviceStats)) :=
  match stats with
  | [] => Ok []
  | (dev, a) :: stats' =>
      avg ← float_div_int (acc_total_time a) (acc_count a);
      rest ← device_averages stats';
      Ok ((dev, mkDeviceStats (acc_count a) avg) :: rest)
  end.

Record Stats : Type := mkStats {
  period_days : Z;
  total_generations : Z;
  successful_generations : Z;
  failed_generations : Z;
  success_rate : float;
  avg_generation_time : float;
  avg_realtime_factor : float;
  total_file_size_mb : float;
  avg_file_size_mb : float;
  total_plays : Z;
  total_downloads : Z;
  total_favorites : Z;
  device_breakdown : list (string * DeviceStats);
  recent_24h_generations : Z;
  calculated_at : datetime
}.

(** What [get_generation_stats] returns: the report, or the degraded
    report of its [except] branch. *)
Inductive StatsReport : Type :=
  | StatsOk (stats : Stats)
  | StatsError (error : exn) (period_days total_generations
      successful_generations failed_generations : Z) (success_rate : float).

(** [DatabaseOperations.get_generation_stats]. [end_date] and
    [calculated_at] are its two readings of [datetime.utcnow()]. *)
Definition get_generation_stats (end_date calculated_at : datetime) (days : Z)
    (session : Session) : StatsReport :=
  let body : result Stats :=
    start_date ← days_before end_date days;
    let base_query := query_all (created_since start_date) session in
    let total_generations := len base_query in
    let successful_generations := len (List.filter (has_status "completed") base_query) in
    let failed_generations := len (List.filter (has_status "failed") base_query) in
    ratio ← int_truediv successful_generations (Z.max total_generations 1);
    let success_rate := fmul ratio (float_of_Z 100) in
    let successful_gens := List.filter (has_status "completed") base_query in
    '(avg_generation_time, avg_realtime_factor, total_file_size, avg_file_size) ←
      match successful_gens with
      | _ :: _ =>
          let n := len successful_gens in
          avg_generation_time ←
            float_div_int (py_sum (map generation_time successful_gens)) n;
          avg_realtime_factor ←
            float_div_int (py_sum (map realtime_factor successful_gens)) n;
          let total_file_size := py_sum (map file_size_mb successful_gens) in
          avg_file_size ← float_div_int total_file_size n;
          Ok (avg_generation_time, avg_realtime_factor, total_file_size, avg_file_size)
      | [] => Ok (fzero, fzero, fzero, fzero)
      end;
    let total_plays := sum_Z (map play_count successful_gens) in
    let total_downloads := sum_Z (map download_count successful_gens) in
    let total_favorites := len (List.filter is_favorited successful_gens) in
    let device_stats := device_loop successful_gens in
    device_stats ← device_averages device_stats;
    recent_start ← datetime_sub end_date (timedelta_hours 24);
    let recent_generations := len (query_all (created_since recent_start) session) in
    Ok (mkStats days total_generations successful_generations failed_generations
          (py_round2 success_rate) (py_round2 avg_generation_time)
          (py_round2 avg_realtime_factor) (py_round2 total_file_size)
          (py_round2 avg_file_size) total_plays total_downloads total_favorites
          device_stats recent_generations calculated_at) in
  match body with
  | Ok stats => StatsOk stats
  | Raise e => StatsError e days 0 0 0 fzero
  end.

(** The keys every report has. *)
Definition report_total (r : StatsReport) : Z :=
  match r with
  | StatsOk s => total_generations s
  | StatsError _ _ t _ _ _ => t
  end.

Definition report_successful (r : StatsReport) : Z :=
  match r with
  | StatsOk s => successful_generations s
  | StatsError _ _ _ n _ _ => n
  end.

Definition report_failed (r : StatsReport) : Z :=
  match r with
  | StatsOk s => failed_generations s
  | StatsError _ _ _ _ n _ => n
  end.

Definition report_success_rate (r : StatsReport) : float :=
  match r with
  | StatsOk s => success_rate s
  | StatsError _ _ _ _ _ q => q
  end.

Definition report_period_days (r : StatsReport) : Z :=
  match r with
  | StatsOk s => period_days s
  | StatsError _ p _ _ _ _ => p
  end.

(** main.py: the [/stats] endpoint. [db_ready] is [DATABASE_AVAILABLE
    and db]; without a database the endpoint answers with fixed mock
    figures. *)
Inductive StatsResponse : Type :=
  | StatsData (data : StatsReport)
  | StatsMock.

Definition get_stats (db_ready : bool) (end_date calculated_at : datetime)
    (days : Z) (db : Session) : StatsResponse :=
  if db_ready
  then StatsData (get_generation_stats end_date calculated_at
                    (Z.max 1 (Z.min days 365)) db)
  else StatsMock.

(** The window of [days] days ending at [end_date] can be computed:
    [days] fits a [timedelta], and its start and the start of the last
    24 hours are datetimes. *)
Definition window_representable (end_date : datetime) (days : Z) : Prop :=
  -999999999 <= days <= 999999999
  /\ valid_datetime (end_date - days * us_per_day)
  /\ valid_datetime (end_date - timedelta_hours 24).

(** The records of the trailing window of [days] days ending at [now]. *)
Definition window (now : datetime) (days : Z) (d : Database) : list MusicGeneration :=
  List.filter (created_since (now - days * us_per_day)) (music_generations d).

(** ** operations.py: retention and cleanup *)

Inductive CleanupReport : Type :=
  | DryRun (generations_to_delete : Z) (cutoff_date : datetime) (keep_favorites : bool)
  | Cleaned (deleted_records deleted_files : Z) (cutoff_date : datetime)
      (keep_favorites : bool)
  | CleanupError (error : exn).

(** The deletion query: older than the cutoff, and not favorited when
    [keep_favorites]. *)
Definition cleanup_query (cutoff_date : datetime) (keep_favorites : bool)
    (g : MusicGeneration) : bool :=
  created_before cutoff_date g
  && (if keep_favorites then bool_decide (is_favorited g = false) else true).

(** The loop over [generations_to_delete]. The file system is threaded
    outside [result]: what was removed stays removed whatever happens
    next. Only [OSError] is caught around [os.remove]. *)
Fixpoint delete_loop (gens : list MusicGeneration) (fs : gmap string file)
    (session : Session) (deleted_files deleted_records : Z)
    : gmap string file * result (Session * Z * Z) :=
  match gens with
  | [] => (fs, Ok (session, deleted_files, deleted_records))
  | gen :: gens' =>
      let '(fs, files) :=
        match truthy_path (file_path gen) with
        | Some p =>
            if path_exists fs p then
              match os_remove fs p with
              | Ok fs' => (fs', Ok (deleted_files + 1))
              | Raise OSError => (fs, Ok deleted_files)
              | Raise e => (fs, Raise e)
              end
            else (fs, Ok deleted_files)
        | None => (fs, Ok deleted_files)
        end in
      match files with
      | Ok deleted_files =>
          delete_loop gens' fs (session_delete gen session)
            deleted_files (deleted_records + 1)
      | Raise e => (fs, Raise e)
      end
  end.

(** [DatabaseOperations.cleanup_old_generations] *)
Definition cleanup_old_generations (utcnow db_now : datetime) (days_to_keep : Z)
    (keep_favorites dry_run : bool) (session : Session) (fs : gmap string file)
    : Session * gmap string file * CleanupReport :=
  match days_before utcnow days_to_keep with
  | Raise e => (rollback session, fs, CleanupError e)
  | Ok cutoff_date =>
      let generations_to_delete :=
        query_all (cleanup_query cutoff_date keep_favorites) session in
      if dry_run then
        (session, fs, DryRun (len generations_to_delete) cutoff_date keep_favorites)
      else
        let '(fs, looped) := delete_loop generations_to_delete fs session 0 0 in
        let body : result (Session * CleanupReport) :=
          '(session, deleted_files, deleted_records) ← looped;
          session ← commit db_now session;
          Ok (session,
              Cleaned deleted_records deleted_files cutoff_date keep_favorites) in
        match body with
        | Ok (session, report) => (session, fs, report)
        | Raise e => (rollback session, fs, CleanupError e)
        end
  end.

(** The candidates of a cleanup, as rows of the database. *)
Definition candidates (utcnow : datetime) (days_to_keep : Z) (keep_favorites : bool)
    (d : Database) : list MusicGeneration :=
  List.filter (cleanup_query (utcnow - days_to_keep * us_per_day) keep_favorites)
    (music_generations d).

(** ** operations.py: the health score *)

(** [order_by(desc(SystemMetrics.timestamp)).first()] *)
Fixpoint latest (l : list SystemMetrics) : option SystemMetrics :=
  match l with
  | [] => None
  | m :: l' =>
      match latest l' with
      | Some m' => if bool_decide (timestamp m' > timestamp m) then Some m' else Some m
      | None => Some m
      end
  end.

(** The truth value of a float: 0.0 and -0.0 are false, NaN is true. *)
Definition truthy (v : float) : bool := negb (feq v fzero).

(** Python's [x and x > bound] on an optional float: [None] and [0.0]
    are false. *)
Definition truthy_and_gt (x : option float) (bound : float) : bool :=
  match x with
  | Some v => truthy v && flt bound v
  | None => false
  end.

Record Health : Type := mkHealth {
  health_score : Z;
  health_status : string;
  latest_metrics : option SystemMetrics;
  recent_total_generations : Z;
  recent_successful : Z;
  recent_failed : Z;
  recent_success_rate : float;
  checked_at : datetime
}.

Inductive HealthReport : Type :=
  | HealthOk (h : Health)
  | HealthError (error : exn).

Definition status_of_score (score : Z) : string :=
  if bool_decide (score >= 80) then "healthy"
  else if bool_decide (score >= 50) then "warning"
  else "critical".

(** [DatabaseOperations.get_system_health]. [utcnow] and [checked_at]
    are its two readings of the clock. The score is lowered step by
    step as in the source; the status is read from the score before it
    is clamped. *)
Definition get_system_health (utcnow checked_at : datetime) (session : Session)
    : HealthReport :=
  let body : result Health :=
    let latest_metric := latest (system_metrics (bind_db session)) in
    recent_start ← datetime_sub utcnow (timedelta_hours 1);
    let recent_gens := query_all (created_since recent_start) session in
    let recent_success := len (List.filter (has_status "completed") recent_gens) in
    let recent_failed := len (List.filter (has_status "failed") recent_gens) in
    let recent_total := len recent_gens in
    let health_score := 100 in
    let health_score :=
      match latest_metric with
      | Some m =>
          let health_score :=
            if truthy_and_gt (cpu_usage m) (float_of_Z 80)
            then health_score - 20 else health_score in
          let health_score :=
            if truthy_and_gt (memory_usage m) (float_of_Z 85)
            then health_score - 20 else health_score in
          if flt (decimal 1 1) (error_rate m)
          then health_score - 30 else health_score
      | None => health_score
      end in
    failing ←
      (if bool_decide (recent_total > 0) then
         ratio ← int_truediv recent_failed recent_total;
         Ok (flt (decimal 2 1) ratio)
       else Ok false);
    let health_score := if failing : bool then health_score - 30 else health_score in
    ratio ← int_truediv recent_success (Z.max recent_total 1);
    Ok (mkHealth (Z.max 0 health_score) (status_of_score health_score)
          latest_metric recent_total recent_success recent_failed
          (fmul ratio (float_of_Z 100)) checked_at) in
  match body with
  | Ok h => HealthOk h
  | Raise e => HealthError e
  end.

(** The score as the specification words it: 100, less 20 for a CPU
    sample above 80, less 20 for a memory sample above 85, less 30 for
    an error rate above 0.1, less 30 when more than 20% of the records
    of the trailing hour failed; never below 0. The comparisons are
    those of floats: a sample that is NaN exceeds nothing, and the
    share of failures is the float [failed / total] against the float
    0.2. *)
Definition cpu_of (m : option SystemMetrics) : option float := m ≫= cpu_usage.
Definition memory_of (m : option SystemMetrics) : option float := m ≫= memory_usage.
Definition error_rate_of (m : option SystemMetrics) : option float := error_rate <$> m.

Definition exceeds (x : option float) (bound : float) : bool :=
  match x with
  | Some v => flt bound v
  | None => false
  end.

Definition fifth_exceeded (failed total : Z) : bool :=
  bool_decide (total > 0) && flt (decimal 2 1) (quotient failed total).

Definition spec_health_score (m : option SystemMetrics) (failed total : Z) : Z :=
  Z.max 0
    (100 - (if exceeds (cpu_of m) (float_of_Z 80) then 20 else 0)
         - (if exceeds (memory_of m) (float_of_Z 85) then 20 else 0)
         - (if exceeds (error_rate_of m) (decimal 1 1) then 30 else 0)
         - (if fifth_exceeded failed total then 30 else 0)).

(** On tables of up to [n] recent records, [fifth_exceeded] is "more
    than 20%" of the counts. *)
Definition fifth_agrees (n : nat) : bool :=
  forallb (fun total =>
             forallb (fun failed =>
                        Bool.eqb (fifth_exceeded failed total)
                                 (20 * total <? 100 * failed))
               (seqZ 0 (total + 1)))
    (seqZ 1 (Z.of_nat n)).

(** ** models.py: validation of the creation input *)

(** The values a [Dict[str, Any]] holds. [PObj] is any other object (a
    list, a dict): [str] of it is the text it carries, [float] of it
    raises [TypeError]. *)
Inductive PyVal : Type :=
  | PNone
  | PBool (b : bool)
  | PInt (z : Z)
  | PFloat (q : float)
  | PStr (s : string)
  | PObj (repr : string).

Inductive PyType : Type := TStr | TFloat.

Definition isinstance (v : PyVal) (t : PyType) : bool :=
  match t, v with
  | TStr, PStr _ => true
  | TFloat, PFloat _ => true
  | _, _ => false
  end.

Definition type_name (t : PyType) : string :=
  match t with
  | TStr => "str"
  | TFloat => "float"
  end.

(** [d[k]] *)
Definition getitem (d : gmap string PyVal) (k : string) : result PyVal :=
  match d !! k with
  | Some v => Ok v
  | None => Raise (KeyError k)
  end.

(** [v <= 0] *)
Definition le_zero (v : PyVal) : result bool :=
  match v with
  | PBool b => Ok (negb b)
  | PInt z => Ok (bool_decide (z <= 0))
  | PFloat q => Ok (fle q fzero)
  | PNone | PStr _ | PObj _ => Raise TypeError
  end.

Section Builtins.
(** Reading a float from text ([None]: [float(s)] raises
    [ValueError]) and printing one are taken from the interpreter. *)
Variable float_of_str : string -> option float.
Variable str_of_float : float -> string.

(** [str(v)] *)
Definition py_str (v : PyVal) : string :=
  match v with
  | PNone => "None"
  | PBool true => "True"
  | PBool false => "False"
  | PInt z => pretty z
  | PFloat q => str_of_float q
  | PStr s => s
  | PObj repr => repr
  end.

(** [float(v)] *)
Definition py_float (v : PyVal) : result float :=
  match v with
  | PNone => Raise TypeError
  | PBool b => Ok (if b then float_of_Z 1 else fzero)
  | PInt z => float_of_int z
  | PFloat q => Ok q
  | PStr s =>
      match float_of_str s with
      | Some q => Ok q
      | None => Raise (ValueError "could not convert string to float")
      end
  | PObj _ => Raise TypeError
  end.

(** [expected_type(v)] *)
Definition coerce (t : PyType) (v : PyVal) : result PyVal :=
  match t with
  | TStr => Ok (PStr (py_str v))
  | TFloat => q ← py_float v; Ok (PFloat q)
  end.

Definition required_fields : list (string * PyType) :=
  [("generation_id", TStr); ("prompt", TStr); ("device", TStr);
   ("generation_time", TFloat); ("file_size_mb", TFloat)].

Definition defaults : list (string * PyVal) :=
  [("status", PStr "completed"); ("precision", PStr "float32");
   ("realtime_factor", PFloat (float_of_Z 1)); ("duration", PFloat (float_of_Z 30));
   ("sample_rate", PInt 32000); ("play_count", PInt 0);
   ("download_count", PInt 0); ("is_favorited", PBool false);
   ("model_version", PStr "musicgen-small")].

(** One turn of the loop over the required fields. *)
Definition check_required (data : gmap string PyVal) (f : string * PyType)
    : result (gmap string PyVal) :=
  let '(field, expected_type) := f in
  match data !! field with
  | None => Raise (ValueError ("Missing required field: " +:+ field))
  | Some v =>
      if isinstance v expected_type then Ok data
      else
        match coerce expected_type v with
        | Ok v' => Ok (<[field := v']> data)
        | Raise (ValueError _) | Raise TypeError =>
            Raise (ValueError ("Invalid type for " +:+ field +:+ ": expected "
                               +:+ type_name expected_type))
        | Raise e => Raise e
        end
  end.

Fixpoint check_all (fields : list (string * PyType)) (data : gmap string PyVal)
    : result (gmap string PyVal) :=
  match fields with
  | [] => Ok data
  | f :: fields' => data ← check_required data f; check_all fields' data
  end.

(** One turn of the loop over the defaults. *)
Definition apply_default (data : gmap string PyVal) (f : string * PyVal)
    : gmap string PyVal :=
  let '(field, default_value) := f in
  match data !! field with
  | None | Some PNone => <[field := default_value]> data
  | Some _ => data
  end.

(** [validate_generation_data] *)
Definition validate_generation_data (data : gmap string PyVal)
    : result (gmap string PyVal) :=
  data ← check_all required_fields data;
  let data := fold_left apply_default defaults data in
  v ← getitem data "generation_time";
  nonpositive ← le_zero v;
  if nonpositive : bool then Raise (ValueError "generation_time must be positive")
  else
  v ← getitem data "file_size_mb";
  nonpositive ← le_zero v;
  if nonpositive : bool then Raise (ValueError "file_size_mb must be positive")
  else
  v ← getitem data "realtime_factor";
  nonpositive ← le_zero v;
  Ok (if nonpositive : bool then <["realtime_factor" := PFloat (float_of_Z 1)]> data
      else data).

(** ** operations.py: creating a record *)

(** [os.path.basename] *)
Fixpoint has_slash (s : string) : bool :=
  match s with
  | EmptyString => false
  | String c s' => bool_decide (c = "/"%char) || has_slash s'
  end.

Fixpoint basename (s : string) : string :=
  match s with
  | EmptyString => EmptyString
  | String c s' =>
      if bool_decide (c = "/"%char) || has_slash s' then basename s' else s
  end.

(** Binding a Python value to a column. A value of the column's Python
    type goes into the row as it is (an int for a Float column as the
    float it converts to). For a value of another type the statement is
    taken to be refused; PostgreSQL refuses some of them and casts
    others, a float for an Integer column among them, so that nothing
    is proved below of a record made from such a value. *)
Definition col_str (v : PyVal) : result string :=
  match v with
  | PStr s => Ok s
  | _ => Raise StatementError
  end.

Definition col_float (v : PyVal) : result float :=
  match v with
  | PFloat q => Ok q
  | PInt z => float_of_int z
  | _ => Raise StatementError
  end.

Definition col_int (v : PyVal) : result Z :=
  match v with
  | PInt z => Ok z
  | _ => Raise StatementError
  end.

Definition col_opt_str (v : option PyVal) : result (option string) :=
  match v with
  | None | Some PNone => Ok None
  | Some (PStr s) => Ok (Some s)
  | Some _ => Raise StatementError
  end.

Definition col_opt_int (v : option PyVal) : result (option Z) :=
  match v with
  | None | Some PNone => Ok None
  | Some (PInt z) => Ok (Some z)
  | Some _ => Raise StatementError
  end.

(** [session.refresh(obj)] after the insert: the row of the object,
    which its unique [generation_id] identifies. *)
Definition refresh (g : MusicGeneration) (s : Session) : result MusicGeneration :=
  match query_first (by_generation_id (generation_id g)) s with
  | Some r => Ok r
  | None => Raise StatementError
  end.

(** [DatabaseOperations.create_generation_record]; [None] is Python's
    [None]. *)
Definition create_generation_record (db_now : datetime) (fs : gmap string file)
    (generation_data : gmap string PyVal) (file_path : option string)
    (session : Session) : Session * option MusicGeneration :=
  let body : result (Session * option MusicGeneration) :=
    clean_data ← validate_generation_data generation_data;
    clean_data ←
      match truthy_path file_path with
      | Some p =>
          if path_exists fs p then
            size_bytes ← getsize fs p;
            mb ← int_truediv size_bytes (1024 * 1024);
            let actual_size_mb := py_round2 mb in
            let filename := basename p in
            Ok (<["audio_url" := PStr ("/audio/" +:+ filename)]>
                  (<["file_path" := PStr p]>
                     (<["file_size_mb" := PFloat actual_size_mb]> clean_data)))
          else Ok clean_data
      | None => Ok clean_data
      end;
    a_generation_id ← getitem clean_data "generation_id" ≫= col_str;
    a_prompt ← getitem clean_data "prompt" ≫= col_str;
    a_status ← getitem clean_data "status" ≫= col_str;
    a_device ← getitem clean_data "device" ≫= col_str;
    a_precision ← getitem clean_data "precision" ≫= col_str;
    a_generation_time ← getitem clean_data "generation_time" ≫= col_float;
    a_realtime_factor ← getitem clean_data "realtime_factor" ≫= col_float;
    a_file_path ← col_opt_str (clean_data !! "file_path");
    a_audio_url ← col_opt_str (clean_data !! "audio_url");
    a_file_size_mb ← getitem clean_data "file_size_mb" ≫= col_float;
    a_duration ← getitem clean_data "duration" ≫= col_float;
    a_sample_rate ← getitem clean_data "sample_rate" ≫= col_int;
    a_user_id ← col_opt_int (clean_data !! "user_id");
    a_model_version ← getitem clean_data "model_version" ≫= col_str;
    let generation :=
      mkMusicGeneration None a_generation_id a_prompt a_status a_device
        a_precision a_generation_time a_realtime_factor a_file_path
        a_audio_url a_file_size_mb a_duration a_sample_rate 0 0 false
        None None None a_user_id None a_model_version in
    session ← commit db_now (session_add generation session);
    generation ← refresh generation session;
    Ok (session, Some generation) in
  match body with
  | Ok r => r
  | Raise IntegrityError => (rollback (sequence_drawn session), None)
  | Raise _ => (rollback session, None)
  end.

(** A required field that is absent, or that is not of its type and
    cannot be made so. *)
Definition not_coercible (data : gmap string PyVal) (f : string * PyType) : Prop :=
  match data !! f.1 with
  | None => True
  | Some v =>
      isinstance v f.2 = false /\ exists e, coerce f.2 v = Raise e
  end.
End Builtins.

(** ** Overlapping calls of [record_play]

    Each caller has a session of its own on the shared database. A call
    touches the database twice: the SELECT of [query(...).first()],
    which loads the row into the caller's session, and the [commit],
    which writes the attributes of the loaded object back. The
    increment in between is computed by Python on the loaded object.
    Each of the two is one atomic step; steps of different callers
    interleave as the schedule says, and a commit is visible to every
    later step (read committed). The callers all assign the same
    columns, so that writing the loaded object is writing those
    columns. *)
Inductive Caller : Type :=
  | Calling
  | Loaded (generation : MusicGeneration)
  | Returned (result : bool).

Definition caller_step (utcnow db_now : datetime) (generation_id : string)
    (d : Database) (c : Caller) : Database * Caller :=
  match c with
  | Calling =>
      match query_first (by_generation_id generation_id) (SessionLocal d) with
      | None => (d, Returned false)
      | Some generation => (d, Loaded generation)
      end
  | Loaded generation =>
      let generation := increment_play_count utcnow generation in
      match commit db_now (session_modified generation (SessionLocal d)) with
      | Ok session => (bind_db session, Returned true)
      | Raise _ => (d, Returned false)
      end
  | Returned b => (d, Returned b)
  end.

(** The caller at position [i] takes its next step. *)
Definition schedule_step (utcnow db_now : datetime) (generation_id : string)
    (st : Database * list Caller) (i : nat) : Database * list Caller :=
  let '(d, callers) := st in
  match callers !! i with
  | Some c =>
      let '(d', c') := caller_step utcnow db_now generation_id d c in
      (d', <[i := c']> callers)
  | None => (d, callers)
  end.

Definition run_schedule (utcnow db_now : datetime) (generation_id : string)
    (schedule : list nat) (st : Database * list Caller) : Database * list Caller :=
  fold_left (schedule_step utcnow db_now generation_id) schedule st.

(** Every caller reads, then every caller commits. *)
Definition all_read_first (n : nat) : list nat := seq 0 n ++ seq 0 n.

(** Each caller reads and commits before the next one starts. *)
Definition one_at_a_time (n : nat) : list nat :=
  flat_map (fun i => [i; i]) (seq 0 n).

(** [n] calls of [record_play], one after the other. *)
Fixpoint record_play_times (n : nat) (utcnow db_now : datetime)
    (generation_id : string) (session : Session) : Session :=
  match n with
  | O => session
  | S n' =>
      record_play_times n' utcnow db_now generation_id
        (record_play utcnow db_now generation_id None session).1
  end.

(** The stored [play_count] of a generation. *)
Definition play_count_of (generation_id : string) (d : Database) : option Z :=
  play_count <$> query_first (by_generation_id generation_id) (SessionLocal d).

(** ** Example data *)

Definition a_generation (pk : Z) (gid st dev : string) (seconds : float)
    (path : option string) (favorited : bool) (created : datetime)
    : MusicGeneration :=
  mkMusicGeneration (Some pk) gid "lofi piano" st dev "float32" seconds
    (float_of_Z 1)
    path (option_map (fun _ => "/audio/" +:+ gid +:+ ".wav") path)
    (decimal 25 1) (float_of_Z 30) 32000 0 0 favorited None (Some created) None
    None None "musicgen-small".

Definition day : Z := us_per_day.

(** The days of the examples are counted from 2024-01-01 00:00:00. *)
Definition on_day (n : Z) : datetime := (738885 + n) * day.

(** Three completed generations of days 1, 40 and 50, the last one a
    favorite, and a failed one of day 41; "now" is day 100. *)
Definition gen_a : MusicGeneration :=
  a_generation 1 "gen-a" "completed" "cuda" (float_of_Z 1)
    (Some "/out/gen-a.wav") false (on_day 1).
Definition gen_b : MusicGeneration :=
  a_generation 2 "gen-b" "completed" "cuda" (float_of_Z 1)
    (Some "/out/gen-b.wav") false (on_day 40).
Definition gen_c : MusicGeneration :=
  a_generation 3 "gen-c" "completed" "cpu" (float_of_Z 2)
    (Some "/out/gen-c.wav") true (on_day 50).
Definition gen_d : MusicGeneration :=
  a_generation 4 "gen-d" "failed" "cpu" (float_of_Z 2) None false (on_day 41).

Definition db_example : Database :=
  mkDatabase [gen_a; gen_b; gen_c; gen_d] [] 5.

Definition now_example : datetime := on_day 100.

(** The artifact of gen-a is gone already, that of gen-b cannot be
    removed, that of gen-c can. *)
Definition fs_example : gmap string file :=
  {[ "/out/gen-b.wav" := mkFile 2621440 false;
     "/out/gen-c.wav" := mkFile 2621440 true ]}.

(** A creation input as [generate_music] of main.py builds it. *)
Definition data_example : gmap string PyVal :=
  {[ "generation_id" := PStr "gen-e"; "prompt" := PStr "lofi piano";
     "status" := PStr "completed"; "device" := PStr "cuda";
     "precision" := PStr "float32"; "generation_time" := PFloat (decimal 125 1);
     "realtime_factor" := PFloat (decimal 24 1); "file_size_mb" := PFloat (decimal 25 1);
     "duration" := PFloat (float_of_Z 30); "sample_rate" := PInt 32000;
     "model_version" := PStr "musicgen-small" ]}.

(** An interpreter that reads no text as a float. *)
Definition no_float_of_str (s : string) : option float := None.
Definition a_str_of_float (q : float) : string := "0.0".

(** A metrics sample with CPU at 90, memory at 50 and no errors, after
    an older, idle one. *)
Definition sample_idle : SystemMetrics :=
  mkSystemMetrics (on_day 99) (Some (float_of_Z 5)) (Some (float_of_Z 40)) None None None
    true None 0 None (float_of_Z 0) 0.

Definition sample_busy : SystemMetrics :=
  mkSystemMetrics (on_day 100) (Some (float_of_Z 90)) (Some (float_of_Z 50)) None None None
    true None 0 None (float_of_Z 0) 0.

(** No generation in the last hour. *)
Definition db_busy : Database :=
  mkDatabase [gen_a; gen_b; gen_c; gen_d] [sample_idle; sample_busy] 5.

(** The same, with the newer sample stored first. *)
Definition db_busy_first : Database :=
  mkDatabase [gen_a; gen_b; gen_c; gen_d] [sample_busy; sample_idle] 5.

(** Four generations in the last hour, one of them failed. *)
Definition db_busy_failing : Database :=
  mkDatabase
    [ a_generation 1 "gen-p" "completed" "cuda" (float_of_Z 1) None false (on_day 100 - 10);
      a_generation 2 "gen-q" "failed" "cuda" (float_of_Z 1) None false (on_day 100 - 9);
      a_generation 3 "gen-r" "completed" "cuda" (float_of_Z 1) None false (on_day 100 - 8);
      a_generation 4 "gen-s" "completed" "cuda" (float_of_Z 1) None false (on_day 100 - 7) ]
    [sample_idle; sample_busy] 5.

Definition score_and_status (r : HealthReport) : option (Z * string) :=
  match r with
  | HealthOk h => Some (health_score h, health_status h)
  | HealthError _ => None
  end.

(** The mean of a list of floats, 0.0 for the empty list. *)
Definition mean (l : list float) : float :=
  match l with
  | [] => fzero
  | _ :: _ => fdiv (py_sum l) (float_of_Z (len l))
  end.

(** An entry of the device breakdown as it is returned. *)
Definition device_entry (e : string * DeviceAcc) : string * DeviceStats :=
  (e.1, mkDeviceStats (acc_count e.2)
          (fdiv (acc_total_time e.2) (float_of_Z (acc_count e.2)))).

(** One generation, made 400 days before day 100. *)
Definition db_old : Database :=
  mkDatabase
    [ a_generation 1 "gen-o" "completed" "cuda" (float_of_Z 1) None false
        (on_day (-300)) ]
    [] 2.

(** Three completed generations on one device, of 1, 1 and 2 seconds,
    made in the last hour before day 100. *)
Definition db_thirds : Database :=
  mkDatabase
    [ a_generation 1 "gen-p" "completed" "cuda" (float_of_Z 1) None false (on_day 100 - 10);
      a_generation 2 "gen-q" "completed" "cuda" (float_of_Z 1) None false (on_day 100 - 9);
      a_generation 3 "gen-r" "completed" "cuda" (float_of_Z 2) None false (on_day 100 - 8) ]
    [] 4.

Definition report_device_breakdown (r : StatsReport) : list (string * DeviceStats) :=
  match r with
  | StatsOk s => device_breakdown s
  | StatsError _ _ _ _ _ _ => []
  end.

Definition report_avg_generation_time (r : StatsReport) : option float :=
  match r with
  | StatsOk s => Some (avg_generation_time s)
  | StatsError _ _ _ _ _ _ => None
  end.

(** ** models.py: the other methods of [MusicGeneration] *)

Definition set_download_count (v : Z) (g : MusicGeneration) : MusicGeneration :=
  mkMusicGeneration (row_id g) (generation_id g) (prompt g) (status g)
    (device g) (precision g) (generation_time g) (realtime_factor g)
    (file_path g) (audio_url g) (file_size_mb g) (duration g)
    (sample_rate g) (play_count g) v (is_favorited g)
    (last_played g) (created_at g) (updated_at g) (user_id g)
    (error_message g) (model_version g).

(** [MusicGeneration.increment_download_count] *)
Definition increment_download_count (g : MusicGeneration) : MusicGeneration :=
  set_download_count (download_count g + 1) g.

(** ** operations.py: the other interaction counter *)

(** [DatabaseOperations.record_download] *)
Definition record_download (db_now : datetime) (generation_id : string)
    (session : Session) : Session * bool :=
  let body : result (Session * bool) :=
    match query_first (by_generation_id generation_id) session with
    | None => Ok (session, false)
    | Some generation =>
        let generation := increment_download_count generation in
        session ← commit db_now (session_modified generation session);
        Ok (session, true)
    end in
  match body with
  | Ok r => r
  | Raise _ => (rollback session, false)
  end.

(** The stored [download_count] of a generation. *)
Definition download_count_of (generation_id : string) (d : Database) : option Z :=
  download_count <$> query_first (by_generation_id generation_id) (SessionLocal d).

(** ** The constraints with the sequence

    The constraints of [db_wf], and every [id] in use was drawn from
    the sequence. *)
Definition db_consistent (d : Database) : Prop :=
  db_wf d
  /\ Forall (fun r => exists i, row_id r = Some i /\ i < id_seq d)
       (music_generations d).

(** ** operations.py: the listings *)

(** [ORDER BY key DESC]: a NULL sorts before every value. The database
    is free in the order of rows with equal keys; here they stay in the
    order of the table, and nothing proved of a listing depends on
    it. *)
Definition sorts_before (a b : option Z) : bool :=
  match a, b with
  | None, _ => true
  | Some _, None => false
  | Some x, Some y => bool_decide (y <= x)
  end.

Fixpoint insert_desc (key : MusicGeneration -> option Z) (x : MusicGeneration)
    (l : list MusicGeneration) : list MusicGeneration :=
  match l with
  | [] => [x]
  | y :: l' =>
      if sorts_before (key x) (key y) then x :: y :: l'
      else y :: insert_desc key x l'
  end.

Definition order_by_desc (key : MusicGeneration -> option Z)
    (l : list MusicGeneration) : list MusicGeneration :=
  fold_right (insert_desc key) [] l.

(** [LIMIT n]: the count is a bigint; a negative [n] is refused by the
    statement, and so is one that is no bigint. *)
Definition int8_max : Z := 9223372036854775807.

Definition sql_limit {A} (n : Z) (l : list A) : result (list A) :=
  if bool_decide (n < 0) then Raise StatementError
  else if bool_decide (int8_max < n) then Raise DataError
  else Ok (take (Z.to_nat n) l).

(** The dict of [to_dict] lists every column of the row under the name
    of the column; a dict of a listing is the row it was made from. *)

(** [DatabaseOperations.get_most_played] *)
Definition get_most_played (limit : Z) (session : Session) : list MusicGeneration :=
  let body : result (list MusicGeneration) :=
    sql_limit limit
      (order_by_desc (fun g => Some (play_count g))
         (query_all (fun g => has_status "completed" g
                              && bool_decide (play_count g > 0)) session)) in
  match body with
  | Ok generations => generations
  | Raise _ => []
  end.

(** [DatabaseOperations.get_favorites] *)
Definition get_favorites (limit : Z) (session : Session) : list MusicGeneration :=
  let body : result (list MusicGeneration) :=
    sql_limit limit
      (order_by_desc created_at
         (query_all (fun g => has_status "completed" g
                              && bool_decide (is_favorited g = true)) session)) in
  match body with
  | Ok generations => generations
  | Raise _ => []
  end.

(** What validation makes of the value [v] of a required field of type
    [t]. *)
Definition coerced (float_of_str : string -> option float)
    (str_of_float : float -> string) (t : PyType) (v v' : PyVal) : Prop :=
  isinstance v' t = true
  /\ match t with
     | TStr => v' = PStr (py_str str_of_float v)
     | TFloat => exists q, py_float float_of_str v = Ok q /\ v' = PFloat q
     end.

(** The stages of [create_generation_record] after validation: the
    keys the artifact overrides, and the object the constructor
    builds. *)
Definition artifact_data (fs : gmap string file) (file_path : option string)
    (clean_data : gmap string PyVal) : result (gmap string PyVal) :=
  match truthy_path file_path with
  | Some p =>
      if path_exists fs p then
        size_bytes ← getsize fs p;
        mb ← int_truediv size_bytes (1024 * 1024);
        let actual_size_mb := py_round2 mb in
        let filename := basename p in
        Ok (<["audio_url" := PStr ("/audio/" +:+ filename)]>
              (<["file_path" := PStr p]>
                 (<["file_size_mb" := PFloat actual_size_mb]> clean_data)))
      else Ok clean_data
  | None => Ok clean_data
  end.

Definition new_generation (clean_data : gmap string PyVal) : result MusicGeneration :=
  a_generation_id ← getitem clean_data "generation_id" ≫= col_str;
  a_prompt ← getitem clean_data "prompt" ≫= col_str;
  a_status ← getitem clean_data "status" ≫= col_str;
  a_device ← getitem clean_data "device" ≫= col_str;
  a_precision ← getitem clean_data "precision" ≫= col_str;
  a_generation_time ← getitem clean_data "generation_time" ≫= col_float;
  a_realtime_factor ← getitem clean_data "realtime_factor" ≫= col_float;
  a_file_path ← col_opt_str (clean_data !! "file_path");
  a_audio_url ← col_opt_str (clean_data !! "audio_url");
  a_file_size_mb ← getitem clean_data "file_size_mb" ≫= col_float;
  a_duration ← getitem clean_data "duration" ≫= col_float;
  a_sample_rate ← getitem clean_data "sample_rate" ≫= col_int;
  a_user_id ← col_opt_int (clean_data !! "user_id");
  a_model_version ← getitem clean_data "model_version" ≫= col_str;
  Ok (mkMusicGeneration None a_generation_id a_prompt a_status a_device
        a_precision a_generation_time a_realtime_factor a_file_path
        a_audio_url a_file_size_mb a_duration a_sample_rate 0 0 false
        None None None a_user_id None a_model_version).

(** The creation input main.py builds when a generation failed. *)
Definition failed_data_example : gmap string PyVal :=
  {[ "generation_id" := PStr "gen-f"; "prompt" := PStr "lofi piano";
     "status" := PStr "failed"; "device" := PStr "Unknown";
     "generation_time" := PFloat fzero; "file_size_mb" := PFloat fzero;
     "error_message" := PStr "CUDA out of memory" ]}.

(** The range checks that end [validate_generation_data], on the dict
    the defaults were applied to. *)
Definition range_checks (data : gmap string PyVal) : result (gmap string PyVal) :=
  v ← getitem data "generation_time";
  nonpositive ← le_zero v;
  if nonpositive : bool then Raise (ValueError "generation_time must be positive")
  else
  v ← getitem data "file_size_mb";
  nonpositive ← le_zero v;
  if nonpositive : bool then Raise (ValueError "file_size_mb must be positive")
  else
  v ← getitem data "realtime_factor";
  nonpositive ← le_zero v;
  Ok (if nonpositive : bool then <["realtime_factor" := PFloat (float_of_Z 1)]> data
      else data).

(** The columns no interaction writes: what identifies a row, and when
    and how the generation ended. *)
Definition row_identity (g : MusicGeneration)
    : option Z * string * string * option datetime :=
  (row_id g, generation_id g, status g, created_at g).

(** The order of a listing: [a] may come before [b]. *)
Definition listed_before (key : MusicGeneration -> option Z)
    (a b : MusicGeneration) : Prop :=
  sorts_before (key a) (key b) = true.

(** * Properties *)

(** ** Lists and the unit of work *)

Arguments commit : simpl never.
Arguments float_of_Z : simpl never.
Arguments decimal : simpl never.
Arguments quotient : simpl never.
Arguments fadd : simpl never.
Arguments fmul : simpl never.
Arguments fdiv : simpl never.
Arguments flt : simpl never.
Arguments fle : simpl never.
Arguments feq : simpl never.
Arguments py_round2 : simpl never.
Arguments py_sum : simpl never.

Lemma mbind_Ok {A B} (f : A -> result B) (a : A) : mbind f (Ok a) = f a.
Proof. reflexivity. Qed.

Lemma mbind_Raise {A B} (f : A -> result B) (e : exn) :
  mbind f (Raise e) = Raise e.
Proof. reflexivity. Qed.

Lemma filter_all {A} (p : A -> bool) (l : list A) :
  (forall x, In x l -> p x = true) -> List.filter p l = l.
Proof.
  induction l as [|a l IH]; simpl; intros H; [reflexivity|].
  rewrite (H a (or_introl eq_refl)). f_equal. apply IH. auto.
Qed.

Lemma NoDup_map_inj {A B} (f : A -> B) (l : list A) (x y : A) :
  NoDup (map f l) -> In x l -> In y l -> f x = f y -> x = y.
Proof.
  induction l as [|a l IH]; simpl; [tauto|].
  intros Hnd Hx Hy Hf. apply NoDup_cons in Hnd as [Hna Hnd].
  destruct Hx as [<-|Hx], Hy as [<-|Hy]; auto.
  - exfalso. apply Hna. rewrite Hf. apply list_elem_of_In, in_map, Hy.
  - exfalso. apply Hna. rewrite <- Hf. apply list_elem_of_In, in_map, Hx.
Qed.

Lemma flush_delete_nil (rows : list MusicGeneration) : flush_delete [] rows = rows.
Proof. unfold flush_delete. apply filter_all. reflexivity. Qed.

Lemma find_some_in {A} (p : A -> bool) (l : list A) (x : A) :
  List.find p l = Some x -> In x l /\ p x = true.
Proof. apply List.find_some. Qed.

Section Update.
Variable d : Database.
Variable gid : string.
Variable g : MusicGeneration.
Hypothesis Hwf : db_wf d.
Hypothesis Hfound : query_first (by_generation_id gid) (SessionLocal d) = Some g.

Lemma found_in : In g (music_generations d) /\ generation_id g = gid.
Proof.
  apply find_some_in in Hfound as [Hin Hp]. split; [exact Hin|].
  unfold by_generation_id in Hp. by apply bool_decide_eq_true in Hp.
Qed.

Lemma by_gid_unique (r : MusicGeneration) :
  In r (music_generations d) -> by_generation_id gid r = true -> r = g.
Proof.
  intros Hin Hp. destruct found_in as [Hg Hgid].
  destruct Hwf as (_ & _ & Hnd).
  apply (NoDup_map_inj generation_id (music_generations d)); auto.
  unfold by_generation_id in Hp. apply bool_decide_eq_true in Hp. congruence.
Qed.

Lemma same_row_unique (o r : MusicGeneration) :
  row_id o = row_id g -> In r (music_generations d) ->
  same_row o r = by_generation_id gid r.
Proof.
  intros Ho Hin. destruct found_in as [Hg Hgid].
  destruct Hwf as (Hsome & Hnd & _).
  rewrite Forall_forall in Hsome.
  destruct (Hsome g) as [i Hi]; [by apply list_elem_of_In|].
  destruct (Hsome r) as [j Hj]; [by apply list_elem_of_In|].
  unfold same_row. rewrite Ho, Hi, Hj.
  destruct (by_generation_id gid r) eqn:Hp.
  - apply by_gid_unique in Hp; [|exact Hin]. subst r.
    apply bool_decide_eq_true. congruence.
  - apply bool_decide_eq_false. intros ->.
    assert (r = g) as ->.
    { apply (NoDup_map_inj row_id (music_generations d)); auto. congruence. }
    unfold by_generation_id in Hp. apply bool_decide_eq_false in Hp. auto.
Qed.

(** The UPDATE of one modified object is checked on its row. *)
Lemma flush_update_check_one (o : MusicGeneration) :
  row_id o = row_id g ->
  flush_update_check [o] (music_generations d) = update_in_range g o.
Proof.
  intros Hid. destruct found_in as [Hg Hgid].
  assert (Hp : by_generation_id gid g = true)
    by (unfold by_generation_id; by apply bool_decide_eq_true).
  unfold flush_update_check.
  destruct (update_in_range g o) eqn:Hr.
  - apply forallb_forall. intros r Hin. cbn [List.find].
    rewrite (same_row_unique o r Hid Hin).
    destruct (by_generation_id gid r) eqn:Hpr; [|reflexivity].
    by rewrite (by_gid_unique r Hin Hpr).
  - apply not_true_is_false. intros Hall.
    rewrite forallb_forall in Hall. specialize (Hall g Hg).
    cbn [List.find] in Hall. rewrite (same_row_unique o g Hid Hg), Hp in Hall.
    congruence.
Qed.

(** Committing one modified object rewrites exactly its row, when the
    integers it writes fit their columns. *)
Lemma commit_modified (db_now : datetime) (f : MusicGeneration -> MusicGeneration) :
  row_id (f g) = row_id g ->
  update_in_range g (f g) = true ->
  commit db_now (session_modified (f g) (SessionLocal d)) =
  Ok (SessionLocal (mkDatabase (update_rows db_now gid f (music_generations d))
                      (system_metrics d) (id_seq d))).
Proof.
  intros Hid Hrange. unfold commit, session_modified, SessionLocal. simpl.
  rewrite (flush_update_check_one (f g) Hid), Hrange. cbn [negb].
  rewrite flush_delete_nil. do 3 f_equal.
  unfold update_rows. apply map_ext_in. intros r Hin.
  unfold flush_update. simpl.
  rewrite (same_row_unique (f g) r Hid Hin).
  destruct (by_generation_id gid r) eqn:Hp; [|reflexivity].
  by rewrite (by_gid_unique r Hin Hp).
Qed.

(** It is refused otherwise, and nothing is written. *)
Lemma commit_refused (db_now : datetime) (o : MusicGeneration) :
  row_id o = row_id g ->
  update_in_range g o = false ->
  commit db_now (session_modified o (SessionLocal d)) = Raise DataError.
Proof.
  intros Hid Hrange. unfold commit, session_modified, SessionLocal. simpl.
  by rewrite (flush_update_check_one o Hid), Hrange.
Qed.
End Update.

Lemma int4_spec (z : Z) : int4 z = true <-> -2147483648 <= z <= 2147483647.
Proof. unfold int4. apply bool_decide_eq_true. Qed.

Lemma update_in_range_play (utcnow : datetime) (g : MusicGeneration) :
  update_in_range g (increment_play_count utcnow g) = int4 (play_count g + 1).
Proof.
  unfold update_in_range, increment_play_count. cbn.
  repeat case_bool_decide; try congruence; try lia.
  cbn. by rewrite !andb_true_r.
Qed.

Lemma update_in_range_toggle (g : MusicGeneration) :
  update_in_range g (toggle_favorite_obj g).1 = true.
Proof.
  unfold update_in_range, toggle_favorite_obj. cbn.
  repeat case_bool_decide; try congruence. reflexivity.
Qed.

Lemma query_first_absent (gid : string) (d : Database) :
  ~ In gid (map generation_id (music_generations d)) ->
  query_first (by_generation_id gid) (SessionLocal d) = None.
Proof.
  unfold query_first. simpl. induction (music_generations d) as [|r rows IH];
    simpl; intros Hnot; [reflexivity|].
  unfold by_generation_id at 1. rewrite bool_decide_eq_false_2 by tauto.
  apply IH. tauto.
Qed.

Lemma query_first_present (gid : string) (d : Database) (g : MusicGeneration) :
  db_wf d -> In g (music_generations d) -> generation_id g = gid ->
  query_first (by_generation_id gid) (SessionLocal d) = Some g.
Proof.
  intros Hwf Hin Hgid.
  destruct (query_first (by_generation_id gid) (SessionLocal d)) as [g'|] eqn:Hq.
  - f_equal. symmetry. apply (by_gid_unique d gid g' Hwf Hq g Hin).
    unfold by_generation_id. by apply bool_decide_eq_true.
  - unfold query_first in Hq. simpl in Hq.
    apply (List.find_none _ _ Hq) in Hin. unfold by_generation_id in Hin.
    apply bool_decide_eq_false in Hin. contradiction.
Qed.

Section UpdateRows.
Variable db_now : datetime.
Variable gid : string.
Variable f : MusicGeneration -> MusicGeneration.
Hypothesis f_row_id : forall r, row_id (f r) = row_id r.
Hypothesis f_generation_id : forall r, generation_id (f r) = generation_id r.

Lemma update_rows_row_id (rows : list MusicGeneration) :
  map row_id (update_rows db_now gid f rows) = map row_id rows.
Proof.
  unfold update_rows. rewrite map_map. apply map_ext. intros r.
  destruct (by_generation_id gid r); [apply f_row_id | reflexivity].
Qed.

Lemma update_rows_generation_id (rows : list MusicGeneration) :
  map generation_id (update_rows db_now gid f rows) = map generation_id rows.
Proof.
  unfold update_rows. rewrite map_map. apply map_ext. intros r.
  destruct (by_generation_id gid r); [apply f_generation_id | reflexivity].
Qed.

Lemma update_rows_wf (d : Database) :
  db_wf d ->
  db_wf (mkDatabase (update_rows db_now gid f (music_generations d))
           (system_metrics d) (id_seq d)).
Proof.
  intros (Hsome & Hpk & Hgid). unfold db_wf. simpl.
  rewrite update_rows_row_id, update_rows_generation_id.
  split; [|split; assumption].
  clear Hpk Hgid. induction Hsome as [|r rows Hr _ IH]; simpl; constructor.
  - destruct (by_generation_id gid r); [|exact Hr].
    simpl. by rewrite f_row_id.
  - exact IH.
Qed.

Lemma update_rows_find (rows : list MusicGeneration) :
  List.find (by_generation_id gid) (update_rows db_now gid f rows) =
  (fun r => set_updated_at (Some db_now) (f r)) <$>
    List.find (by_generation_id gid) rows.
Proof.
  induction rows as [|r rows IH]; simpl; [reflexivity|].
  destruct (by_generation_id gid r) eqn:Hp.
  - unfold by_generation_id in *. simpl. rewrite f_generation_id.
    by rewrite Hp.
  - by rewrite Hp.
Qed.
End UpdateRows.

Lemma record_play_found (utcnow db_now : datetime) (gid : string)
    (dur : option float) (d : Database) (g : MusicGeneration) :
  db_wf d ->
  query_first (by_generation_id gid) (SessionLocal d) = Some g ->
  int4 (play_count g + 1) = true ->
  record_play utcnow db_now gid dur (SessionLocal d) =
  (SessionLocal (mkDatabase
     (update_rows db_now gid (increment_play_count utcnow) (music_generations d))
     (system_metrics d) (id_seq d)), true).
Proof.
  intros Hwf Hq Hrange. unfold record_play. rewrite Hq.
  unfold mbind, result_bind.
  rewrite (commit_modified d gid g Hwf Hq db_now (increment_play_count utcnow));
    [reflexivity | reflexivity | by rewrite update_in_range_play].
Qed.

Lemma record_play_refused (utcnow db_now : datetime) (gid : string)
    (dur : option float) (d : Database) (g : MusicGeneration) :
  db_wf d ->
  query_first (by_generation_id gid) (SessionLocal d) = Some g ->
  int4 (play_count g + 1) = false ->
  record_play utcnow db_now gid dur (SessionLocal d) = (SessionLocal d, false).
Proof.
  intros Hwf Hq Hrange. unfold record_play. rewrite Hq.
  unfold mbind, result_bind.
  rewrite (commit_refused d gid g Hwf Hq db_now (increment_play_count utcnow g));
    [reflexivity | reflexivity | by rewrite update_in_range_play].
Qed.

Lemma toggle_favorite_found (db_now : datetime) (gid : string) (d : Database)
    (g : MusicGeneration) :
  db_wf d ->
  query_first (by_generation_id gid) (SessionLocal d) = Some g ->
  toggle_favorite db_now gid (SessionLocal d) =
  (SessionLocal (mkDatabase
     (update_rows db_now gid (fun r => (toggle_favorite_obj r).1) (music_generations d))
     (system_metrics d) (id_seq d)), Some (negb (is_favorited g))).
Proof.
  intros Hwf Hq. unfold toggle_favorite. rewrite Hq.
  pose proof (commit_modified d gid g Hwf Hq db_now
                (fun r => (toggle_favorite_obj r).1) eq_refl
                (update_in_range_toggle g)) as Hc.
  unfold toggle_favorite_obj in *. simpl in Hc. cbv beta iota zeta.
  unfold mbind, result_bind. by rewrite Hc.
Qed.

Lemma db_example_wf : db_wf db_example.
Proof.
  unfold db_wf, db_example. simpl. split; [|split].
  - repeat constructor; eexists; reflexivity.
  - apply (bool_decide_unpack _). vm_compute. exact I.
  - apply (bool_decide_unpack _). vm_compute. exact I.
Defined.

(** ** The interaction counters *)

(** C7 (as the code has it). [record_play] on an identifier that no
    record has returns false and leaves the database as it was. On the
    identifier of a record whose [play_count] is below 2147483647, the
    largest value of the [Integer] column, it returns true, and the
    database differs in that one row only: its [play_count] is one
    more, its [last_played] is the time of the call, and its
    [updated_at] is the time of the UPDATE, which the schema stamps;
    every other row, and the rest of the database, is unchanged. At
    2147483647 the UPDATE is refused: the call rolls back, returns
    false and leaves the database as it was. *)
Theorem record_play_effect (utcnow db_now : datetime) (gid : string)
    (dur : option float) (d : Database) :
  db_wf d ->
  (~ In gid (map generation_id (music_generations d)) ->
   record_play utcnow db_now gid dur (SessionLocal d) = (SessionLocal d, false))
  /\ (forall g, In g (music_generations d) -> generation_id g = gid ->
      play_count g = 2147483647 ->
      record_play utcnow db_now gid dur (SessionLocal d) = (SessionLocal d, false))
  /\ (forall g, In g (music_generations d) -> generation_id g = gid ->
      -2147483648 <= play_count g < 2147483647 ->
      exists d',
        record_play utcnow db_now gid dur (SessionLocal d) = (SessionLocal d', true)
        /\ music_generations d' =
           map (fun r => if by_generation_id gid r
                         then set_updated_at (Some db_now)
                                (set_last_played (Some utcnow)
                                   (set_play_count (play_count r + 1) r))
                         else r) (music_generations d)
        /\ system_metrics d' = system_metrics d
        /\ id_seq d' = id_seq d
        /\ play_count_of gid d' = Some (play_count g + 1)).
Proof.
  intros Hwf. split.
  - intros Habs. unfold record_play.
    by rewrite (query_first_absent gid d Habs).
  - split.
    { intros g Hin Hgid Hmax.
      pose proof (query_first_present gid d g Hwf Hin Hgid) as Hq.
      apply (record_play_refused utcnow db_now gid dur d g Hwf Hq).
      apply not_true_is_false. rewrite int4_spec. lia. }
    intros g Hin Hgid Hrange.
    pose proof (query_first_present gid d g Hwf Hin Hgid) as Hq.
    eexists.
    split; [apply (record_play_found utcnow db_now gid dur d g Hwf Hq);
            apply int4_spec; lia|].
    simpl. repeat split.
    unfold play_count_of, query_first. simpl.
    rewrite update_rows_find by reflexivity.
    unfold query_first in Hq. simpl in Hq. by rewrite Hq.
Qed.

Lemma record_play_effect_witness :
  record_play now_example now_example "gen-x" None (SessionLocal db_example)
  = (SessionLocal db_example, false)
  /\ exists d',
       record_play now_example now_example "gen-a" None (SessionLocal db_example)
       = (SessionLocal d', true)
       /\ play_count_of "gen-a" d' = Some 1.
Proof.
  split.
  - destruct (record_play_effect now_example now_example "gen-x" None
                db_example db_example_wf) as (Habs & _ & _).
    apply Habs.
    vm_compute. intros H. repeat destruct H as [H|H]; try discriminate H; exact H.
  - destruct (record_play_effect now_example now_example "gen-a" None
                db_example db_example_wf) as (_ & _ & Hpres).
    destruct (Hpres gen_a) as (d' & Hr & _ & _ & _ & Hpc);
      [left; reflexivity | reflexivity | simpl; lia |].
    exists d'. split; [exact Hr | exact Hpc].
Defined.

(** C7, the claim as it is worded, fails: besides [play_count] and
    [last_played], the row's [updated_at] changes. *)
Lemma record_play_changes_updated_at :
  query_first (by_generation_id "gen-a") (SessionLocal db_example) = Some gen_a
  /\ query_first (by_generation_id "gen-a")
       (record_play now_example now_example "gen-a" None (SessionLocal db_example)).1
     = Some (set_updated_at (Some now_example)
               (increment_play_count now_example gen_a))
  /\ set_updated_at (Some now_example) (increment_play_count now_example gen_a)
     <> increment_play_count now_example gen_a.
Proof.
  split; [reflexivity|]. split; [vm_compute; reflexivity|].
  intros H. apply (f_equal updated_at) in H. discriminate H.
Qed.

(** C6. [toggle_favorite] on the identifier of a record flips
    [is_favorited] and returns the new value; a second call restores
    the original value. On an identifier that no record has it returns
    [None], which is not the boolean false. *)
Theorem toggle_favorite_twice (t1 t2 : datetime) (gid : string) (d : Database) :
  db_wf d ->
  (~ In gid (map generation_id (music_generations d)) ->
   toggle_favorite t1 gid (SessionLocal d) = (SessionLocal d, None)
   /\ (None : option bool) <> Some false)
  /\ (forall g, In g (music_generations d) -> generation_id g = gid ->
      let once := toggle_favorite t1 gid (SessionLocal d) in
      let twice := toggle_favorite t2 gid once.1 in
      once.2 = Some (negb (is_favorited g))
      /\ favorited_of gid once.1 = Some (negb (is_favorited g))
      /\ twice.2 = Some (is_favorited g)
      /\ favorited_of gid twice.1 = Some (is_favorited g)).
Proof.
  intros Hwf. split.
  - intros Habs. split; [|discriminate].
    unfold toggle_favorite. by rewrite (query_first_absent gid d Habs).
  - intros g Hin Hgid.
    pose proof (query_first_present gid d g Hwf Hin Hgid) as Hq.
    set (flip := fun r => (toggle_favorite_obj r).1).
    set (d1 := mkDatabase (update_rows t1 gid flip (music_generations d))
                 (system_metrics d) (id_seq d)).
    assert (Hwf1 : db_wf d1) by (apply update_rows_wf; auto).
    assert (Hq1 : query_first (by_generation_id gid) (SessionLocal d1)
                  = Some (set_updated_at (Some t1) (flip g))).
    { unfold query_first. simpl. rewrite update_rows_find by reflexivity.
      unfold query_first in Hq. simpl in Hq. by rewrite Hq. }
    cbv zeta.
    rewrite (toggle_favorite_found t1 gid d g Hwf Hq). fold flip. fold d1.
    cbn [fst snd].
    rewrite (toggle_favorite_found t2 gid d1 _ Hwf1 Hq1). cbn [fst snd].
    split; [reflexivity|]. split.
    { unfold favorited_of. by rewrite Hq1. }
    split.
    { simpl. by rewrite negb_involutive. }
    unfold favorited_of, query_first. simpl.
    rewrite update_rows_find by reflexivity.
    unfold query_first in Hq1. simpl in Hq1. rewrite Hq1. simpl.
    by rewrite negb_involutive.
Qed.

Lemma toggle_favorite_twice_witness :
  toggle_favorite now_example "gen-x" (SessionLocal db_example)
  = (SessionLocal db_example, None)
  /\ (toggle_favorite now_example "gen-c" (SessionLocal db_example)).2 = Some false
  /\ favorited_of "gen-c"
       (toggle_favorite now_example "gen-c"
          (toggle_favorite now_example "gen-c" (SessionLocal db_example)).1).1
     = Some true.
Proof.
  split.
  - apply (toggle_favorite_twice now_example now_example "gen-x"
             db_example db_example_wf).
    vm_compute. intros H. repeat destruct H as [H|H]; try discriminate H; exact H.
  - destruct (toggle_favorite_twice now_example now_example "gen-c"
                db_example db_example_wf) as [_ Hpres].
    destruct (Hpres gen_c) as (H1 & _ & _ & H4);
      [right; right; left; reflexivity | reflexivity |].
    split; [exact H1 | exact H4].
Defined.

(** ** Retention and cleanup *)

Lemma len_cons {A} (x : A) (l : list A) : len (x :: l) = 1 + len l.
Proof. unfold len. simpl length. lia. Qed.

Lemma len_nonneg {A} (l : list A) : 0 <= len l.
Proof. unfold len. lia. Qed.

Lemma cleanup_query_spec (cutoff : datetime) (keep : bool) (g : MusicGeneration) :
  cleanup_query cutoff keep g = true <->
  (exists t, created_at g = Some t /\ t < cutoff)
  /\ (keep = true -> is_favorited g = false).
Proof.
  unfold cleanup_query, created_before. rewrite andb_true_iff. split.
  - intros [Hc Hf]. split.
    + destruct (created_at g) as [t|]; [|discriminate].
      exists t. split; [reflexivity|]. by apply bool_decide_eq_true in Hc.
    + intros ->. by apply bool_decide_eq_true in Hf.
  - intros [(t & Ht & Hlt) Hf]. rewrite Ht. split.
    + by apply bool_decide_eq_true.
    + destruct keep; [|reflexivity]. apply bool_decide_eq_true. auto.
Qed.

Lemma datetime_sub_ok (t : datetime) (delta : timedelta) :
  valid_datetime (t - delta) -> datetime_sub t delta = Ok (t - delta).
Proof. intros H. unfold datetime_sub. by rewrite bool_decide_eq_true_2. Qed.

Lemma days_before_ok (utcnow : datetime) (days : Z) :
  -999999999 <= days <= 999999999 ->
  valid_datetime (utcnow - days * us_per_day) ->
  days_before utcnow days = Ok (utcnow - days * us_per_day).
Proof.
  intros Hd Hv. unfold days_before, timedelta_days.
  rewrite bool_decide_eq_true_2 by exact Hd.
  unfold mbind, result_bind, rbind. by apply datetime_sub_ok.
Qed.

Lemma days_before_overflow (utcnow : datetime) (days : Z) :
  ~ (-999999999 <= days <= 999999999
     /\ valid_datetime (utcnow - days * us_per_day)) ->
  days_before utcnow days = Raise OverflowError.
Proof.
  intros Hno. unfold days_before, timedelta_days.
  case_bool_decide as Hd; [|reflexivity].
  unfold mbind, result_bind, rbind, datetime_sub.
  case_bool_decide as Hv; [|reflexivity]. exfalso. apply Hno. split; assumption.
Qed.

(** C3 (as the code has it). A dry run changes nothing: the database
    of the session and the file system are returned as they were
    given. When [days_to_keep] is a number of days a [timedelta] can
    hold and the cutoff, that many days before now, is a [datetime],
    the report is the dry-run report: the number of candidates, the
    cutoff, and the [keep_favorites] flag of the call; the candidates
    are the rows created before the cutoff, less the favorites when
    [keep_favorites]. Otherwise the subtraction raises, and the report
    is the error report. *)
Theorem cleanup_dry_run (utcnow db_now : datetime) (days_to_keep : Z)
    (keep_favorites : bool) (session : Session) (fs : gmap string file) :
  let r := cleanup_old_generations utcnow db_now days_to_keep keep_favorites true
             session fs in
  let cutoff := utcnow - days_to_keep * us_per_day in
  let representable :=
    -999999999 <= days_to_keep <= 999999999 /\ valid_datetime cutoff in
  bind_db r.1.1 = bind_db session
  /\ r.1.2 = fs
  /\ (representable ->
      r = (session, fs,
           DryRun (len (candidates utcnow days_to_keep keep_favorites
                          (bind_db session)))
             cutoff keep_favorites))
  /\ (~ representable -> r = (rollback session, fs, CleanupError OverflowError))
  /\ forall g,
       In g (candidates utcnow days_to_keep keep_favorites (bind_db session)) <->
       In g (music_generations (bind_db session))
       /\ (exists t, created_at g = Some t /\ t < cutoff)
       /\ (keep_favorites = true -> is_favorited g = false).
Proof.
  intros r cutoff representable.
  assert (Hyes : representable ->
            r = (session, fs,
                 DryRun (len (candidates utcnow days_to_keep keep_favorites
                                (bind_db session)))
                   cutoff keep_favorites)).
  { intros [Hd Hv]. unfold r, cleanup_old_generations.
    by rewrite (days_before_ok utcnow days_to_keep Hd Hv). }
  assert (Hno : ~ representable ->
            r = (rollback session, fs, CleanupError OverflowError)).
  { intros H. unfold r, cleanup_old_generations.
    by rewrite (days_before_overflow utcnow days_to_keep H). }
  assert (Hdec : representable \/ ~ representable).
  { unfold representable, valid_datetime. lia. }
  split; [|split; [|split; [exact Hyes|split; [exact Hno|]]]].
  - destruct Hdec as [H|H]; [by rewrite (Hyes H) | by rewrite (Hno H)].
  - destruct Hdec as [H|H]; [by rewrite (Hyes H) | by rewrite (Hno H)].
  - intros g. unfold candidates.
    rewrite List.filter_In, cleanup_query_spec. tauto.
Qed.

Lemma cleanup_dry_run_witness :
  cleanup_old_generations now_example now_example 30 true true
    (SessionLocal db_example) fs_example
  = (SessionLocal db_example, fs_example, DryRun 3 (on_day 70) true).
Proof.
  destruct (cleanup_dry_run now_example now_example 30 true
              (SessionLocal db_example) fs_example) as (_ & _ & Hyes & _).
  apply Hyes. vm_compute. repeat split; discriminate.
Defined.

(** C3, the claim as it is worded, fails. With a number of days that no
    [timedelta] holds the report is the error report, without a count
    or a cutoff; and the dry-run report holds more than the count and
    the cutoff: two calls with the same count and the same cutoff that
    differ in [keep_favorites] return different reports. *)
Lemma cleanup_dry_run_report_differs :
  (cleanup_old_generations now_example now_example 10000000000 true true
     (SessionLocal db_example) fs_example).2
  = CleanupError OverflowError
  /\ (cleanup_old_generations now_example now_example 55 true true
        (SessionLocal db_example) fs_example).2
     = DryRun 3 (on_day 45) true
  /\ (cleanup_old_generations now_example now_example 55 false true
        (SessionLocal db_example) fs_example).2
     = DryRun 3 (on_day 45) false
  /\ DryRun 3 (on_day 45) true <> DryRun 3 (on_day 45) false.
Proof.
  split; [vm_compute; reflexivity|]. split; [vm_compute; reflexivity|].
  split; [vm_compute; reflexivity|]. discriminate.
Qed.

Lemma delete_loop_total (gens : list MusicGeneration) :
  forall (fs : gmap string file) (s : Session) (files records : Z),
  exists fs' files',
    delete_loop gens fs s files records
    = (fs', Ok (mkSession (bind_db s) (new s) (dirty s) (deleted s ++ gens),
                files', records + len gens))
    /\ files <= files' <= files + len gens.
Proof.
  induction gens as [|gen gens IH]; intros fs s files records.
  - exists fs, files. simpl. rewrite app_nil_r. unfold len. simpl.
    rewrite Z.add_0_r. destruct s. split; [reflexivity | lia].
  - assert (Hstep : forall fs1 files1, files <= files1 <= files + 1 ->
      exists fs' files',
        delete_loop gens fs1 (session_delete gen s) files1 (records + 1)
        = (fs', Ok (mkSession (bind_db s) (new s) (dirty s) (deleted s ++ gen :: gens),
                    files', records + len (gen :: gens)))
        /\ files <= files' <= files + len (gen :: gens)).
    { intros fs1 files1 Hf.
      destruct (IH fs1 (session_delete gen s) files1 (records + 1))
        as (fs' & files' & Heq & Hb).
      exists fs', files'. rewrite Heq. unfold session_delete.
      cbn [bind_db new dirty deleted]. rewrite <- app_assoc, len_cons.
      change ([gen] ++ gens) with (gen :: gens).
      split; [do 3 f_equal; lia | lia]. }
    simpl. destruct (truthy_path (file_path gen)) as [p|]; [|apply Hstep; lia].
    destruct (path_exists fs p); [|apply Hstep; lia].
    unfold os_remove. destruct (fs !! p) as [f|]; [|apply Hstep; lia].
    destruct (removable f); apply Hstep; lia.
Qed.

Lemma same_row_iff (d : Database) (o r : MusicGeneration) :
  db_wf d -> In o (music_generations d) -> In r (music_generations d) ->
  same_row o r = true <-> o = r.
Proof.
  intros (Hsome & Hnd & _) Ho Hr. rewrite Forall_forall in Hsome.
  destruct (Hsome o) as [i Hi]; [by apply list_elem_of_In|].
  destruct (Hsome r) as [j Hj]; [by apply list_elem_of_In|].
  unfold same_row. rewrite Hi, Hj. rewrite bool_decide_eq_true. split.
  - intros ->. apply (NoDup_map_inj row_id (music_generations d)); auto.
    congruence.
  - intros ->. congruence.
Qed.

Lemma flush_delete_filter (d : Database) (q : MusicGeneration -> bool) :
  db_wf d ->
  flush_delete (List.filter q (music_generations d)) (music_generations d)
  = List.filter (fun r => negb (q r)) (music_generations d).
Proof.
  intros Hwf. unfold flush_delete. apply List.filter_ext_in. intros r Hr.
  f_equal. destruct (q r) eqn:Hq.
  - apply existsb_exists. exists r. split.
    + apply List.filter_In. auto.
    + by apply (same_row_iff d r r Hwf Hr Hr).
  - apply not_true_is_false. intros Hex.
    apply existsb_exists in Hex as (o & Ho & Hsame).
    apply List.filter_In in Ho as [Ho Hqo].
    apply (same_row_iff d o r Hwf Ho Hr) in Hsame. congruence.
Qed.

Lemma flush_update_nil (db_now : datetime) (rows : list MusicGeneration) :
  map (flush_update db_now []) rows = rows.
Proof. induction rows as [|r rows IH]; simpl; [reflexivity|]. by rewrite IH. Qed.

Lemma flush_update_check_nil (rows : list MusicGeneration) :
  flush_update_check [] rows = true.
Proof. unfold flush_update_check. by apply forallb_forall. Qed.

(** C2. A destructive cleanup deletes the row of every candidate and of
    nothing else, whatever the file system does: the report counts as
    many deleted records as there are candidates and at most as many
    deleted files, and it is never the error report. The cutoff,
    [days_to_keep] days before now, is a [datetime]. *)
Theorem cleanup_deletes_every_candidate (utcnow db_now : datetime)
    (days_to_keep : Z) (keep_favorites : bool) (d : Database)
    (fs : gmap string file) :
  db_wf d ->
  -999999999 <= days_to_keep <= 999999999 ->
  valid_datetime (utcnow - days_to_keep * us_per_day) ->
  let cutoff := utcnow - days_to_keep * us_per_day in
  exists fs' deleted_files,
    cleanup_old_generations utcnow db_now days_to_keep keep_favorites false
      (SessionLocal d) fs
    = (SessionLocal
         (mkDatabase
            (List.filter (fun g => negb (cleanup_query cutoff keep_favorites g))
               (music_generations d))
            (system_metrics d) (id_seq d)),
       fs',
       Cleaned (len (candidates utcnow days_to_keep keep_favorites d))
         deleted_files cutoff keep_favorites)
    /\ 0 <= deleted_files <= len (candidates utcnow days_to_keep keep_favorites d).
Proof.
  intros Hwf Hdays Hvalid cutoff. unfold cleanup_old_generations.
  rewrite (days_before_ok utcnow days_to_keep Hdays Hvalid). fold cutoff.
  unfold query_all. simpl bind_db.
  destruct (delete_loop_total
              (List.filter (cleanup_query cutoff keep_favorites) (music_generations d))
              fs (SessionLocal d) 0 0) as (fs' & files & Heq & Hb).
  exists fs', files. rewrite Heq. unfold candidates. fold cutoff.
  split; [|lia].
  unfold mbind, result_bind, rbind, commit. simpl.
  rewrite flush_update_check_nil. cbn [negb].
  rewrite flush_update_nil, (flush_delete_filter d _ Hwf). reflexivity.
Qed.

Lemma cleanup_deletes_every_candidate_witness :
  exists fs' deleted_files,
    cleanup_old_generations now_example now_example 30 true false
      (SessionLocal db_example) fs_example
    = (SessionLocal (mkDatabase [gen_c] [] 5), fs',
       Cleaned 3 deleted_files (on_day 70) true)
    /\ 0 <= deleted_files <= 3.
Proof.
  assert (Hdays : -999999999 <= 30 <= 999999999) by lia.
  assert (Hvalid : valid_datetime (now_example - 30 * us_per_day))
    by (vm_compute; split; discriminate).
  destruct (cleanup_deletes_every_candidate now_example now_example 30 true
              db_example fs_example db_example_wf Hdays Hvalid)
    as (fs' & files & Heq & Hb).
  exists fs', files. split; [exact Heq | exact Hb].
Defined.

(** The artifact of gen-a is gone already and that of gen-b cannot be
    removed: no file is deleted, all three records are. *)
Lemma cleanup_example_report :
  (cleanup_old_generations now_example now_example 30 true false
     (SessionLocal db_example) fs_example).2
  = Cleaned 3 0 (on_day 70) true.
Proof. vm_compute. reflexivity. Qed.

(** ** Arithmetic of the reports *)

Lemma float_overflow_large : 2 ^ 63 <= float_overflow.
Proof. apply Z.leb_le. vm_compute. reflexivity. Qed.

Lemma float_of_int_ok (n : Z) :
  Z.abs n < 2 ^ 63 -> float_of_int n = Ok (float_of_Z n).
Proof.
  intros Hn. unfold float_of_int. pose proof float_overflow_large.
  rewrite bool_decide_eq_true_2 by lia. reflexivity.
Qed.

(** A quotient of counts is never too large for a float. *)
Lemma int_truediv_ok (a b : Z) :
  0 <= a <= b -> 0 < b -> int_truediv a b = Ok (quotient a b).
Proof.
  intros Ha Hb. unfold int_truediv. pose proof float_overflow_large as Hl.
  assert (2 <= float_overflow) by lia.
  rewrite bool_decide_eq_false_2 by lia.
  rewrite bool_decide_eq_true_2 by nia. reflexivity.
Qed.

Lemma float_div_int_ok (x : float) (n : Z) :
  0 < n < 2 ^ 63 -> float_div_int x n = Ok (fdiv x (float_of_Z n)).
Proof.
  intros Hn. unfold float_div_int.
  rewrite bool_decide_eq_false_2 by lia.
  rewrite float_of_int_ok by lia. reflexivity.
Qed.

Lemma len_filter_le {A} (p : A -> bool) (l : list A) : len (List.filter p l) <= len l.
Proof.
  unfold len. apply inj_le. induction l as [|x l IH]; simpl; [lia|].
  destruct (p x); simpl; lia.
Qed.

(** ** The health score *)

(** A float above a bound that 0.0 is not above is not 0.0. *)
Lemma truthy_and_gt_exceeds (x : option float) (b : float) :
  flt b fzero = false -> truthy_and_gt x b = exceeds x b.
Proof.
  intros Hb. destruct x as [v|]; [|reflexivity]. unfold truthy_and_gt, exceeds.
  destruct v as [s|s| |s m e].
  - assert (Hz : flt b (S754_zero s) = false)
      by (destruct b as [[]|[]| |[] ? ?], s; exact Hb).
    rewrite Hz. apply andb_false_r.
  - destruct s; reflexivity.
  - reflexivity.
  - destruct s; reflexivity.
Qed.

Lemma status_of_score_clamped (score : Z) :
  status_of_score (Z.max 0 score) = status_of_score score.
Proof.
  unfold status_of_score. repeat case_bool_decide; try reflexivity; lia.
Qed.

(** [latest] is a sample that no sample is newer than. *)
Lemma latest_newest (l : list SystemMetrics) :
  match latest l with
  | None => l = []
  | Some m => In m l /\ forall m', In m' l -> timestamp m' <= timestamp m
  end.
Proof.
  induction l as [|x l IH]; [reflexivity|]. cbn [latest].
  destruct (latest l) as [m|].
  - destruct IH as [Hin Hmax]. case_bool_decide as Hgt.
    + split; [by right|]. intros m' [<-|Hm']; [lia | by apply Hmax].
    + split; [by left|]. intros m' [<-|Hm']; [lia|].
      specialize (Hmax m' Hm'). lia.
  - subst l. split; [by left|]. intros m' [<-|[]]. lia.
Qed.

Lemma fifth_agrees_spec (n : nat) (failed total : Z) :
  fifth_agrees n = true ->
  0 < total <= Z.of_nat n -> 0 <= failed <= total ->
  fifth_exceeded failed total = true <-> 20 * total < 100 * failed.
Proof.
  unfold fifth_agrees. intros Hall Ht Hf.
  rewrite forallb_forall in Hall.
  assert (Hin : In total (seqZ 1 (Z.of_nat n)))
    by (apply list_elem_of_In, elem_of_seqZ; lia).
  specialize (Hall total Hin). rewrite forallb_forall in Hall.
  assert (Hin' : In failed (seqZ 0 (total + 1)))
    by (apply list_elem_of_In, elem_of_seqZ; lia).
  specialize (Hall failed Hin'). apply Bool.eqb_prop in Hall.
  rewrite Hall. apply Z.ltb_lt.
Qed.

(** C5. The score is 100 less 20 for a latest CPU sample above 80, less
    20 for a latest memory sample above 85, less 30 for a latest error
    rate above 0.1, less 30 when more than 20% of the records of the
    trailing hour failed, and not below 0; the status is [healthy] from
    80, [warning] from 50, [critical] below. The latest sample is one
    that no sample is newer than, wherever it is stored, and there is
    none only when no sample is stored. The share of failures is
    compared as the float it is computed as; up to 200 recent records
    that is the comparison of the counts. CPU 90, memory 50, no errors
    and no recent failure give 80 and [healthy], in either order of
    storage; with a quarter of the recent records failed they give 50
    and [warning]. One hour before now is a [datetime]. *)
Theorem get_system_health_score (utcnow checked_at : datetime) (session : Session) :
  valid_datetime (utcnow - timedelta_hours 1) ->
  let samples := system_metrics (bind_db session) in
  let recent := List.filter (created_since (utcnow - timedelta_hours 1))
                  (music_generations (bind_db session)) in
  let failed := len (List.filter (has_status "failed") recent) in
  let score := spec_health_score (latest samples) failed (len recent) in
  (exists h,
     get_system_health utcnow checked_at session = HealthOk h
     /\ health_score h = score
     /\ 0 <= health_score h <= 100
     /\ health_status h = status_of_score (health_score h))
  /\ match latest samples with
     | None => samples = []
     | Some m => In m samples
                 /\ forall m', In m' samples -> timestamp m' <= timestamp m
     end
  /\ (forall total failed, 0 < total <= 200 -> 0 <= failed <= total ->
      fifth_exceeded failed total = true <-> 20 * total < 100 * failed)
  /\ (forall s, 80 <= s -> status_of_score s = "healthy")
  /\ (forall s, 50 <= s < 80 -> status_of_score s = "warning")
  /\ (forall s, s < 50 -> status_of_score s = "critical")
  /\ score_and_status (get_system_health now_example now_example (SessionLocal db_busy))
     = Some (80, "healthy")
  /\ score_and_status
       (get_system_health now_example now_example (SessionLocal db_busy_first))
     = Some (80, "healthy")
  /\ score_and_status
       (get_system_health now_example now_example (SessionLocal db_busy_failing))
     = Some (50, "warning").
Proof.
  intros Hvalid samples recent failed score.
  split; [|split; [|split; [|split; [|split; [|split; [|split; [|split]]]]]]].
  - unfold get_system_health.
    rewrite (datetime_sub_ok utcnow (timedelta_hours 1) Hvalid).
    rewrite mbind_Ok. cbv beta. unfold query_all. fold recent. fold failed.
    fold samples.
    assert (Hle : failed <= len recent) by apply len_filter_le.
    assert (Hnn : 0 <= failed) by apply len_nonneg.
    assert (Hok : len (List.filter (has_status "completed") recent) <= len recent)
      by apply len_filter_le.
    assert (Hnn' : 0 <= len (List.filter (has_status "completed") recent))
      by apply len_nonneg.
    assert (Hfail :
      (if bool_decide (len recent > 0)
       then ratio ← int_truediv failed (len recent);
            Ok (flt (decimal 2 1) ratio)
       else Ok false)
      = Ok (fifth_exceeded failed (len recent))).
    { unfold fifth_exceeded. case_bool_decide as Ht; [|reflexivity].
      rewrite int_truediv_ok by lia. reflexivity. }
    rewrite Hfail, mbind_Ok. cbv beta.
    rewrite int_truediv_ok by lia. rewrite mbind_Ok. cbv beta.
    eexists. split; [reflexivity|]. cbn [health_score health_status].
    assert (Hscore :
      Z.max 0
        (if fifth_exceeded failed (len recent)
         then match latest samples with
              | Some m =>
                  if flt (decimal 1 1) (error_rate m)
                  then (if truthy_and_gt (memory_usage m) (float_of_Z 85)
                        then (if truthy_and_gt (cpu_usage m) (float_of_Z 80)
                              then 100 - 20 else 100) - 20
                        else if truthy_and_gt (cpu_usage m) (float_of_Z 80)
                             then 100 - 20 else 100) - 30
                  else if truthy_and_gt (memory_usage m) (float_of_Z 85)
                       then (if truthy_and_gt (cpu_usage m) (float_of_Z 80)
                             then 100 - 20 else 100) - 20
                       else if truthy_and_gt (cpu_usage m) (float_of_Z 80)
                            then 100 - 20 else 100
              | None => 100
              end - 30
         else match latest samples with
              | Some m =>
                  if flt (decimal 1 1) (error_rate m)
                  then (if truthy_and_gt (memory_usage m) (float_of_Z 85)
                        then (if truthy_and_gt (cpu_usage m) (float_of_Z 80)
                              then 100 - 20 else 100) - 20
                        else if truthy_and_gt (cpu_usage m) (float_of_Z 80)
                             then 100 - 20 else 100) - 30
                  else if truthy_and_gt (memory_usage m) (float_of_Z 85)
                       then (if truthy_and_gt (cpu_usage m) (float_of_Z 80)
                             then 100 - 20 else 100) - 20
                       else if truthy_and_gt (cpu_usage m) (float_of_Z 80)
                            then 100 - 20 else 100
              | None => 100
              end) = score).
    { unfold score, spec_health_score, cpu_of, memory_of, error_rate_of.
      destruct (latest samples) as [m|];
        cbn [mbind option_bind fmap option_fmap option_map].
      - rewrite !truthy_and_gt_exceeds by (vm_compute; reflexivity).
        change (exceeds (Some (error_rate m)) (decimal 1 1))
          with (flt (decimal 1 1) (error_rate m)).
        destruct (exceeds (cpu_usage m) (float_of_Z 80)),
                 (exceeds (memory_usage m) (float_of_Z 85)),
                 (flt (decimal 1 1) (error_rate m)),
                 (fifth_exceeded failed (len recent)); reflexivity.
      - destruct (fifth_exceeded failed (len recent)); reflexivity. }
    split; [exact Hscore|]. split.
    + rewrite Hscore. unfold score, spec_health_score.
      repeat match goal with |- context [if ?b then _ else _] => destruct b end; lia.
    + rewrite <- status_of_score_clamped. reflexivity.
  - apply latest_newest.
  - intros total failed' Ht Hf.
    apply (fifth_agrees_spec 200); [vm_compute; reflexivity | lia | lia].
  - intros s Hs. unfold status_of_score. by rewrite bool_decide_eq_true_2 by lia.
  - intros s Hs. unfold status_of_score.
    rewrite bool_decide_eq_false_2 by lia. by rewrite bool_decide_eq_true_2 by lia.
  - intros s Hs. unfold status_of_score.
    rewrite bool_decide_eq_false_2 by lia. by rewrite bool_decide_eq_false_2 by lia.
  - vm_compute. reflexivity.
  - vm_compute. reflexivity.
  - vm_compute. reflexivity.
Qed.

Lemma get_system_health_score_witness :
  exists h,
    get_system_health now_example now_example (SessionLocal db_busy) = HealthOk h
    /\ health_score h = 80.
Proof.
  assert (Hvalid : valid_datetime (now_example - timedelta_hours 1))
    by (vm_compute; split; discriminate).
  destruct (get_system_health_score now_example now_example (SessionLocal db_busy)
              Hvalid) as ((h & Hh & Hs & _) & _).
  exists h. split; [exact Hh|]. rewrite Hs. vm_compute. reflexivity.
Defined.

(** ** The statistics report *)

Lemma device_add_counts (dev : string) (t : float) (n : Z)
    (stats : list (string * DeviceAcc)) :
  0 <= n ->
  Forall (fun e => 0 < acc_count e.2 <= n) stats ->
  Forall (fun e => 0 < acc_count e.2 <= n + 1) (device_add dev t stats).
Proof.
  intros Hn. induction 1 as [|[dev' a] stats Ha Hs IH]; simpl.
  - repeat constructor; simpl; lia.
  - case_bool_decide; constructor; simpl in *; auto; try lia.
    eapply Forall_impl; [exact Hs|]. intros e He. simpl in He. lia.
Qed.

Lemma device_loop_counts (gens : list MusicGeneration) :
  Forall (fun e => 0 < acc_count e.2 <= len gens) (device_loop gens).
Proof.
  unfold device_loop.
  assert (H : forall stats n, 0 <= n ->
    Forall (fun e => 0 < acc_count e.2 <= n) stats ->
    Forall (fun e => 0 < acc_count e.2 <= n + len gens)
      (fold_left (fun stats gen =>
                    device_add (device gen) (generation_time gen) stats) gens stats)).
  { induction gens as [|g gens IH]; intros stats n Hn Hs.
    - unfold len. simpl. eapply Forall_impl; [exact Hs|].
      intros e He. simpl in He. lia.
    - cbn [fold_left]. rewrite len_cons.
      replace (n + (1 + len gens)) with (n + 1 + len gens) by lia.
      apply IH; [lia|]. by apply device_add_counts. }
  apply (H [] 0); [lia | constructor].
Qed.

Lemma device_averages_ok (stats : list (string * DeviceAcc)) :
  Forall (fun e => 0 < acc_count e.2 < 2 ^ 63) stats ->
  device_averages stats = Ok (map device_entry stats).
Proof.
  induction 1 as [|[dev a] stats Ha _ IH]; [reflexivity|].
  cbn [device_averages]. simpl in Ha. rewrite float_div_int_ok by lia.
  rewrite mbind_Ok, IH, mbind_Ok. reflexivity.
Qed.

Lemma len_pos_cons {A} (x : A) (l : list A) : 0 < len (x :: l).
Proof. rewrite len_cons. pose proof (len_nonneg l). lia. Qed.

(** Inside the ranges of [datetime] and for a table a list can hold,
    the report is the full one, and these are its figures. *)
Lemma get_generation_stats_ok (end_date calculated_at : datetime) (days : Z)
    (session : Session) :
  window_representable end_date days ->
  len (music_generations (bind_db session)) < 2 ^ 63 ->
  let w := window end_date days (bind_db session) in
  let ok := List.filter (has_status "completed") w in
  get_generation_stats end_date calculated_at days session =
  StatsOk
    (mkStats days (len w) (len ok) (len (List.filter (has_status "failed") w))
       (py_round2 (fmul (quotient (len ok) (Z.max (len w) 1)) (float_of_Z 100)))
       (py_round2 (mean (map generation_time ok)))
       (py_round2 (mean (map realtime_factor ok)))
       (py_round2 (match ok with
                   | [] => fzero
                   | _ :: _ => py_sum (map file_size_mb ok)
                   end))
       (py_round2 (mean (map file_size_mb ok)))
       (sum_Z (map play_count ok)) (sum_Z (map download_count ok))
       (len (List.filter is_favorited ok))
       (map device_entry (device_loop ok))
       (len (List.filter (created_since (end_date - timedelta_hours 24))
               (music_generations (bind_db session))))
       calculated_at).
Proof.
  intros (Hdays & Hstart & Hrecent) Hrows w ok.
  unfold get_generation_stats.
  rewrite (days_before_ok end_date days Hdays Hstart), mbind_Ok. cbv beta.
  unfold query_all.
  change (List.filter (created_since (end_date - days * us_per_day))
            (music_generations (bind_db session))) with w.
  fold ok.
  assert (Hw : len w <= len (music_generations (bind_db session)))
    by apply len_filter_le.
  assert (Hok : len ok <= len w) by apply len_filter_le.
  pose proof (len_nonneg ok) as Hnn.
  rewrite (int_truediv_ok (len ok) (Z.max (len w) 1)) by lia.
  rewrite mbind_Ok. cbv beta.
  assert (Hdev : device_averages (device_loop ok)
                 = Ok (map device_entry (device_loop ok))).
  { apply device_averages_ok. eapply Forall_impl; [apply device_loop_counts|].
    intros e He. simpl in He. lia. }
  rewrite (datetime_sub_ok end_date (timedelta_hours 24) Hrecent).
  destruct ok as [|g ok'] eqn:Heq.
  - rewrite mbind_Ok. cbv beta iota. rewrite Hdev, !mbind_Ok. reflexivity.
  - pose proof (len_pos_cons g ok') as Hpos.
    rewrite !float_div_int_ok by lia. rewrite !mbind_Ok. cbv beta iota.
    rewrite Hdev, !mbind_Ok. cbv beta.
    unfold mean. cbn [map]. rewrite !len_cons.
    unfold len. rewrite !length_map. reflexivity.
Qed.

(** Outside them the subtraction raises, and the report is the degraded
    one of the [except] branch. *)
Lemma get_generation_stats_overflow (end_date calculated_at : datetime) (days : Z)
    (session : Session) :
  ~ (-999999999 <= days <= 999999999
     /\ valid_datetime (end_date - days * us_per_day)) ->
  get_generation_stats end_date calculated_at days session
  = StatsError OverflowError days 0 0 0 fzero.
Proof.
  intros H. unfold get_generation_stats.
  by rewrite (days_before_overflow end_date days H).
Qed.

Lemma datetime_sub_overflow (t : datetime) (delta : timedelta) :
  ~ valid_datetime (t - delta) -> datetime_sub t delta = Raise OverflowError.
Proof. intros H. unfold datetime_sub. by rewrite bool_decide_eq_false_2. Qed.

(** When the start of the window or of the last 24 hours is no
    [datetime], the report is the degraded one. *)
Lemma get_generation_stats_degraded (end_date calculated_at : datetime) (days : Z)
    (session : Session) :
  len (music_generations (bind_db session)) < 2 ^ 63 ->
  ~ window_representable end_date days ->
  get_generation_stats end_date calculated_at days session
  = StatsError OverflowError days 0 0 0 fzero.
Proof.
  intros Hrows Hno.
  assert (Hdec : (-999999999 <= days <= 999999999
                  /\ valid_datetime (end_date - days * us_per_day))
                 \/ ~ (-999999999 <= days <= 999999999
                       /\ valid_datetime (end_date - days * us_per_day)))
    by (unfold valid_datetime; lia).
  destruct Hdec as [[Hdays Hstart]|Hout];
    [|by apply get_generation_stats_overflow].
  assert (Hrecent : ~ valid_datetime (end_date - timedelta_hours 24)).
  { intros H. apply Hno. split; [exact Hdays|]. split; assumption. }
  unfold get_generation_stats.
  rewrite (days_before_ok end_date days Hdays Hstart), mbind_Ok. cbv beta.
  unfold query_all.
  set (w := List.filter (created_since (end_date - days * us_per_day))
              (music_generations (bind_db session))).
  set (ok := List.filter (has_status "completed") w).
  assert (Hw : len w <= len (music_generations (bind_db session)))
    by apply len_filter_le.
  assert (Hok : len ok <= len w) by apply len_filter_le.
  pose proof (len_nonneg ok) as Hnn.
  rewrite (int_truediv_ok (len ok) (Z.max (len w) 1)) by lia.
  rewrite mbind_Ok. cbv beta.
  assert (Hdev : device_averages (device_loop ok)
                 = Ok (map device_entry (device_loop ok))).
  { apply device_averages_ok. eapply Forall_impl; [apply device_loop_counts|].
    intros e He. simpl in He. lia. }
  rewrite (datetime_sub_overflow end_date (timedelta_hours 24) Hrecent).
  destruct ok as [|g ok'] eqn:Heq.
  - rewrite mbind_Ok. cbv beta iota. rewrite Hdev, mbind_Ok. cbv beta.
    rewrite mbind_Raise. reflexivity.
  - pose proof (len_pos_cons g ok') as Hpos.
    rewrite !float_div_int_ok by lia. rewrite !mbind_Ok. cbv beta iota.
    rewrite Hdev, mbind_Ok. cbv beta. rewrite mbind_Raise. reflexivity.
Qed.

(** C4 (as the code has it). The quotient of the counts never raises.
    When the window and the last 24 hours start at a [datetime], the
    report is the full one; its counts are those of the records of the
    window, and its [success_rate] is the float
    successful / max(total, 1) * 100 rounded to two decimal places by
    [round]; on an empty window the counts are zero and the rate is
    0.0. Otherwise the subtraction of the days raises, and the report
    is the degraded one, with an error, zero counts and the rate
    0.0. *)
Theorem get_generation_stats_success_rate (end_date calculated_at : datetime)
    (days : Z) (session : Session) :
  len (music_generations (bind_db session)) < 2 ^ 63 ->
  let w := window end_date days (bind_db session) in
  let total := len w in
  let successful := len (List.filter (has_status "completed") w) in
  let failed := len (List.filter (has_status "failed") w) in
  let r := get_generation_stats end_date calculated_at days session in
  int_truediv successful (Z.max total 1) = Ok (quotient successful (Z.max total 1))
  /\ (window_representable end_date days ->
      (exists stats, r = StatsOk stats)
      /\ report_total r = total
      /\ report_successful r = successful
      /\ report_failed r = failed
      /\ report_success_rate r
         = py_round2 (fmul (quotient successful (Z.max total 1)) (float_of_Z 100))
      /\ (w = [] ->
          report_total r = 0 /\ report_successful r = 0 /\ report_failed r = 0
          /\ report_success_rate r = fzero))
  /\ (~ window_representable end_date days ->
      r = StatsError OverflowError days 0 0 0 fzero).
Proof.
  intros Hrows w total successful failed r.
  split.
  { apply int_truediv_ok.
    - pose proof (len_filter_le (has_status "completed") w).
      pose proof (len_nonneg (List.filter (has_status "completed") w)).
      unfold successful, total. lia.
    - lia. }
  split; [|by apply get_generation_stats_degraded].
  intros Hwin.
  pose proof (get_generation_stats_ok end_date calculated_at days session
                Hwin Hrows) as Hr.
  cbv zeta in Hr. fold w in Hr. fold r in Hr.
  rewrite Hr. cbn [report_total report_successful report_failed report_success_rate
                   total_generations successful_generations failed_generations
                   success_rate].
  split; [eexists; reflexivity|]. repeat (split; [reflexivity|]).
  intros Hw. unfold successful, total. rewrite Hw. cbn [List.filter].
  repeat (split; [reflexivity|]). vm_compute. reflexivity.
Qed.

Lemma example_window_representable (days : Z) :
  0 <= days <= 1000 -> window_representable now_example days.
Proof.
  intros Hd. unfold window_representable, valid_datetime, now_example, on_day,
    day, timedelta_hours, datetime_max, us_per_day, us_per_hour. lia.
Qed.

Lemma get_generation_stats_success_rate_witness :
  report_total (get_generation_stats now_example now_example 60
                  (SessionLocal db_example)) = 3
  /\ report_success_rate (get_generation_stats now_example now_example 60
                            (SessionLocal db_example))
     = decimal 6667 2.
Proof.
  assert (Hwin : window_representable now_example 60)
    by (apply example_window_representable; lia).
  assert (Hrows : len (music_generations (bind_db (SessionLocal db_example))) < 2 ^ 63)
    by (vm_compute; reflexivity).
  destruct (get_generation_stats_success_rate now_example now_example 60
              (SessionLocal db_example) Hrows) as (_ & Hfull & _).
  destruct (Hfull Hwin) as (_ & Ht & _ & _ & Hrate & _).
  split.
  - rewrite Ht. vm_compute. reflexivity.
  - rewrite Hrate. vm_compute. reflexivity.
Defined.

(** C4, the claim as it is worded, fails: with two successful records
    out of three the report holds 66.67, which is not the float
    2 / 3 * 100. *)
Lemma get_generation_stats_rate_not_exact :
  let r := get_generation_stats now_example now_example 60 (SessionLocal db_example) in
  report_total r = 3
  /\ report_successful r = 2
  /\ report_success_rate r = decimal 6667 2
  /\ report_success_rate r <> fmul (quotient 2 (Z.max 3 1)) (float_of_Z 100).
Proof.
  cbv zeta.
  assert (Hr : get_generation_stats now_example now_example 60
                 (SessionLocal db_example)
               = StatsOk
                   (mkStats 60 3 2 1 (decimal 6667 2) (decimal 15 1) (float_of_Z 1)
                      (float_of_Z 5) (decimal 25 1) 0 0 1
                      [("cuda", mkDeviceStats 1 (float_of_Z 1));
                       ("cpu", mkDeviceStats 1 (float_of_Z 2))]
                      0 now_example))
    by (vm_compute; reflexivity).
  rewrite Hr.
  cbn [report_total report_successful report_success_rate
       total_generations successful_generations success_rate].
  split; [reflexivity|]. split; [reflexivity|]. split; [reflexivity|].
  vm_compute. discriminate.
Qed.

(** C8 (as the code has it). [get_generation_stats] takes [days] as it
    is given: it repeats [days] as the period of its report, and when
    the window of [days] days starts at a [datetime] the report is over
    the window of exactly [days] days. The clamp to 1..365 is made by
    the [/stats] endpoint of main.py, which calls it with the clamped
    value. *)
Theorem get_stats_clamps_days (end_date calculated_at : datetime) (days : Z)
    (session : Session) :
  let r := get_generation_stats end_date calculated_at days session in
  let clamped := Z.max 1 (Z.min days 365) in
  (window_representable end_date days ->
   len (music_generations (bind_db session)) < 2 ^ 63 ->
   report_period_days r = days
   /\ report_total r = len (window end_date days (bind_db session)))
  /\ get_stats true end_date calculated_at days session
     = StatsData (get_generation_stats end_date calculated_at clamped session)
  /\ 1 <= clamped <= 365
  /\ (days < 1 -> clamped = 1)
  /\ (365 < days -> clamped = 365)
  /\ (1 <= days <= 365 -> clamped = days).
Proof.
  intros r clamped. split.
  - intros Hwin Hrows. unfold r.
    rewrite (get_generation_stats_ok end_date calculated_at days session Hwin Hrows).
    split; reflexivity.
  - split; [reflexivity|]. unfold clamped. repeat split; lia.
Qed.

Lemma get_stats_clamps_days_witness :
  report_period_days
    (get_generation_stats now_example now_example 1000 (SessionLocal db_example))
  = 1000
  /\ report_total
       (get_generation_stats now_example now_example 1000 (SessionLocal db_example))
     = 4.
Proof.
  assert (Hwin : window_representable now_example 1000)
    by (apply example_window_representable; lia).
  assert (Hrows : len (music_generations (bind_db (SessionLocal db_example))) < 2 ^ 63)
    by (vm_compute; reflexivity).
  destruct (get_stats_clamps_days now_example now_example 1000
              (SessionLocal db_example)) as [Hexact _].
  destruct (Hexact Hwin Hrows) as [Hp Ht].
  split; [exact Hp|]. rewrite Ht. vm_compute. reflexivity.
Defined.

(** C8, the claim as it is worded, fails: called with 0 days the
    function reports over an empty window where the window of one day
    has four records, and called with 1000 days it reports a period of
    1000 days and counts a record created 400 days ago, which a window
    of 365 days leaves out. *)
Lemma get_generation_stats_does_not_clamp :
  report_total
    (get_generation_stats now_example now_example 0 (SessionLocal db_busy_failing)) = 0
  /\ report_total
       (get_generation_stats now_example now_example 1 (SessionLocal db_busy_failing)) = 4
  /\ report_period_days
       (get_generation_stats now_example now_example 0 (SessionLocal db_busy_failing)) = 0
  /\ report_period_days
       (get_generation_stats now_example now_example 1000 (SessionLocal db_example))
     = 1000
  /\ report_total
       (get_generation_stats now_example now_example 1000 (SessionLocal db_old)) = 1
  /\ report_total
       (get_generation_stats now_example now_example 365 (SessionLocal db_old)) = 0.
Proof. repeat split; vm_compute; reflexivity. Qed.

(** The figures of the report that are rounded: each is a value of
    [round(_, 2)]. *)
Lemma get_generation_stats_rounded (end_date calculated_at : datetime) (days : Z)
    (session : Session) :
  window_representable end_date days ->
  len (music_generations (bind_db session)) < 2 ^ 63 ->
  exists stats,
    get_generation_stats end_date calculated_at days session = StatsOk stats
    /\ (exists x, success_rate stats = py_round2 x)
    /\ (exists x, avg_generation_time stats = py_round2 x)
    /\ (exists x, avg_realtime_factor stats = py_round2 x)
    /\ (exists x, total_file_size_mb stats = py_round2 x)
    /\ (exists x, avg_file_size_mb stats = py_round2 x).
Proof.
  intros Hwin Hrows.
  rewrite (get_generation_stats_ok end_date calculated_at days session Hwin Hrows).
  eexists. split; [reflexivity|].
  cbn [success_rate avg_generation_time avg_realtime_factor total_file_size_mb
       avg_file_size_mb].
  repeat split; eexists; reflexivity.
Qed.

(** C9, where the code departs from it. For three generations of one
    device that took 1, 1 and 2 seconds the report holds the rounded
    [avg_generation_time] 1.33, and in the device breakdown the
    unrounded [avg_time] 4.0 / 3, which is 1.3333333333333333. *)
Theorem device_avg_time_not_rounded :
  let r := get_generation_stats now_example now_example 1 (SessionLocal db_thirds) in
  report_avg_generation_time r = Some (decimal 133 2)
  /\ (exists avg, report_device_breakdown r = [("cuda", mkDeviceStats 3 avg)]
                  /\ avg = quotient 4 3
                  /\ avg = decimal 13333333333333333 16
                  /\ ~ two_decimals avg
                  /\ py_round2 avg <> avg).
Proof.
  cbv zeta.
  assert (Hr : get_generation_stats now_example now_example 1 (SessionLocal db_thirds)
               = StatsOk
                   (mkStats 1 3 3 0 (float_of_Z 100) (decimal 133 2) (float_of_Z 1)
                      (decimal 75 1) (decimal 25 1) 0 0 0
                      [("cuda", mkDeviceStats 3 (quotient 4 3))] 3 now_example))
    by (vm_compute; reflexivity).
  rewrite Hr.
  cbn [report_avg_generation_time report_device_breakdown avg_generation_time
       device_breakdown].
  split; [reflexivity|].
  eexists. split; [reflexivity|]. split; [reflexivity|].
  split; [vm_compute; reflexivity|].
  unfold two_decimals. split; vm_compute; discriminate.
Qed.

(** ** Creating a record *)

Section Validation.
Variable float_of_str : string -> option float.
Variable str_of_float : float -> string.

Lemma coerce_raises (t : PyType) (v : PyVal) (e : exn) :
  coerce float_of_str str_of_float t v = Raise e ->
  e = TypeError \/ e = OverflowError \/ exists msg, e = ValueError msg.
Proof.
  destruct t; simpl; [discriminate|].
  destruct v; simpl; try discriminate; try (intros [= <-]; by left).
  - unfold float_of_int. case_bool_decide; simpl; [discriminate|].
    intros [= <-]. right. by left.
  - destruct (float_of_str s); simpl; [discriminate|].
    intros [= <-]. right. right. eexists. reflexivity.
Qed.

Lemma check_required_raises (data : gmap string PyVal) (f : string * PyType) :
  not_coercible float_of_str str_of_float data f ->
  exists e, check_required float_of_str str_of_float data f = Raise e
            /\ e <> IntegrityError.
Proof.
  unfold not_coercible, check_required. destruct f as [field t]. simpl.
  destruct (data !! field) as [v|]; [|eexists; split; [reflexivity | discriminate]].
  intros [-> [e He]]. rewrite He.
  destruct (coerce_raises t v e He) as [->|[->|[msg ->]]];
    eexists; (split; [reflexivity | discriminate]).
Qed.

Lemma check_required_not_integrity (data : gmap string PyVal) (f : string * PyType) :
  check_required float_of_str str_of_float data f <> Raise IntegrityError.
Proof.
  unfold check_required. destruct f as [field t].
  destruct (data !! field) as [v|]; [|discriminate].
  destruct (isinstance v t); [discriminate|].
  destruct (coerce float_of_str str_of_float t v) as [v'|e] eqn:He; [discriminate|].
  destruct (coerce_raises t v e He) as [->|[->|[msg ->]]]; discriminate.
Qed.

Lemma check_required_keeps (data data' : gmap string PyVal)
    (f : string * PyType) (k : string) :
  check_required float_of_str str_of_float data f = Ok data' ->
  k <> f.1 -> data' !! k = data !! k.
Proof.
  unfold check_required. destruct f as [field t]. simpl.
  destruct (data !! field) as [v|]; [|discriminate].
  destruct (isinstance v t); [by intros [= <-]|].
  destruct (coerce float_of_str str_of_float t v) as [v'|e].
  - intros [= <-] Hk. by rewrite lookup_insert_ne.
  - destruct e; discriminate.
Qed.

Lemma check_all_raises (fields : list (string * PyType)) :
  forall (data : gmap string PyVal) (f : string * PyType),
  NoDup (map fst fields) -> In f fields ->
  not_coercible float_of_str str_of_float data f ->
  exists e, check_all float_of_str str_of_float fields data = Raise e
            /\ e <> IntegrityError.
Proof.
  induction fields as [|f0 fields IH]; intros data f Hnd Hin Hbad; [destruct Hin|].
  simpl in Hnd. apply NoDup_cons in Hnd as [Hfresh Hnd]. simpl.
  destruct Hin as [->|Hin].
  - destruct (check_required_raises data f Hbad) as (e & He & Hne).
    rewrite He. eexists. split; [reflexivity | exact Hne].
  - destruct (check_required float_of_str str_of_float data f0) as [data'|e] eqn:Hc.
    2:{ exists e. split; [reflexivity|]. intros ->.
        by apply (check_required_not_integrity data f0). }
    unfold mbind, result_bind, rbind. apply (IH data' f Hnd Hin).
    unfold not_coercible in *.
    rewrite (check_required_keeps data data' f0 f.1 Hc); [exact Hbad|].
    intros Heq. apply Hfresh. rewrite <- Heq.
    apply list_elem_of_In, in_map, Hin.
Qed.

(** C1. When a required field is absent from the input, or is not of
    its type and cannot be made so, validation raises,
    [create_generation_record] returns [None], and the session it
    leaves is the rolled-back one: nothing is pending and the database
    is the one it was given. *)
Theorem create_generation_record_rejects (db_now : datetime)
    (fs : gmap string file) (generation_data : gmap string PyVal)
    (file_path : option string) (session : Session) (f : string * PyType) :
  In f required_fields ->
  not_coercible float_of_str str_of_float generation_data f ->
  let r := create_generation_record float_of_str str_of_float db_now fs
             generation_data file_path session in
  (exists e, validate_generation_data float_of_str str_of_float generation_data
             = Raise e)
  /\ r.2 = None
  /\ r.1 = rollback session
  /\ bind_db r.1 = bind_db session
  /\ new r.1 = [] /\ dirty r.1 = [] /\ deleted r.1 = [].
Proof.
  intros Hin Hbad r.
  destruct (check_all_raises required_fields generation_data f) as (e & He & Hne);
    auto.
  { apply (bool_decide_unpack _). vm_compute. exact I. }
  assert (Hv : validate_generation_data float_of_str str_of_float generation_data
               = Raise e).
  { unfold validate_generation_data. by rewrite He. }
  split; [by exists e|].
  unfold r, create_generation_record. rewrite Hv.
  unfold mbind, result_bind, rbind.
  destruct e; try congruence; cbn [fst snd]; repeat split.
Qed.
End Validation.

Lemma create_generation_record_rejects_witness :
  let r := create_generation_record no_float_of_str a_str_of_float now_example
             fs_example (<["generation_time" := PStr "fast"]> data_example)
             (Some "/out/gen-c.wav") (SessionLocal db_example) in
  r.2 = None /\ r.1 = SessionLocal db_example.
Proof.
  destruct (create_generation_record_rejects no_float_of_str a_str_of_float
              now_example fs_example
              (<["generation_time" := PStr "fast"]> data_example)
              (Some "/out/gen-c.wav") (SessionLocal db_example)
              ("generation_time", TFloat)) as (_ & Hnone & Hsess & _).
  - simpl. tauto.
  - vm_compute. split; [reflexivity|]. eexists. reflexivity.
  - split; [exact Hnone | exact Hsess].
Defined.

(** ** Overlapping calls *)

Lemma commit_session (db_now : datetime) (s s' : Session) :
  commit db_now s = Ok s' -> s' = SessionLocal (bind_db s').
Proof.
  unfold commit.
  destruct (flush_update_check (dirty s) (music_generations (bind_db s)));
    cbn [negb]; [|discriminate].
  destruct (flush_insert db_now (new s)
              (map (flush_update db_now (dirty s)) (music_generations (bind_db s)))
              (id_seq (bind_db s))) as [[rows seq]|e]; simpl; [|discriminate].
  by intros [= <-].
Qed.

(** A call of [record_play] is the two steps of a caller, taken without
    interruption. *)
Lemma record_play_as_steps (utcnow db_now : datetime) (gid : string)
    (dur : option float) (d : Database) :
  record_play utcnow db_now gid dur (SessionLocal d) =
  let '(d1, c1) := caller_step utcnow db_now gid d Calling in
  let '(d2, c2) := caller_step utcnow db_now gid d1 c1 in
  (SessionLocal d2, match c2 with Returned b => b | _ => false end).
Proof.
  unfold record_play, caller_step.
  destruct (query_first (by_generation_id gid) (SessionLocal d)) as [g|];
    [|reflexivity].
  destruct (commit db_now
              (session_modified (increment_play_count utcnow g) (SessionLocal d)))
    as [s|e] eqn:Hc; [|reflexivity].
  unfold mbind, result_bind, rbind. by rewrite (commit_session _ _ _ Hc) at 1.
Qed.

Lemma record_play_next (utcnow db_now : datetime) (gid : string) (d : Database)
    (g : MusicGeneration) :
  db_wf d ->
  query_first (by_generation_id gid) (SessionLocal d) = Some g ->
  -2147483648 <= play_count g < 2147483647 ->
  exists d' g',
    record_play utcnow db_now gid None (SessionLocal d) = (SessionLocal d', true)
    /\ db_wf d'
    /\ query_first (by_generation_id gid) (SessionLocal d') = Some g'
    /\ play_count g' = play_count g + 1.
Proof.
  intros Hwf Hq Hrange. eexists. eexists.
  split; [apply (record_play_found utcnow db_now gid None d g Hwf Hq);
          apply int4_spec; lia|].
  split; [by apply update_rows_wf|]. split.
  - unfold query_first. simpl. rewrite update_rows_find by reflexivity.
    unfold query_first in Hq. simpl in Hq. rewrite Hq. reflexivity.
  - reflexivity.
Qed.

Lemma record_play_times_count (n : nat) :
  forall (utcnow db_now : datetime) (gid : string) (d : Database)
         (g : MusicGeneration),
  db_wf d ->
  query_first (by_generation_id gid) (SessionLocal d) = Some g ->
  -2147483648 <= play_count g ->
  play_count g + Z.of_nat n <= 2147483647 ->
  play_count_of gid
    (bind_db (record_play_times n utcnow db_now gid (SessionLocal d)))
  = Some (play_count g + Z.of_nat n).
Proof.
  induction n as [|n IH]; intros utcnow db_now gid d g Hwf Hq Hlo Hhi.
  - simpl. unfold play_count_of. rewrite Hq. simpl. f_equal. lia.
  - destruct (record_play_next utcnow db_now gid d g Hwf Hq)
      as (d' & g' & Hr & Hwf' & Hq' & Hpc); [lia|].
    cbn [record_play_times]. rewrite Hr. cbn [fst].
    rewrite (IH utcnow db_now gid d' g' Hwf' Hq') by lia. f_equal. lia.
Qed.

Lemma schedule_step_middle (utcnow db_now : datetime) (gid : string)
    (d : Database) (done rest : list Caller) (c : Caller) :
  schedule_step utcnow db_now gid (d, done ++ c :: rest) (length done) =
  ((caller_step utcnow db_now gid d c).1,
   done ++ (caller_step utcnow db_now gid d c).2 :: rest).
Proof.
  unfold schedule_step. rewrite list_lookup_middle by reflexivity.
  destruct (caller_step utcnow db_now gid d c) as [d' c']. simpl. f_equal.
  rewrite insert_app_r_alt by lia. by rewrite Nat.sub_diag.
Qed.

Lemma run_one_at_a_time (n : nat) :
  forall (utcnow db_now : datetime) (gid : string) (d : Database)
         (g : MusicGeneration) (done : list Caller),
  db_wf d ->
  query_first (by_generation_id gid) (SessionLocal d) = Some g ->
  -2147483648 <= play_count g ->
  play_count g + Z.of_nat n <= 2147483647 ->
  run_schedule utcnow db_now gid
    (flat_map (fun i => [i; i]) (seq (length done) n))
    (d, done ++ replicate n Calling)
  = (bind_db (record_play_times n utcnow db_now gid (SessionLocal d)),
     done ++ replicate n (Returned true)).
Proof.
  induction n as [|n IH]; intros utcnow db_now gid d g done Hwf Hq Hlo Hhi;
    [reflexivity|].
  destruct (record_play_next utcnow db_now gid d g Hwf Hq)
    as (d' & g' & Hr & Hwf' & Hq' & Hpc); [lia|].
  pose proof (record_play_as_steps utcnow db_now gid None d) as Hsteps.
  rewrite Hr in Hsteps.
  cbn [seq flat_map replicate record_play_times app]. unfold run_schedule.
  cbn [fold_left]. rewrite Hr. cbn [fst].
  rewrite schedule_step_middle.
  destruct (caller_step utcnow db_now gid d Calling) as [d1 c1]. cbn [fst snd].
  rewrite schedule_step_middle.
  destruct (caller_step utcnow db_now gid d1 c1) as [d2 c2]. cbn [fst snd].
  injection Hsteps as Hd Hc. subst d2.
  assert (c2 = Returned true) as -> by (destruct c2 as [| |[]]; congruence).
  assert (Hlo' : -2147483648 <= play_count g') by lia.
  assert (Hhi' : play_count g' + Z.of_nat n <= 2147483647) by lia.
  specialize (IH utcnow db_now gid d' g' (done ++ [Returned true]) Hwf' Hq'
                Hlo' Hhi').
  rewrite length_app, Nat.add_1_r in IH. rewrite <- !app_assoc in IH.
  exact IH.
Qed.

(** C10 (as the code has it). [record_play] reads the row, adds one in
    Python and writes the result back at [commit]; it takes no row lock
    and leaves the addition to no UPDATE. Calls that do not overlap
    (each commits before the next one reads) count every play, as long
    as the count fits the [Integer] column: after [n] of them the
    stored [play_count] is the initial one plus [n], and every caller
    is told true. *)
Theorem record_play_one_at_a_time (n : nat) (utcnow db_now : datetime)
    (gid : string) (d : Database) (g : MusicGeneration) :
  db_wf d ->
  In g (music_generations d) -> generation_id g = gid ->
  -2147483648 <= play_count g ->
  play_count g + Z.of_nat n <= 2147483647 ->
  let final := run_schedule utcnow db_now gid (one_at_a_time n)
                 (d, replicate n Calling) in
  final.1 = bind_db (record_play_times n utcnow db_now gid (SessionLocal d))
  /\ final.2 = replicate n (Returned true)
  /\ play_count_of gid final.1 = Some (play_count g + Z.of_nat n).
Proof.
  intros Hwf Hin Hgid Hlo Hhi final.
  pose proof (query_first_present gid d g Hwf Hin Hgid) as Hq.
  pose proof (run_one_at_a_time n utcnow db_now gid d g [] Hwf Hq Hlo Hhi) as Hrun.
  simpl in Hrun. unfold final, one_at_a_time. rewrite Hrun. cbn [fst snd].
  split; [reflexivity|]. split; [reflexivity|].
  by apply record_play_times_count.
Qed.

Lemma record_play_one_at_a_time_witness :
  play_count_of "gen-a"
    (run_schedule now_example now_example "gen-a" (one_at_a_time 50)
       (db_example, replicate 50 Calling)).1
  = Some 50.
Proof.
  destruct (record_play_one_at_a_time 50 now_example now_example "gen-a"
              db_example gen_a db_example_wf) as (_ & _ & H);
    [left; reflexivity | reflexivity | simpl; lia | simpl; lia |].
  exact H.
Defined.

(** C10, the claim as it is worded, fails: when fifty callers have all
    read the row before the first of them commits, every one of them
    writes the count it read plus one; all fifty are told true and the
    stored count has gone from 0 to 1. *)
Lemma record_play_lost_updates :
  let final := run_schedule now_example now_example "gen-a" (all_read_first 50)
                 (db_example, replicate 50 Calling) in
  play_count_of "gen-a" db_example = Some 0
  /\ final.2 = replicate 50 (Returned true)
  /\ play_count_of "gen-a" final.1 = Some 1
  /\ play_count_of "gen-a" final.1 <> Some (0 + 50).
Proof.
  cbv zeta. split; [reflexivity|].
  split; [vm_compute; reflexivity|].
  split; [vm_compute; reflexivity|].
  vm_compute. discriminate.
Qed.

(** * Further properties of the code *)

(** ** The download counter *)

Lemma update_in_range_download (g : MusicGeneration) :
  update_in_range g (increment_download_count g) = int4 (download_count g + 1).
Proof.
  unfold update_in_range, increment_download_count. cbn.
  repeat case_bool_decide; try congruence; try lia.
  cbn. by rewrite !andb_true_r.
Qed.

Lemma record_download_found (db_now : datetime) (gid : string) (d : Database)
    (g : MusicGeneration) :
  db_wf d ->
  query_first (by_generation_id gid) (SessionLocal d) = Some g ->
  int4 (download_count g + 1) = true ->
  record_download db_now gid (SessionLocal d) =
  (SessionLocal (mkDatabase
     (update_rows db_now gid increment_download_count (music_generations d))
     (system_metrics d) (id_seq d)), true).
Proof.
  intros Hwf Hq Hrange. unfold record_download. rewrite Hq.
  unfold mbind, result_bind.
  rewrite (commit_modified d gid g Hwf Hq db_now increment_download_count);
    [reflexivity | reflexivity | by rewrite update_in_range_download].
Qed.

Lemma record_download_refused (db_now : datetime) (gid : string) (d : Database)
    (g : MusicGeneration) :
  db_wf d ->
  query_first (by_generation_id gid) (SessionLocal d) = Some g ->
  int4 (download_count g + 1) = false ->
  record_download db_now gid (SessionLocal d) = (SessionLocal d, false).
Proof.
  intros Hwf Hq Hrange. unfold record_download. rewrite Hq.
  unfold mbind, result_bind.
  rewrite (commit_refused d gid g Hwf Hq db_now (increment_download_count g));
    [reflexivity | reflexivity | by rewrite update_in_range_download].
Qed.

Lemma update_rows_lookup (db_now : datetime) (gid : string)
    (f : MusicGeneration -> MusicGeneration) (d : Database) (g : MusicGeneration) :
  (forall r, generation_id (f r) = generation_id r) ->
  query_first (by_generation_id gid) (SessionLocal d) = Some g ->
  query_first (by_generation_id gid)
    (SessionLocal (mkDatabase (update_rows db_now gid f (music_generations d))
                     (system_metrics d) (id_seq d)))
  = Some (set_updated_at (Some db_now) (f g)).
Proof.
  intros Hf Hq. unfold query_first in *. simpl in *.
  rewrite update_rows_find by exact Hf. by rewrite Hq.
Qed.

(** X1. [record_download] on an identifier that no record has returns
    false and changes nothing. On the identifier of a record whose
    [download_count] is below 2147483647, the largest value of the
    [Integer] column, it returns true and adds one to that record's
    [download_count]; the record's [play_count], [last_played] and
    [is_favorited] stay as they were, and no other row changes. At
    2147483647 the UPDATE is refused: the call returns false and
    changes nothing. *)
Theorem record_download_effect (db_now : datetime) (gid : string) (d : Database) :
  db_wf d ->
  (~ In gid (map generation_id (music_generations d)) ->
   record_download db_now gid (SessionLocal d) = (SessionLocal d, false))
  /\ (forall g, In g (music_generations d) -> generation_id g = gid ->
      download_count g = 2147483647 ->
      record_download db_now gid (SessionLocal d) = (SessionLocal d, false))
  /\ (forall g, In g (music_generations d) -> generation_id g = gid ->
      -2147483648 <= download_count g < 2147483647 ->
      exists d' g',
        record_download db_now gid (SessionLocal d) = (SessionLocal d', true)
        /\ query_first (by_generation_id gid) (SessionLocal d') = Some g'
        /\ download_count g' = download_count g + 1
        /\ play_count g' = play_count g
        /\ last_played g' = last_played g
        /\ is_favorited g' = is_favorited g
        /\ (forall r, In r (music_generations d) -> generation_id r <> gid ->
            In r (music_generations d'))
        /\ length (music_generations d') = length (music_generations d)).
Proof.
  intros Hwf. split; [|split].
  - intros Habs. unfold record_download.
    by rewrite (query_first_absent gid d Habs).
  - intros g Hin Hgid Hmax.
    pose proof (query_first_present gid d g Hwf Hin Hgid) as Hq.
    apply (record_download_refused db_now gid d g Hwf Hq).
    apply not_true_is_false. rewrite int4_spec. lia.
  - intros g Hin Hgid Hrange.
    pose proof (query_first_present gid d g Hwf Hin Hgid) as Hq.
    eexists. eexists.
    split; [apply (record_download_found db_now gid d g Hwf Hq);
            apply int4_spec; lia|].
    split; [apply update_rows_lookup; [reflexivity | exact Hq]|].
    repeat (split; [reflexivity|]). split.
    + intros r Hr Hne. simpl. unfold update_rows. apply in_map_iff.
      exists r. split; [|exact Hr]. unfold by_generation_id.
      by rewrite bool_decide_eq_false_2.
    + simpl. unfold update_rows. apply length_map.
Qed.

Lemma record_download_effect_witness :
  exists d',
    record_download now_example "gen-b" (SessionLocal db_example)
    = (SessionLocal d', true)
    /\ download_count_of "gen-b" d' = Some 1.
Proof.
  destruct (record_download_effect now_example "gen-b" db_example db_example_wf)
    as (_ & _ & Hpres).
  destruct (Hpres gen_b) as (d' & g' & Hr & Hq & Hdl & _);
    [right; left; reflexivity | reflexivity | simpl; lia |].
  exists d'. split; [exact Hr|].
  unfold download_count_of. rewrite Hq. simpl. by rewrite Hdl.
Defined.

Lemma update_rows_twice (t : datetime) (gid : string)
    (f h : MusicGeneration -> MusicGeneration) (rows : list MusicGeneration) :
  (forall r, generation_id (f r) = generation_id r) ->
  update_rows t gid h (update_rows t gid f rows)
  = update_rows t gid (fun r => h (set_updated_at (Some t) (f r))) rows.
Proof.
  intros Hf. unfold update_rows. rewrite map_map. apply map_ext. intros r.
  destruct (by_generation_id gid r) eqn:Hr; [|by rewrite Hr].
  unfold by_generation_id in *. cbn [generation_id set_updated_at].
  by rewrite Hf, Hr.
Qed.

(** X2. A play and a download of the same record are counted
    independently: made at the same database time, in either order,
    they leave the same database. *)
Theorem play_and_download_commute (utcnow db_now : datetime) (gid : string)
    (d : Database) (g : MusicGeneration) :
  db_wf d ->
  In g (music_generations d) -> generation_id g = gid ->
  (record_download db_now gid
     (record_play utcnow db_now gid None (SessionLocal d)).1).1
  = (record_play utcnow db_now gid None
       (record_download db_now gid (SessionLocal d)).1).1.
Proof.
  intros Hwf Hin Hgid.
  pose proof (query_first_present gid d g Hwf Hin Hgid) as Hq.
  set (played := mkDatabase
         (update_rows db_now gid (increment_play_count utcnow) (music_generations d))
         (system_metrics d) (id_seq d)).
  set (downloaded := mkDatabase
         (update_rows db_now gid increment_download_count (music_generations d))
         (system_metrics d) (id_seq d)).
  assert (Hwfp : db_wf played) by (by apply update_rows_wf).
  assert (Hwfd : db_wf downloaded) by (by apply update_rows_wf).
  assert (Hqp : query_first (by_generation_id gid) (SessionLocal played)
                = Some (set_updated_at (Some db_now) (increment_play_count utcnow g)))
    by (apply update_rows_lookup; [reflexivity | exact Hq]).
  assert (Hqd : query_first (by_generation_id gid) (SessionLocal downloaded)
                = Some (set_updated_at (Some db_now) (increment_download_count g)))
    by (apply update_rows_lookup; [reflexivity | exact Hq]).
  destruct (int4 (play_count g + 1)) eqn:Hp,
           (int4 (download_count g + 1)) eqn:Hd.
  - rewrite (record_play_found utcnow db_now gid None d g Hwf Hq Hp).
    rewrite (record_download_found db_now gid d g Hwf Hq Hd). cbn [fst].
    fold played. fold downloaded.
    rewrite (record_download_found db_now gid played _ Hwfp Hqp Hd).
    rewrite (record_play_found utcnow db_now gid None downloaded _ Hwfd Hqd Hp).
    cbn [fst]. unfold played, downloaded.
    cbn [music_generations system_metrics id_seq]. do 2 f_equal.
    rewrite !update_rows_twice by reflexivity. reflexivity.
  - rewrite (record_play_found utcnow db_now gid None d g Hwf Hq Hp).
    rewrite (record_download_refused db_now gid d g Hwf Hq Hd). cbn [fst].
    fold played.
    rewrite (record_download_refused db_now gid played _ Hwfp Hqp Hd).
    by rewrite (record_play_found utcnow db_now gid None d g Hwf Hq Hp).
  - rewrite (record_play_refused utcnow db_now gid None d g Hwf Hq Hp).
    cbn [fst].
    rewrite (record_download_found db_now gid d g Hwf Hq Hd). cbn [fst].
    fold downloaded.
    by rewrite (record_play_refused utcnow db_now gid None downloaded _ Hwfd Hqd Hp).
  - rewrite (record_play_refused utcnow db_now gid None d g Hwf Hq Hp).
    cbn [fst].
    rewrite (record_download_refused db_now gid d g Hwf Hq Hd). cbn [fst].
    by rewrite (record_play_refused utcnow db_now gid None d g Hwf Hq Hp).
Qed.

Lemma play_and_download_commute_witness :
  (record_download now_example "gen-a"
     (record_play now_example now_example "gen-a" None (SessionLocal db_example)).1).1
  = (record_play now_example now_example "gen-a" None
       (record_download now_example "gen-a" (SessionLocal db_example)).1).1.
Proof.
  apply (play_and_download_commute now_example now_example "gen-a" db_example gen_a
           db_example_wf); [left; reflexivity | reflexivity].
Defined.

(** ** Validated input *)

Section Validated.
Variable float_of_str : string -> option float.
Variable str_of_float : float -> string.


Lemma coerced_of_instance (t : PyType) (v : PyVal) :
  isinstance v t = true -> coerced float_of_str str_of_float t v v.
Proof.
  destruct t, v; simpl; try discriminate; intros _; split; try reflexivity.
  eexists. split; reflexivity.
Qed.

Lemma coerced_of_coerce (t : PyType) (v v' : PyVal) :
  coerce float_of_str str_of_float t v = Ok v' -> coerced float_of_str str_of_float t v v'.
Proof.
  destruct t; simpl.
  - intros [= <-]. split; reflexivity.
  - destruct (py_float float_of_str v) as [q|e] eqn:Hq; simpl; [|discriminate].
    intros [= <-]. split; [reflexivity|]. exists q. split; [exact Hq|reflexivity].
Qed.

Lemma check_required_ok (data data' : gmap string PyVal) (k : string) (t : PyType) :
  check_required float_of_str str_of_float data (k, t) = Ok data' ->
  exists v v', data !! k = Some v /\ data' !! k = Some v' /\ coerced float_of_str str_of_float t v v'.
Proof.
  unfold check_required.
  destruct (data !! k) as [v|] eqn:Hk; [|discriminate].
  destruct (isinstance v t) eqn:Hi.
  - intros [= <-]. exists v, v. auto using coerced_of_instance.
  - destruct (coerce float_of_str str_of_float t v) as [v'|e] eqn:Hc; [|destruct e; discriminate].
    intros [= <-]. exists v, v'. rewrite lookup_insert_eq.
    auto using coerced_of_coerce.
Qed.

Lemma check_all_ok (fields : list (string * PyType)) :
  forall data data' : gmap string PyVal,
  NoDup (map fst fields) ->
  check_all float_of_str str_of_float fields data = Ok data' ->
  (forall k, ~ In k (map fst fields) -> data' !! k = data !! k)
  /\ (forall k t, In (k, t) fields ->
      exists v v', data !! k = Some v /\ data' !! k = Some v' /\ coerced float_of_str str_of_float t v v').
Proof.
  induction fields as [|[k0 t0] fields IH]; intros data data' Hnd Hok.
  - simpl in Hok. injection Hok as <-. split; [reflexivity|]. intros k t [].
  - simpl in Hnd. apply NoDup_cons in Hnd as [Hfresh Hnd].
    cbn [check_all] in Hok. unfold mbind, result_bind, rbind in Hok.
    destruct (check_required float_of_str str_of_float data (k0, t0))
      as [data1|e] eqn:H1; [|discriminate].
    destruct (IH data1 data' Hnd Hok) as [Hout Hin]. split.
    + intros k Hk. simpl in Hk. rewrite Hout by tauto.
      apply (check_required_keeps float_of_str str_of_float data data1 (k0, t0) k H1).
      simpl. intros ->. apply Hk. by left.
    + intros k t Hkt. destruct Hkt as [Heq|Hkt]; [injection Heq as <- <-|].
      * destruct (check_required_ok data data1 k0 t0 H1) as (v & v' & Hv & Hv' & Hc).
        exists v, v'. split; [exact Hv|]. split; [|exact Hc].
        rewrite Hout; [exact Hv'|].
        intros Hk0. apply Hfresh. by apply list_elem_of_In.
      * destruct (Hin k t Hkt) as (v & v' & Hv & Hv' & Hc).
        exists v, v'. split; [|auto].
        rewrite <- (check_required_keeps float_of_str str_of_float data data1 (k0, t0) k H1); [exact Hv|].
        simpl. intros ->. apply Hfresh.
        apply list_elem_of_In. apply (in_map fst _ _ Hkt).
Qed.

Lemma apply_default_other (data : gmap string PyVal) (f : string * PyVal)
    (k : string) :
  k <> f.1 -> apply_default data f !! k = data !! k.
Proof.
  destruct f as [k0 dv]. simpl. intros Hk.
  destruct (data !! k0) as [[]|]; try reflexivity; by rewrite lookup_insert_ne.
Qed.

Lemma apply_default_same (data : gmap string PyVal) (k : string) (dv : PyVal) :
  dv <> PNone ->
  exists v, apply_default data (k, dv) !! k = Some v /\ v <> PNone
            /\ (match data !! k with
                | None | Some PNone => v = dv
                | Some x => v = x
                end).
Proof.
  intros Hdv. simpl.
  destruct (data !! k) as [[]|] eqn:Hk;
    try (rewrite lookup_insert_eq; exists dv; auto);
    rewrite Hk; eexists; (split; [reflexivity|]); split; (discriminate || reflexivity).
Qed.

Lemma fold_defaults (l : list (string * PyVal)) :
  forall data : gmap string PyVal,
  NoDup (map fst l) ->
  (forall k dv, In (k, dv) l -> dv <> PNone) ->
  (forall k, ~ In k (map fst l) ->
     fold_left apply_default l data !! k = data !! k)
  /\ (forall k dv, In (k, dv) l ->
      exists v, fold_left apply_default l data !! k = Some v /\ v <> PNone
                /\ (match data !! k with
                    | None | Some PNone => v = dv
                    | Some x => v = x
                    end)).
Proof.
  induction l as [|[k0 dv0] l IH]; intros data Hnd Hdv.
  - split; [reflexivity|]. intros k dv [].
  - simpl in Hnd. apply NoDup_cons in Hnd as [Hfresh Hnd].
    destruct (IH (apply_default data (k0, dv0)) Hnd) as [Hout Hin].
    { intros k dv Hk. apply (Hdv k dv). by right. }
    split.
    + intros k Hk. simpl in Hk. cbn [fold_left]. rewrite Hout by tauto.
      apply apply_default_other. simpl. intros ->. apply Hk. by left.
    + intros k dv Hk. destruct Hk as [Heq|Hk]; [injection Heq as <- <-|];
        cbn [fold_left].
      * rewrite Hout by (intros Hk; apply Hfresh; by apply list_elem_of_In).
        apply apply_default_same. apply (Hdv k0 dv0). by left.
      * destruct (Hin k dv Hk) as (v & Hv & Hne & Hm). exists v.
        split; [exact Hv|]. split; [exact Hne|].
        rewrite apply_default_other in Hm; [exact Hm|].
        simpl. intros ->. apply Hfresh.
        apply list_elem_of_In. apply (in_map fst _ _ Hk).
Qed.

Lemma required_fields_nodup : NoDup (map fst required_fields).
Proof. apply (bool_decide_unpack _). vm_compute. exact I. Qed.

Lemma defaults_nodup : NoDup (map fst defaults).
Proof. apply (bool_decide_unpack _). vm_compute. exact I. Qed.

Lemma defaults_not_none (k : string) (dv : PyVal) : In (k, dv) defaults -> dv <> PNone.
Proof.
  unfold defaults. simpl. intros H.
  repeat destruct H as [[= <- <-]|H]; try discriminate. destruct H.
Qed.

(** The two stages of validation. The dict the defaults were applied to
    is kept abstract while the stages are told apart. *)
Lemma validate_inv (data clean : gmap string PyVal) :
  validate_generation_data float_of_str str_of_float data = Ok clean ->
  exists d1,
    check_all float_of_str str_of_float required_fields data = Ok d1
    /\ range_checks (fold_left apply_default defaults d1) = Ok clean.
Proof.
  unfold validate_generation_data. intros H.
  destruct (check_all float_of_str str_of_float required_fields data)
    as [d1|e]; [|rewrite mbind_Raise in H; discriminate H].
  rewrite mbind_Ok in H. cbv beta in H.
  exists d1. split; [reflexivity|].
  revert H. generalize (fold_left apply_default defaults d1).
  intros d2 H. match goal with |- ?G => exact (H : G) end.
Qed.

Lemma validate_of_stages (data d1 clean : gmap string PyVal) :
  check_all float_of_str str_of_float required_fields data = Ok d1 ->
  range_checks (fold_left apply_default defaults d1) = Ok clean ->
  validate_generation_data float_of_str str_of_float data = Ok clean.
Proof.
  intros H1 H2. unfold validate_generation_data. rewrite H1, mbind_Ok. cbv beta.
  revert H2. generalize (fold_left apply_default defaults d1).
  intros d2 H2. match goal with |- ?G => exact (H2 : G) end.
Qed.

Lemma validate_tail (d2 clean : gmap string PyVal) :
  range_checks d2 = Ok clean ->
  exists v1 v2 v3 b,
    d2 !! "generation_time" = Some v1 /\ le_zero v1 = Ok false
    /\ d2 !! "file_size_mb" = Some v2 /\ le_zero v2 = Ok false
    /\ d2 !! "realtime_factor" = Some v3 /\ le_zero v3 = Ok b
    /\ clean = if b then <["realtime_factor" := PFloat (float_of_Z 1)]> d2 else d2.
Proof.
  unfold range_checks, mbind, result_bind, rbind, getitem. intros H.
  destruct (d2 !! "generation_time") as [v1|] eqn:Hg; [|discriminate H].
  destruct (le_zero v1) as [[]|] eqn:H1; try discriminate H.
  destruct (d2 !! "file_size_mb") as [v2|] eqn:Hf; [|discriminate H].
  destruct (le_zero v2) as [[]|] eqn:H2; try discriminate H.
  destruct (d2 !! "realtime_factor") as [v3|] eqn:Hr; [|discriminate H].
  destruct (le_zero v3) as [b|] eqn:H3; [|discriminate H].
  injection H as <-. exists v1, v2, v3, b.
  repeat (split; [first [reflexivity | assumption]|]). reflexivity.
Qed.

Lemma le_zero_float (q : float) : le_zero (PFloat q) = Ok false -> fle q fzero = false.
Proof. unfold le_zero. intros H. by injection H as H. Qed.

Lemma required_not_default (k : string) (t : PyType) :
  In (k, t) required_fields ->
  ~ In k (map fst defaults) /\ k <> "realtime_factor".
Proof.
  unfold required_fields, defaults. cbn [In map fst].
  intros H.
  repeat (destruct H as [H|H];
          [injection H as <- <-; split; [|discriminate]; intros Hd;
           repeat (destruct Hd as [Hd|Hd]; [discriminate Hd|]); exact Hd|]).
  destruct H.
Qed.

(** The validated dict, from the dict given. *)
Lemma validate_ok (data clean : gmap string PyVal) :
  validate_generation_data float_of_str str_of_float data = Ok clean ->
  (forall k t, In (k, t) required_fields ->
     exists v v', data !! k = Some v /\ clean !! k = Some v'
                  /\ coerced float_of_str str_of_float t v v')
  /\ (forall k dv, In (k, dv) defaults ->
      exists v, clean !! k = Some v /\ v <> PNone)
  /\ (exists q, clean !! "generation_time" = Some (PFloat q) /\ fle q fzero = false)
  /\ (exists q, clean !! "file_size_mb" = Some (PFloat q) /\ fle q fzero = false)
  /\ (exists v, clean !! "realtime_factor" = Some v /\ le_zero v = Ok false)
  /\ (forall k, k <> "realtime_factor" -> ~ In k (map fst defaults) ->
      ~ In k (map fst required_fields) -> clean !! k = data !! k).
Proof.
  intros Hok. apply validate_inv in Hok as (d1 & H1 & Hok).
  destruct (check_all_ok required_fields data d1 required_fields_nodup H1)
    as [Hout1 Hin1].
  destruct (fold_defaults defaults d1 defaults_nodup defaults_not_none)
    as [Hout2 Hin2].
  revert Hok Hout2 Hin2. generalize (fold_left apply_default defaults d1).
  intros d2 Hok Hout2 Hin2.
  apply validate_tail in Hok
    as (v1 & v2 & v3 & b & Hg & Hle1 & Hf & Hle2 & Hr & Hle3 & ->).
  assert (Hreq2 : forall k t, In (k, t) required_fields ->
            exists v v', data !! k = Some v /\ d2 !! k = Some v'
                         /\ coerced float_of_str str_of_float t v v').
  { intros k t Hk. destruct (Hin1 k t Hk) as (v & v' & Hv & Hv' & Hc).
    exists v, v'. split; [exact Hv|]. split; [|exact Hc].
    rewrite Hout2; [exact Hv'|]. apply (required_not_default k t Hk). }
  assert (Hkeep : forall k, k <> "realtime_factor" ->
            (if b then <["realtime_factor" := PFloat (float_of_Z 1)]> d2 else d2) !! k
            = d2 !! k).
  { intros k Hk. destruct b; [by rewrite lookup_insert_ne | reflexivity]. }
  destruct (Hreq2 "generation_time" TFloat) as (w1 & w1' & _ & Hg' & [_ (q1 & _ & ->)]);
    [cbn [required_fields In]; tauto|].
  destruct (Hreq2 "file_size_mb" TFloat) as (w2 & w2' & _ & Hf' & [_ (q2 & _ & ->)]);
    [cbn [required_fields In]; tauto|].
  rewrite Hg in Hg'. injection Hg' as ->.
  rewrite Hf in Hf'. injection Hf' as ->.
  split; [|split; [|split; [|split; [|split]]]].
  - intros k t Hk. destruct (Hreq2 k t Hk) as (v & v' & Hv & Hv' & Hc).
    exists v, v'. split; [exact Hv|]. split; [|exact Hc].
    rewrite Hkeep; [exact Hv'|]. apply (required_not_default k t Hk).
  - intros k dv Hk. destruct (decide (k = "realtime_factor")) as [->|Hne].
    + destruct b.
      * rewrite lookup_insert_eq. eexists. split; [reflexivity|discriminate].
      * destruct (Hin2 _ _ Hk) as (v & Hv & Hvn & _). exists v. auto.
    + rewrite Hkeep by exact Hne.
      destruct (Hin2 k dv Hk) as (v & Hv & Hvn & _). exists v. auto.
  - exists q1. rewrite Hkeep by discriminate. split; [exact Hg|].
    by apply le_zero_float.
  - exists q2. rewrite Hkeep by discriminate. split; [exact Hf|].
    by apply le_zero_float.
  - destruct b.
    + rewrite lookup_insert_eq. eexists. split; [reflexivity|].
      vm_compute. reflexivity.
    + exists v3. auto.
  - intros k Hk Hd Hq. rewrite Hkeep by exact Hk.
    rewrite Hout2 by exact Hd. apply Hout1. exact Hq.
Qed.
End Validated.

(** ** Creating a record: the accepted input *)

Ltac destruct_binds :=
  repeat match goal with
  | |- context [match ?m with Ok _ => _ | Raise _ => _ end] =>
      lazymatch m with
      | context [match _ with Ok _ => _ | Raise _ => _ end] => fail
      | _ => destruct m; cbv beta iota
      end
  end.

Ltac invert_bind H :=
  match type of H with
  | context [match ?m with Ok _ => _ | Raise _ => _ end] =>
      lazymatch m with
      | context [match _ with Ok _ => _ | Raise _ => _ end] => fail
      | _ => let E := fresh "E" in
             destruct m eqn:E; cbv beta iota in H; [|discriminate H]
      end
  end.

Section Created.
Variable float_of_str : string -> option float.
Variable str_of_float : float -> string.

Lemma create_stages (db_now : datetime) (fs : gmap string file)
    (data : gmap string PyVal) (fp : option string) (session : Session) :
  create_generation_record float_of_str str_of_float db_now fs data fp session =
  match
    (clean ← validate_generation_data float_of_str str_of_float data;
     clean ← artifact_data fs fp clean;
     generation ← new_generation clean;
     session ← commit db_now (session_add generation session);
     generation ← refresh generation session;
     Ok (session, Some generation))
  with
  | Ok r => r
  | Raise IntegrityError => (rollback (sequence_drawn session), None)
  | Raise _ => (rollback session, None)
  end.
Proof.
  unfold create_generation_record, new_generation, artifact_data.
  unfold mbind, result_bind, rbind.
  destruct (validate_generation_data float_of_str str_of_float data) as [clean|e];
    [|reflexivity].
  destruct (truthy_path fp) as [p|]; [destruct (path_exists fs p)|];
    destruct_binds; reflexivity.
Qed.

Lemma check_all_not_integrity (fields : list (string * PyType)) :
  forall data : gmap string PyVal,
  check_all float_of_str str_of_float fields data <> Raise IntegrityError.
Proof.
  induction fields as [|f fields IH]; intros data; [discriminate|].
  cbn [check_all].
  destruct (check_required float_of_str str_of_float data f) as [data'|e] eqn:Hc.
  - rewrite mbind_Ok. apply IH.
  - rewrite mbind_Raise. intros [= ->].
    by apply (check_required_not_integrity float_of_str str_of_float data f).
Qed.

Lemma range_checks_not_integrity (data : gmap string PyVal) :
  range_checks data <> Raise IntegrityError.
Proof.
  unfold range_checks, getitem, mbind, result_bind, rbind.
  destruct (data !! "generation_time") as [v1|]; [|discriminate].
  destruct (le_zero v1) as [[]|e1] eqn:H1; try discriminate.
  2:{ destruct v1; simpl in H1; try discriminate; injection H1 as <-; discriminate. }
  destruct (data !! "file_size_mb") as [v2|]; [|discriminate].
  destruct (le_zero v2) as [[]|e2] eqn:H2; try discriminate.
  2:{ destruct v2; simpl in H2; try discriminate; injection H2 as <-; discriminate. }
  destruct (data !! "realtime_factor") as [v3|]; [|discriminate].
  destruct (le_zero v3) as [b|e3] eqn:H3; try discriminate.
  destruct v3; simpl in H3; try discriminate; injection H3 as <-; discriminate.
Qed.

Lemma validate_not_integrity (data : gmap string PyVal) :
  validate_generation_data float_of_str str_of_float data <> Raise IntegrityError.
Proof.
  unfold validate_generation_data. intros H.
  destruct (check_all float_of_str str_of_float required_fields data)
    as [d1|e] eqn:Hc.
  - rewrite mbind_Ok in H. cbv beta in H.
    revert H. generalize (fold_left apply_default defaults d1). intros d2 H.
    apply (range_checks_not_integrity d2).
    match goal with |- ?G => exact (H : G) end.
  - rewrite mbind_Raise in H. injection H as ->.
    by apply (check_all_not_integrity required_fields data).
Qed.
End Created.

Lemma find_app_last {A} (p : A -> bool) (l : list A) (x : A) :
  (forall y, In y l -> p y = false) -> p x = true ->
  List.find p (l ++ [x]) = Some x.
Proof.
  induction l as [|y l IH]; simpl; intros Hl Hx.
  - by rewrite Hx.
  - rewrite (Hl y) by auto. apply IH; auto.
Qed.

Lemma existsb_generation_id (gid : string) (rows : list MusicGeneration) :
  existsb (fun r => bool_decide (generation_id r = gid)) rows = false <->
  ~ In gid (map generation_id rows).
Proof.
  induction rows as [|r rows IH]; simpl; [tauto|].
  rewrite orb_false_iff, IH, bool_decide_eq_false. tauto.
Qed.

Lemma commit_add (db_now : datetime) (gen : MusicGeneration) (d : Database) :
  created_at gen = None ->
  commit db_now (session_add gen (SessionLocal d)) =
  if negb (insert_in_range gen) then Raise DataError
  else if existsb (fun r => bool_decide (generation_id r = generation_id gen))
            (music_generations d)
  then Raise IntegrityError
  else Ok (SessionLocal
             (mkDatabase
                (music_generations d
                 ++ [set_created_at (Some db_now) (set_row_id (Some (id_seq d)) gen)])
                (system_metrics d) (id_seq d + 1))).
Proof.
  intros Hc. unfold commit, session_add, SessionLocal.
  cbn [bind_db new dirty deleted music_generations system_metrics id_seq app].
  rewrite flush_update_check_nil, flush_update_nil. cbn [negb flush_insert].
  destruct (insert_in_range gen); cbn [negb]; [|reflexivity].
  destruct (existsb _ (music_generations d)); [reflexivity|].
  rewrite Hc. rewrite mbind_Ok. by rewrite flush_delete_nil.
Qed.

Lemma new_generation_ok (clean : gmap string PyVal) (gen : MusicGeneration) :
  new_generation clean = Ok gen ->
  created_at gen = None
  /\ exists v, getitem clean "generation_id" = Ok v
               /\ col_str v = Ok (generation_id gen).
Proof.
  unfold new_generation, mbind, result_bind, rbind. intros H.
  repeat invert_bind H. injection H as <-. simpl.
  split; [reflexivity|]. eexists. split; [reflexivity | assumption].
Qed.

Lemma artifact_data_keeps (fs : gmap string file) (fp : option string)
    (clean clean' : gmap string PyVal) (k : string) :
  artifact_data fs fp clean = Ok clean' ->
  k <> "audio_url" -> k <> "file_path" -> k <> "file_size_mb" ->
  clean' !! k = clean !! k.
Proof.
  unfold artifact_data, mbind, result_bind, rbind. intros H H1 H2 H3.
  destruct (truthy_path fp) as [p|]; [|by injection H as <-].
  destruct (path_exists fs p); [|by injection H as <-].
  repeat invert_bind H. injection H as <-.
  by rewrite !lookup_insert_ne.
Qed.

Lemma db_example_consistent : db_consistent db_example.
Proof.
  split; [exact db_example_wf|].
  unfold db_example. simpl.
  repeat constructor; eexists; (split; [reflexivity | lia]).
Defined.

Section Creation.
Variable float_of_str : string -> option float.
Variable str_of_float : float -> string.

Lemma check_all_id (fields : list (string * PyType)) (data : gmap string PyVal) :
  (forall k t, In (k, t) fields ->
     exists v, data !! k = Some v /\ isinstance v t = true) ->
  check_all float_of_str str_of_float fields data = Ok data.
Proof.
  induction fields as [|[k t] fields IH]; intros H; [reflexivity|].
  cbn [check_all]. unfold check_required.
  destruct (H k t) as (v & Hv & Hi); [by left|]. rewrite Hv, Hi.
  unfold mbind, result_bind, rbind. apply IH. intros k' t' Hk. apply H. by right.
Qed.

Lemma fold_defaults_id (l : list (string * PyVal)) (data : gmap string PyVal) :
  (forall k dv, In (k, dv) l -> exists v, data !! k = Some v /\ v <> PNone) ->
  fold_left apply_default l data = data.
Proof.
  induction l as [|[k dv] l IH]; intros H; [reflexivity|].
  cbn [fold_left].
  assert (Hk : apply_default data (k, dv) = data).
  { destruct (H k dv) as (v & Hv & Hne); [by left|]. simpl. rewrite Hv.
    destruct v; try reflexivity. congruence. }
  rewrite Hk. apply IH. intros k' dv' Hin. apply (H k' dv'). by right.
Qed.

(** X3. What validation returns holds every required field with a
    value of its type (a string as it was, anything else as [str]
    prints it; a float as it was, anything else as [float] reads it),
    a [generation_time] and a [file_size_mb] that are floats for which
    [<= 0] is false (a positive number, or NaN), a [realtime_factor]
    for which [<= 0] is false, and a value other than [None] for every
    optional field that has a default; every other key is as the
    caller gave it. *)
Theorem validate_generation_data_result (data clean : gmap string PyVal) :
  validate_generation_data float_of_str str_of_float data = Ok clean ->
  (forall k t, In (k, t) required_fields ->
     exists v v', data !! k = Some v /\ clean !! k = Some v'
                  /\ coerced float_of_str str_of_float t v v')
  /\ (forall k dv, In (k, dv) defaults ->
      exists v, clean !! k = Some v /\ v <> PNone)
  /\ (exists q, clean !! "generation_time" = Some (PFloat q) /\ fle q fzero = false)
  /\ (exists q, clean !! "file_size_mb" = Some (PFloat q) /\ fle q fzero = false)
  /\ (exists v, clean !! "realtime_factor" = Some v /\ le_zero v = Ok false)
  /\ (forall k, k <> "realtime_factor" -> ~ In k (map fst defaults) ->
      ~ In k (map fst required_fields) -> clean !! k = data !! k).
Proof.
  intros Hok.
  destruct (validate_ok float_of_str str_of_float data clean Hok)
    as (Hreq & Hdef & Hgt & Hfs & Hrf & Hrest).
  split; [exact Hreq|]. split; [exact Hdef|]. split; [exact Hgt|].
  split; [exact Hfs|]. split; [exact Hrf | exact Hrest].
Qed.

(** X4. Validation is idempotent: validated data validates, to
    itself. *)
Theorem validate_generation_data_idempotent (data clean : gmap string PyVal) :
  validate_generation_data float_of_str str_of_float data = Ok clean ->
  validate_generation_data float_of_str str_of_float clean = Ok clean.
Proof.
  intros Hok.
  destruct (validate_ok float_of_str str_of_float data clean Hok)
    as (Hreq & Hdef & (q1 & Hg & Hq1) & (q2 & Hf & Hq2) & (v3 & Hr & Hle) & _).
  apply (validate_of_stages float_of_str str_of_float clean clean clean).
  - apply check_all_id. intros k t Hk.
    destruct (Hreq k t Hk) as (v & v' & _ & Hv' & [Hi _]). eauto.
  - rewrite (fold_defaults_id defaults clean Hdef).
    unfold range_checks, getitem. rewrite Hg, Hf, Hr.
    unfold mbind, result_bind, rbind. cbn [le_zero]. rewrite Hle, Hq1, Hq2.
    reflexivity.
Qed.

Lemma create_some (db_now : datetime) (fs : gmap string file)
    (data : gmap string PyVal) (fp : option string) (d : Database)
    (s' : Session) (g : MusicGeneration) :
  create_generation_record float_of_str str_of_float db_now fs data fp
    (SessionLocal d) = (s', Some g) ->
  exists clean clean' gen,
    validate_generation_data float_of_str str_of_float data = Ok clean
    /\ artifact_data fs fp clean = Ok clean'
    /\ new_generation clean' = Ok gen
    /\ ~ In (generation_id gen) (map generation_id (music_generations d)).
Proof.
  rewrite create_stages. unfold mbind, result_bind, rbind. intros H.
  destruct (validate_generation_data float_of_str str_of_float data)
    as [clean|e] eqn:Hv; [|destruct e; discriminate H].
  destruct (artifact_data fs fp clean) as [clean'|e] eqn:Ha;
    [|destruct e; discriminate H].
  destruct (new_generation clean') as [gen|e] eqn:Hn; [|destruct e; discriminate H].
  destruct (new_generation_ok clean' gen Hn) as (Hc & _).
  rewrite (commit_add db_now gen d Hc) in H.
  destruct (insert_in_range gen); cbn [negb] in H; [|discriminate H].
  destruct (existsb _ (music_generations d)) eqn:Hex; [discriminate H|].
  apply existsb_generation_id in Hex.
  exists clean, clean', gen. auto.
Qed.

Lemma create_none (db_now : datetime) (fs : gmap string file)
    (data : gmap string PyVal) (fp : option string) (session s' : Session) :
  create_generation_record float_of_str str_of_float db_now fs data fp session
  = (s', None) ->
  s' = rollback session \/ s' = rollback (sequence_drawn session).
Proof.
  rewrite create_stages. unfold mbind, result_bind, rbind. intros H.
  repeat match type of H with
  | context [match ?m with Ok _ => _ | Raise _ => _ end] =>
      lazymatch m with
      | context [match _ with Ok _ => _ | Raise _ => _ end] => fail
      | _ => destruct m as [?|[]]; cbv beta iota in H
      end
  end; try discriminate H; injection H as <-; auto.
Qed.

Lemma create_generation_id (data clean clean' : gmap string PyVal)
    (fs : gmap string file) (fp : option string) (gen : MusicGeneration)
    (v : PyVal) :
  validate_generation_data float_of_str str_of_float data = Ok clean ->
  artifact_data fs fp clean = Ok clean' ->
  new_generation clean' = Ok gen ->
  data !! "generation_id" = Some v ->
  generation_id gen = py_str str_of_float v.
Proof.
  intros Hv Ha Hn Hd.
  destruct (validate_ok float_of_str str_of_float data clean Hv) as (Hreq & _).
  destruct (Hreq "generation_id" TStr) as (v0 & v' & Hv0 & Hv' & [_ ->]);
    [simpl; tauto|].
  rewrite Hd in Hv0. injection Hv0 as <-.
  destruct (new_generation_ok clean' gen Hn) as (_ & w & Hw & Hcol).
  unfold getitem in Hw.
  rewrite (artifact_data_keeps fs fp clean clean' "generation_id" Ha) in Hw
    by discriminate.
  rewrite Hv' in Hw. injection Hw as <-. simpl in Hcol. congruence.
Qed.
End Creation.

Lemma returned_Ok {A} (m : result A) : returned m = true -> exists a, m = Ok a.
Proof. destruct m as [a|e]; [by exists a | discriminate]. Qed.

Lemma validate_generation_data_result_witness :
  exists clean,
    validate_generation_data no_float_of_str a_str_of_float
      (<["realtime_factor" := PInt (-3)]> data_example) = Ok clean
    /\ (exists v, clean !! "realtime_factor" = Some v /\ le_zero v = Ok false)
    /\ (exists v, clean !! "play_count" = Some v /\ v <> PNone).
Proof.
  assert (Hv : exists clean,
             validate_generation_data no_float_of_str a_str_of_float
               (<["realtime_factor" := PInt (-3)]> data_example) = Ok clean)
    by (apply returned_Ok; vm_compute; reflexivity).
  destruct Hv as [clean Hv].
  exists clean. split; [exact Hv|].
  destruct (validate_generation_data_result _ _ _ _ Hv)
    as (_ & Hdef & _ & _ & Hrf & _).
  split; [exact Hrf|]. apply (Hdef "play_count" (PInt 0)). simpl. tauto.
Defined.

Lemma validate_generation_data_idempotent_witness :
  exists clean,
    validate_generation_data no_float_of_str a_str_of_float data_example = Ok clean
    /\ validate_generation_data no_float_of_str a_str_of_float clean = Ok clean.
Proof.
  assert (Hv : exists clean,
             validate_generation_data no_float_of_str a_str_of_float
               data_example = Ok clean)
    by (apply returned_Ok; vm_compute; reflexivity).
  destruct Hv as [clean Hv].
  exists clean. split; [exact Hv|].
  apply (validate_generation_data_idempotent _ _ _ _ Hv).
Defined.

(** X5. A [generation_time] or a [file_size_mb] that reads as a number
    not above zero is refused: [create_generation_record] returns
    [None] and leaves the rolled-back session. The input main.py builds
    for a failed generation, with 0.0 for both, is never stored. *)
Theorem create_generation_record_rejects_nonpositive
    (float_of_str : string -> option float) (str_of_float : float -> string)
    (db_now : datetime) (fs : gmap string file) (data : gmap string PyVal)
    (fp : option string) (session : Session) (k : string) (v : PyVal) (q : float) :
  k = "generation_time" \/ k = "file_size_mb" ->
  data !! k = Some v ->
  py_float float_of_str v = Ok q ->
  fle q fzero = true ->
  create_generation_record float_of_str str_of_float db_now fs data fp session
  = (rollback session, None).
Proof.
  intros Hk Hd Hq Hle. rewrite create_stages.
  destruct (validate_generation_data float_of_str str_of_float data)
    as [clean|e] eqn:Hv.
  2:{ rewrite mbind_Raise. destruct e; try reflexivity.
      by destruct (validate_not_integrity float_of_str str_of_float data). }
  exfalso.
  destruct (validate_ok float_of_str str_of_float data clean Hv)
    as (Hreq & _ & (q1 & Hg & Hq1) & (q2 & Hf & Hq2) & _).
  destruct (Hreq k TFloat) as (v0 & v' & Hv0 & Hv' & [_ (q' & Hq' & ->)]).
  { destruct Hk as [->| ->]; simpl; tauto. }
  rewrite Hd in Hv0. injection Hv0 as <-.
  rewrite Hq in Hq'. injection Hq' as <-.
  destruct Hk as [->| ->].
  - rewrite Hg in Hv'. injection Hv' as <-. congruence.
  - rewrite Hf in Hv'. injection Hv' as <-. congruence.
Qed.

Lemma create_generation_record_rejects_nonpositive_witness :
  create_generation_record no_float_of_str a_str_of_float now_example fs_example
    failed_data_example None (SessionLocal db_example)
  = (SessionLocal db_example, None).
Proof.
  apply (create_generation_record_rejects_nonpositive no_float_of_str
           a_str_of_float now_example fs_example failed_data_example None
           (SessionLocal db_example) "generation_time" (PFloat fzero) fzero).
  - by left.
  - reflexivity.
  - reflexivity.
  - vm_compute. reflexivity.
Defined.

(** X8. A [generation_id] that a stored record already has is never
    stored again: [create_generation_record] returns [None], the rows
    of the table and the metrics are as they were, nothing is left
    pending, and the sequence of [id] has advanced by at most the one
    value the refused INSERT has drawn. *)
Theorem create_generation_record_duplicate
    (float_of_str : string -> option float) (str_of_float : float -> string)
    (db_now : datetime) (fs : gmap string file) (data : gmap string PyVal)
    (fp : option string) (d : Database) (v : PyVal) :
  data !! "generation_id" = Some v ->
  In (py_str str_of_float v) (map generation_id (music_generations d)) ->
  let r := create_generation_record float_of_str str_of_float db_now fs data fp
             (SessionLocal d) in
  r.2 = None
  /\ music_generations (bind_db r.1) = music_generations d
  /\ system_metrics (bind_db r.1) = system_metrics d
  /\ id_seq d <= id_seq (bind_db r.1) <= id_seq d + 1
  /\ r.1 = SessionLocal (bind_db r.1).
Proof.
  intros Hd Hdup r. unfold r.
  destruct (create_generation_record float_of_str str_of_float db_now fs data fp
              (SessionLocal d)) as [s' [g|]] eqn:Hc.
  - exfalso.
    destruct (create_some float_of_str str_of_float db_now fs data fp d s' g Hc)
      as (clean & clean' & gen & Hv & Ha & Hn & Hfresh).
    apply Hfresh.
    by rewrite (create_generation_id float_of_str str_of_float data clean clean'
                  fs fp gen v Hv Ha Hn Hd).
  - cbn [fst snd].
    destruct (create_none float_of_str str_of_float db_now fs data fp
                (SessionLocal d) s' Hc) as [-> | ->];
      cbn; repeat split; lia.
Qed.

Lemma create_generation_record_duplicate_witness :
  let r := create_generation_record no_float_of_str a_str_of_float now_example
             fs_example (<["generation_id" := PStr "gen-b"]> data_example) None
             (SessionLocal db_example) in
  r.2 = None /\ music_generations (bind_db r.1) = music_generations db_example.
Proof.
  intros r.
  destruct (create_generation_record_duplicate no_float_of_str a_str_of_float
              now_example fs_example
              (<["generation_id" := PStr "gen-b"]> data_example) None db_example
              (PStr "gen-b")) as (Hnone & Hrows & _).
  - reflexivity.
  - right. left. reflexivity.
  - split; [exact Hnone | exact Hrows].
Defined.

(** ** The interactions and the constraints of the table *)

Section Interaction.
Variable db_now : datetime.
Variable gid : string.
Variable f : MusicGeneration -> MusicGeneration.
Hypothesis f_identity : forall r, row_identity (f r) = row_identity r.

Lemma update_rows_identity (rows : list MusicGeneration) :
  map row_identity (update_rows db_now gid f rows) = map row_identity rows.
Proof.
  unfold update_rows. rewrite map_map. apply map_ext. intros r.
  destruct (by_generation_id gid r); [|reflexivity].
  rewrite <- (f_identity r). reflexivity.
Qed.

Lemma update_rows_consistent (d : Database) :
  db_consistent d ->
  db_consistent (mkDatabase (update_rows db_now gid f (music_generations d))
                   (system_metrics d) (id_seq d)).
Proof.
  assert (Hid : forall r, row_id (f r) = row_id r).
  { intros r. pose proof (f_identity r) as H. unfold row_identity in H. congruence. }
  assert (Hgid : forall r, generation_id (f r) = generation_id r).
  { intros r. pose proof (f_identity r) as H. unfold row_identity in H. congruence. }
  intros [Hwf Hseq]. split.
  - by apply update_rows_wf.
  - cbn [music_generations id_seq]. unfold update_rows.
    rewrite Forall_map. eapply Forall_impl; [exact Hseq|].
    intros r (i & Hi & Hlt). cbv beta.
    destruct (by_generation_id gid r); [|eauto].
    exists i. cbn [row_id set_updated_at]. by rewrite Hid.
Qed.
End Interaction.

(** X9. The three interactions keep the table as the schema wants it:
    after [record_play], [record_download] or [toggle_favorite], found
    or not, the ids are distinct and below the sequence, the
    [generation_id]s are distinct, every row has the [id],
    [generation_id], [status] and [created_at] it had, in the same
    order, and the sequence and the metrics are untouched; nothing is
    left pending in the session. This holds as well when the update is
    refused because a counter would leave the range of its column. *)
Theorem interactions_keep_constraints (utcnow db_now : datetime) (gid : string)
    (dur : option float) (d : Database) :
  db_consistent d ->
  Forall (fun s' =>
            db_consistent (bind_db s')
            /\ map row_identity (music_generations (bind_db s'))
               = map row_identity (music_generations d)
            /\ id_seq (bind_db s') = id_seq d
            /\ system_metrics (bind_db s') = system_metrics d
            /\ s' = SessionLocal (bind_db s'))
    [ (record_play utcnow db_now gid dur (SessionLocal d)).1;
      (record_download db_now gid (SessionLocal d)).1;
      (toggle_favorite db_now gid (SessionLocal d)).1 ].
Proof.
  intros Hcons. pose proof Hcons as [Hwf _].
  assert (Hsame : db_consistent (bind_db (SessionLocal d))
            /\ map row_identity (music_generations (bind_db (SessionLocal d)))
               = map row_identity (music_generations d)
            /\ id_seq (bind_db (SessionLocal d)) = id_seq d
            /\ system_metrics (bind_db (SessionLocal d)) = system_metrics d
            /\ SessionLocal d = SessionLocal (bind_db (SessionLocal d))).
  { simpl. auto. }
  assert (Hupd : forall f, (forall r, row_identity (f r) = row_identity r) ->
            let s' := SessionLocal (mkDatabase
                        (update_rows db_now gid f (music_generations d))
                        (system_metrics d) (id_seq d)) in
            db_consistent (bind_db s')
            /\ map row_identity (music_generations (bind_db s'))
               = map row_identity (music_generations d)
            /\ id_seq (bind_db s') = id_seq d
            /\ system_metrics (bind_db s') = system_metrics d
            /\ s' = SessionLocal (bind_db s')).
  { intros f Hf s'. unfold s'. cbn [bind_db SessionLocal music_generations
                                    id_seq system_metrics].
    split; [by apply update_rows_consistent|].
    split; [by apply update_rows_identity|]. auto. }
  destruct (query_first (by_generation_id gid) (SessionLocal d)) as [g|] eqn:Hq.
  - rewrite (toggle_favorite_found db_now gid d g Hwf Hq).
    destruct (int4 (play_count g + 1)) eqn:Hp;
      [rewrite (record_play_found utcnow db_now gid dur d g Hwf Hq Hp)
      |rewrite (record_play_refused utcnow db_now gid dur d g Hwf Hq Hp)];
      (destruct (int4 (download_count g + 1)) eqn:Hdl;
       [rewrite (record_download_found db_now gid d g Hwf Hq Hdl)
       |rewrite (record_download_refused db_now gid d g Hwf Hq Hdl)]);
      cbn [fst];
      repeat (apply List.Forall_cons;
              [first [exact Hsame | apply Hupd; reflexivity]|]);
      apply List.Forall_nil.
  - unfold record_play, record_download, toggle_favorite. rewrite Hq.
    cbn [fst].
    repeat (apply List.Forall_cons; [exact Hsame|]). apply List.Forall_nil.
Qed.

Lemma interactions_keep_constraints_witness :
  Forall (fun s' => id_seq (bind_db s') = 5
                    /\ length (music_generations (bind_db s')) = 4%nat)
    [ (record_play now_example now_example "gen-b" None (SessionLocal db_example)).1;
      (record_download now_example "gen-b" (SessionLocal db_example)).1;
      (toggle_favorite now_example "gen-b" (SessionLocal db_example)).1 ].
Proof.
  eapply Forall_impl;
    [apply (interactions_keep_constraints now_example now_example "gen-b" None
              db_example db_example_consistent)|].
  intros s' (_ & Hrows & Hseq & _). split; [exact Hseq|].
  apply (f_equal length) in Hrows. rewrite !length_map in Hrows. exact Hrows.
Defined.

(** ** The listings *)

Lemma sorts_before_total (a b : option Z) :
  sorts_before a b = false -> sorts_before b a = true.
Proof.
  destruct a as [x|], b as [y|]; simpl; try discriminate; try reflexivity.
  intros H. apply bool_decide_eq_false in H. apply bool_decide_eq_true. lia.
Qed.

Lemma sorts_before_trans (a b c : option Z) :
  sorts_before a b = true -> sorts_before b c = true -> sorts_before a c = true.
Proof.
  destruct a as [x|], b as [y|], c as [z|]; simpl; try discriminate; try reflexivity.
  intros H1 H2. apply bool_decide_eq_true in H1, H2. apply bool_decide_eq_true. lia.
Qed.

Section Listing.
Variable key : MusicGeneration -> option Z.

Lemma insert_desc_perm (x : MusicGeneration) (l : list MusicGeneration) :
  Permutation (insert_desc key x l) (x :: l).
Proof.
  induction l as [|y l IH]; simpl; [reflexivity|].
  destruct (sorts_before (key x) (key y)); [reflexivity|].
  rewrite IH. apply perm_swap.
Qed.

Lemma order_by_desc_perm (l : list MusicGeneration) :
  Permutation (order_by_desc key l) l.
Proof.
  unfold order_by_desc. induction l as [|x l IH]; simpl; [reflexivity|].
  by rewrite insert_desc_perm, IH.
Qed.

Lemma insert_desc_sorted (x : MusicGeneration) (l : list MusicGeneration) :
  StronglySorted (listed_before key) l ->
  StronglySorted (listed_before key) (insert_desc key x l).
Proof.
  induction 1 as [|y l Hs IH Hy]; simpl.
  - repeat constructor.
  - destruct (sorts_before (key x) (key y)) eqn:Hxy.
    + constructor; [by constructor|]. constructor; [exact Hxy|].
      eapply Forall_impl; [exact Hy|]. intros z Hz.
      by apply (sorts_before_trans _ (key y)).
    + constructor; [exact IH|].
      rewrite (insert_desc_perm x l). constructor; [|exact Hy].
      by apply sorts_before_total.
Qed.

Lemma order_by_desc_sorted (l : list MusicGeneration) :
  StronglySorted (listed_before key) (order_by_desc key l).
Proof.
  unfold order_by_desc. induction l as [|x l IH]; simpl; [constructor|].
  by apply insert_desc_sorted.
Qed.

(** What a listing returns: the first [limit] of the matching rows in
    descending order, or nothing when the statement is refused. *)
Lemma listing_spec (limit : Z) (rows : list MusicGeneration) :
  let listed := match sql_limit limit (order_by_desc key rows) with
                | Ok generations => generations
                | Raise _ => []
                end in
  (limit < 0 \/ int8_max < limit -> listed = [])
  /\ (0 <= limit <= int8_max -> len listed = Z.min limit (len rows))
  /\ (forall g, In g listed -> In g rows)
  /\ (forall before g between h after,
        listed = before ++ g :: between ++ h :: after -> listed_before key g h)
  /\ (forall g r, In g listed -> In r rows -> ~ In r listed -> listed_before key g r).
Proof.
  intros listed. unfold sql_limit in listed.
  assert (Hempty : listed = [] -> limit < 0 \/ int8_max < limit ->
    (limit < 0 \/ int8_max < limit -> listed = [])
    /\ (0 <= limit <= int8_max -> len listed = Z.min limit (len rows))
    /\ (forall g, In g listed -> In g rows)
    /\ (forall before g between h after,
          listed = before ++ g :: between ++ h :: after -> listed_before key g h)
    /\ (forall g r, In g listed -> In r rows -> ~ In r listed ->
          listed_before key g r)).
  { intros -> Hout.
    split; [reflexivity|]. split; [lia|]. split; [intros g []|].
    split; [intros [|? ?] ? ? ? ? ?; discriminate | intros g r []]. }
  destruct (bool_decide (limit < 0)) eqn:Hneg.
  { apply bool_decide_eq_true in Hneg. apply Hempty; [reflexivity | by left]. }
  destruct (bool_decide (int8_max < limit)) eqn:Hbig.
  { apply bool_decide_eq_true in Hbig. apply Hempty; [reflexivity | by right]. }
  clear Hempty. apply bool_decide_eq_false in Hbig.
  - apply bool_decide_eq_false in Hneg.
    pose proof (order_by_desc_perm rows) as Hperm.
    pose proof (order_by_desc_sorted rows) as Hsorted.
    set (sorted := order_by_desc key rows) in *.
    assert (Hsplit : sorted = listed ++ drop (Z.to_nat limit) sorted)
      by (symmetry; apply take_drop).
    split; [lia|]. split; [|split; [|split]].
    + intros _. unfold listed, len. rewrite length_take.
      rewrite (Permutation_length Hperm). lia.
    + intros g Hg. apply (Permutation_in _ Hperm).
      rewrite Hsplit. apply in_or_app. by left.
    + intros before g between h after Heq.
      rewrite Hsplit, Heq in Hsorted.
      rewrite <- app_assoc in Hsorted.
      apply StronglySorted_app in Hsorted as (_ & _ & Hs).
      rewrite <- app_comm_cons in Hs.
      apply StronglySorted_cons in Hs as [Hall _].
      rewrite Forall_forall in Hall. apply Hall.
      rewrite <- app_assoc. set_solver.
    + intros g r Hg Hr Hnot.
      apply (Permutation_in _ (Permutation_sym Hperm)) in Hr.
      rewrite Hsplit in Hr, Hsorted. apply in_app_or in Hr as [Hr|Hr]; [done|].
      apply StronglySorted_app in Hsorted as (Hcross & _).
      apply Hcross; by apply list_elem_of_In.
Qed.
End Listing.

(** X10. [get_most_played] lists completed rows that were played at
    least once, at most [limit] of them and all of them when there are
    no more, the most played first: a row listed earlier has at least
    the plays of a row listed later, and a played completed row that is
    left out has at most the plays of every row listed. A [limit] that
    is negative or above the largest bigint gives the empty list. *)
Theorem get_most_played_top (limit : Z) (session : Session) :
  let rows := music_generations (bind_db session) in
  let played g := has_status "completed" g && bool_decide (play_count g > 0) in
  let listed := get_most_played limit session in
  (limit < 0 \/ int8_max < limit -> listed = [])
  /\ (0 <= limit <= int8_max ->
      len listed = Z.min limit (len (List.filter played rows)))
  /\ (forall g, In g listed ->
        In g rows /\ status g = "completed" /\ play_count g > 0)
  /\ (forall before g between h after,
        listed = before ++ g :: between ++ h :: after ->
        play_count h <= play_count g)
  /\ (forall g r, In g listed -> In r rows -> status r = "completed" ->
        play_count r > 0 -> ~ In r listed -> play_count r <= play_count g).
Proof.
  intros rows played listed.
  destruct (listing_spec (fun g => Some (play_count g)) limit
              (List.filter played rows))
    as (Hneg & Hlen & Hin & Hsorted & Htop).
  change (match sql_limit limit
                  (order_by_desc (fun g => Some (play_count g))
                     (List.filter played rows)) with
          | Ok generations => generations
          | Raise _ => []
          end) with listed in *.
  assert (Hplayed : forall g, In g (List.filter played rows) <->
            In g rows /\ status g = "completed" /\ play_count g > 0).
  { intros g. rewrite List.filter_In. unfold played, has_status.
    rewrite andb_true_iff, !bool_decide_eq_true. tauto. }
  split; [exact Hneg|]. split; [exact Hlen|]. split; [|split].
  - intros g Hg. by apply Hplayed, Hin.
  - intros before g between h after Heq.
    specialize (Hsorted before g between h after Heq).
    unfold listed_before in Hsorted. simpl in Hsorted.
    by apply bool_decide_eq_true in Hsorted.
  - intros g r Hg Hr Hst Hpc Hnot.
    assert (Hb : listed_before (fun g => Some (play_count g)) g r).
    { apply Htop; [exact Hg | by apply Hplayed | exact Hnot]. }
    unfold listed_before in Hb. simpl in Hb. by apply bool_decide_eq_true in Hb.
Qed.

Lemma get_most_played_top_witness :
  let s := (record_play now_example now_example "gen-b" None
              (SessionLocal db_example)).1 in
  len (get_most_played 10 s) = 1
  /\ forall g, In g (get_most_played 10 s) -> play_count g > 0.
Proof.
  intros s.
  destruct (get_most_played_top 10 s) as (_ & Hlen & Hin & _).
  split.
  - rewrite Hlen by (unfold int8_max; lia). vm_compute. reflexivity.
  - intros g Hg. by apply Hin.
Defined.

Lemma favorites_all (limit : Z) (d : Database) (g : MusicGeneration) :
  len (music_generations d) <= limit <= int8_max ->
  In g (get_favorites limit (SessionLocal d)) <->
  In g (music_generations d) /\ status g = "completed" /\ is_favorited g = true.
Proof.
  intros Hlimit. unfold get_favorites, query_all, sql_limit.
  cbn [bind_db SessionLocal].
  set (fav := fun g => has_status "completed" g
                       && bool_decide (is_favorited g = true)).
  pose proof (len_nonneg (music_generations d)) as Hnn.
  rewrite bool_decide_eq_false_2 by lia.
  rewrite bool_decide_eq_false_2 by lia.
  rewrite take_ge.
  - split.
    + intros Hg. apply (Permutation_in _ (order_by_desc_perm created_at _)) in Hg.
      apply List.filter_In in Hg as [Hin Hf]. unfold fav, has_status in Hf.
      apply andb_true_iff in Hf as [Hs Hf].
      apply bool_decide_eq_true in Hs, Hf. auto.
    + intros (Hin & Hs & Hf).
      apply (Permutation_in _ (Permutation_sym (order_by_desc_perm created_at _))).
      apply List.filter_In. split; [exact Hin|]. unfold fav, has_status.
      apply andb_true_iff. by rewrite !bool_decide_eq_true.
  - rewrite (Permutation_length (order_by_desc_perm created_at _)).
    pose proof (len_filter_le fav (music_generations d)) as Hle.
    unfold len in *. lia.
Qed.

(** X11. [get_favorites] follows [toggle_favorite]. When the limit
    covers the table and is a bigint, a completed record is listed among the favorites
    after a toggle exactly when the toggle returned true, that is when
    it was not a favorite before; the listing of every other record is
    as it was. *)
Theorem get_favorites_after_toggle (db_now : datetime) (gid : string)
    (limit : Z) (d : Database) (g : MusicGeneration) :
  db_wf d ->
  In g (music_generations d) -> generation_id g = gid ->
  status g = "completed" ->
  len (music_generations d) <= limit <= int8_max ->
  let after := toggle_favorite db_now gid (SessionLocal d) in
  after.2 = Some (negb (is_favorited g))
  /\ ((exists g', In g' (get_favorites limit after.1) /\ generation_id g' = gid)
      <-> after.2 = Some true)
  /\ (forall r, generation_id r <> gid ->
        In r (get_favorites limit after.1)
        <-> In r (get_favorites limit (SessionLocal d))).
Proof.
  intros Hwf Hin Hgid Hst Hlimit after.
  pose proof (query_first_present gid d g Hwf Hin Hgid) as Hq.
  unfold after. rewrite (toggle_favorite_found db_now gid d g Hwf Hq).
  cbn [fst snd].
  set (f := fun r => (toggle_favorite_obj r).1).
  set (d' := mkDatabase (update_rows db_now gid f (music_generations d))
               (system_metrics d) (id_seq d)).
  assert (Hlimit' : len (music_generations d') <= limit <= int8_max).
  { unfold d', update_rows, len. cbn [music_generations]. rewrite length_map.
    exact Hlimit. }
  assert (Hrows : forall r, In r (music_generations d') <->
            exists r0, In r0 (music_generations d)
              /\ r = if by_generation_id gid r0
                     then set_updated_at (Some db_now) (f r0) else r0).
  { intros r. unfold d', update_rows. cbn [music_generations].
    rewrite in_map_iff. split; intros (r0 & H1 & H2); exists r0; auto. }
  split; [reflexivity|]. split.
  - split.
    + intros (g' & Hg' & Hgid').
      apply (favorites_all limit d' g' Hlimit') in Hg' as (Hin' & _ & Hfav).
      apply Hrows in Hin' as (r0 & Hr0 & ->).
      destruct (by_generation_id gid r0) eqn:Hp.
      * rewrite (by_gid_unique d gid g Hwf Hq r0 Hr0 Hp) in Hfav.
        simpl in Hfav. by rewrite Hfav.
      * unfold by_generation_id in Hp. apply bool_decide_eq_false in Hp.
        contradiction.
    + intros Hneg. injection Hneg as Hneg.
      exists (set_updated_at (Some db_now) (f g)). split; [|exact Hgid].
      apply (favorites_all limit d' _ Hlimit'). split; [|split].
      * apply Hrows. exists g. split; [exact Hin|].
        unfold by_generation_id. by rewrite bool_decide_eq_true_2.
      * exact Hst.
      * exact Hneg.
  - intros r Hr.
    rewrite (favorites_all limit d' r Hlimit'), (favorites_all limit d r Hlimit).
    assert (Hiff : In r (music_generations d') <-> In r (music_generations d)).
    { rewrite Hrows. split.
      - intros (r0 & Hr0 & ->). destruct (by_generation_id gid r0) eqn:Hp.
        + exfalso. apply Hr. simpl. unfold by_generation_id in Hp.
          by apply bool_decide_eq_true in Hp.
        + exact Hr0.
      - intros Hr0. exists r. split; [exact Hr0|].
        unfold by_generation_id. by rewrite bool_decide_eq_false_2. }
    tauto.
Qed.

Lemma get_favorites_after_toggle_witness :
  (exists g', In g' (get_favorites 50
                       (toggle_favorite now_example "gen-b"
                          (SessionLocal db_example)).1)
              /\ generation_id g' = "gen-b").
Proof.
  destruct (get_favorites_after_toggle now_example "gen-b" 50 db_example gen_b
              db_example_wf) as (Hr & Hiff & _).
  - right. left. reflexivity.
  - reflexivity.
  - reflexivity.
  - unfold int8_max. vm_compute. split; discriminate.
  - apply Hiff. exact Hr.
Defined.
